(** * chrome-tab-todo: the todo/group domain model and its manager

    A shallow embedding of [src/scripts/newtab.js]: the entity classes
    [TodoGroup] and [TodoItem], the [TodoManager] that owns the two
    collections, and the host facilities they call (the system clock,
    [Math.random], [Number], [chrome.storage.sync]).

    JavaScript is dynamically typed, so arguments are [JsValue]s and the
    checks the code performs on them ([typeof], truthiness, [===]) are
    written out.  Exceptions are completions of a state-and-exception
    monad: a [Throw] keeps the state reached when it was raised, because
    the code never rolls a mutation back. *)

From Stdlib Require Import List ZArith QArith Bool String Ascii Lia PeanoNat.
From Stdlib Require Import Sorted Permutation.
Import ListNotations.

Close Scope Q_scope.
Open Scope nat_scope.

Set Implicit Arguments.

(** ** Strings

    A JavaScript string is a sequence of UTF-16 code units; [length]
    counts code units. *)

Definition JsString := list N.

(** A string literal of the source (the literals used are all ASCII). *)
Definition lit (s : string) : JsString :=
  List.map N_of_ascii (list_ascii_of_string s).

(** The code points [String.prototype.trim] strips: WhiteSpace and
    LineTerminator of ECMA-262 (all of them in the basic plane). *)
Definition isWhiteSpace (c : N) : bool :=
  (N.eqb c 9 || N.eqb c 10 || N.eqb c 11 || N.eqb c 12 || N.eqb c 13
   || N.eqb c 32 || N.eqb c 160 || N.eqb c 5760
   || (N.leb 8192 c && N.leb c 8202)
   || N.eqb c 8232 || N.eqb c 8233 || N.eqb c 8239 || N.eqb c 8287
   || N.eqb c 12288 || N.eqb c 65279)%N.

Fixpoint trimStart (s : JsString) : JsString :=
  match s with
  | [] => []
  | c :: r => if isWhiteSpace c then trimStart r else s
  end.

Definition trimEnd (s : JsString) : JsString := rev (trimStart (rev s)).

Definition trim (s : JsString) : JsString := trimEnd (trimStart s).

(** [s.substring(0, n)] *)
Definition substring0 (n : nat) (s : JsString) : JsString := firstn n s.

(** Equality of strings, code unit by code unit. *)
Fixpoint string_eqb (a b : JsString) : bool :=
  match a, b with
  | [], [] => true
  | x :: r, y :: t => N.eqb x y && string_eqb r t
  | _, _ => false
  end.

(** ** Numbers

    A number is NaN, an infinity, negative zero or a finite value; the
    finite doubles are rationals, so [Fin q] carries the exact value
    ([Fin 0] is [+0]). *)

Inductive JsNumber :=
| NaN
| PosInf
| NegInf
| NegZero
| Fin (q : Q).

Definition num_of_nat (n : nat) : JsNumber := Fin (inject_Z (Z.of_nat n)).

Definition num_zero : JsNumber := Fin 0.

(** ToBoolean on a number: NaN and the zeros are falsy. *)
Definition num_truthy (n : JsNumber) : bool :=
  match n with
  | NaN | NegZero => false
  | PosInf | NegInf => true
  | Fin q => negb (Qeq_bool q 0)
  end.

(** [a - b].  On finite operands the difference is kept exact instead of
    rounded: the only consumer is the sign test of [Array.prototype.sort],
    and rounding to nearest never changes the sign of a difference of two
    doubles. *)
Definition num_sub (a b : JsNumber) : JsNumber :=
  match a, b with
  | NaN, _ | _, NaN => NaN
  | PosInf, PosInf | NegInf, NegInf => NaN
  | PosInf, _ => PosInf
  | NegInf, _ => NegInf
  | _, PosInf => NegInf
  | _, NegInf => PosInf
  | NegZero, NegZero => Fin 0
  | NegZero, Fin q => Fin (Qminus 0 q)
  | Fin q, NegZero => Fin q
  | Fin p, Fin q => Fin (Qminus p q)
  end.

(** [v > 0] *)
Definition num_positive (v : JsNumber) : bool :=
  match v with
  | PosInf => true
  | Fin q => match Qcompare q 0 with Gt => true | _ => false end
  | _ => false
  end.

(** [a === b] on numbers: NaN equals nothing, the two zeros are equal. *)
Definition num_strict_equals (a b : JsNumber) : bool :=
  match a, b with
  | NaN, _ | _, NaN => false
  | PosInf, PosInf | NegInf, NegInf | NegZero, NegZero => true
  | NegZero, Fin q | Fin q, NegZero => Qeq_bool q 0
  | Fin p, Fin q => Qeq_bool p q
  | _, _ => false
  end.

(** ** Values

    The values the code can be handed: the primitives (BigInt aside),
    symbols, and data objects as JSON and [chrome.storage] produce them
    (plain objects and arrays; no functions).  Of an object the code
    observes its identity ([===]), its own data properties, and what
    [Number(o)] evaluates to: [number = None] when the conversion to a
    primitive throws, as for [{toString: 1}]; [Some NaN] for [{}]. *)

#[warnings="-register-all"]
Inductive JsValue :=
| JUndefined
| JNull
| JBool (b : bool)
| JNum (n : JsNumber)
| JStr (s : JsString)
| JSymbol (key : nat)
| JObject (ref : nat) (number : option JsNumber)
          (props : list (JsString * JsValue)).

Inductive JsType :=
| TypeUndefined | TypeObject | TypeBoolean | TypeNumber | TypeString
| TypeSymbol.

Definition typeof (v : JsValue) : JsType :=
  match v with
  | JUndefined => TypeUndefined
  | JNull => TypeObject
  | JBool _ => TypeBoolean
  | JNum _ => TypeNumber
  | JStr _ => TypeString
  | JSymbol _ => TypeSymbol
  | JObject _ _ _ => TypeObject
  end.

Definition type_eqb (a b : JsType) : bool :=
  match a, b with
  | TypeUndefined, TypeUndefined | TypeObject, TypeObject
  | TypeBoolean, TypeBoolean | TypeNumber, TypeNumber
  | TypeString, TypeString | TypeSymbol, TypeSymbol => true
  | _, _ => false
  end.

(** [Boolean(v)], also the test of [!v], [v || w] and [if (v)]. *)
Definition ToBoolean (v : JsValue) : bool :=
  match v with
  | JUndefined | JNull => false
  | JBool b => b
  | JNum n => num_truthy n
  | JStr s => negb (Nat.eqb (List.length s) 0)
  | JSymbol _ | JObject _ _ _ => true
  end.

(** [a || b] *)
Definition js_or (a b : JsValue) : JsValue := if ToBoolean a then a else b.

(** [a === b] *)
Definition strict_equals (a b : JsValue) : bool :=
  match a, b with
  | JUndefined, JUndefined | JNull, JNull => true
  | JBool x, JBool y => Bool.eqb x y
  | JNum x, JNum y => num_strict_equals x y
  | JStr x, JStr y => string_eqb x y
  | JSymbol x, JSymbol y => Nat.eqb x y
  | JObject x _ _, JObject y _ _ => Nat.eqb x y
  | _, _ => false
  end.

(** [o.k] for a property [k] that no prototype defines ([name], [id],
    [position], ...): the own data property, [undefined] when absent. *)
Fixpoint lookup (k : JsString) (props : list (JsString * JsValue)) : JsValue :=
  match props with
  | [] => JUndefined
  | (k', v) :: r => if string_eqb k k' then v else lookup k r
  end.

Definition Get (v : JsValue) (k : string) : JsValue :=
  match v with
  | JObject _ _ props => lookup (lit k) props
  | _ => JUndefined
  end.

(** A parameter default [p = d]: taken when the argument is [undefined]. *)
Definition default_arg (d v : JsValue) : JsValue :=
  match v with JUndefined => d | _ => v end.

(** ** Exceptions and the monad of effects *)

Inductive JsError :=
| TodoValidationError (message : string)
| StorageError (message : string)
| TypeError
| HostError.          (* a rejection of a [chrome.storage] call *)

Definition isValidationError (e : JsError) : bool :=
  match e with TodoValidationError _ => true | _ => false end.

Inductive Completion (A : Type) :=
| Return (a : A)
| Throw (e : JsError).

Arguments Return {A} a.
Arguments Throw {A} e.

(** A computation over a state [S]: it ends normally or abruptly, and in
    both cases leaves a state behind. *)
Definition M (S A : Type) : Type := S -> Completion A * S.

Definition ret {S A} (a : A) : M S A := fun s => (Return a, s).

Definition throw {S A} (e : JsError) : M S A := fun s => (Throw e, s).

Definition bind {S A B} (c : M S A) (k : A -> M S B) : M S B :=
  fun s =>
    match c s with
    | (Return a, s') => k a s'
    | (Throw e, s') => (Throw e, s')
    end.

(** [try { body } catch (error) { handler }] *)
Definition try_catch {S A} (body : M S A) (handler : JsError -> M S A) : M S A :=
  fun s =>
    match body s with
    | (Return a, s') => (Return a, s')
    | (Throw e, s') => handler e s'
    end.

Declare Scope js_scope.
Delimit Scope js_scope with js.

Notation "x <- c ;; k" := (bind c (fun x => k))
  (at level 61, c at next level, right associativity) : js_scope.
Notation "c ;; k" := (bind c (fun _ => k))
  (at level 61, right associativity) : js_scope.

Open Scope js_scope.

(** [xs.map(f)] for an effectful callback, left to right. *)
Fixpoint mapM {S A B} (f : A -> M S B) (xs : list A) : M S (list B) :=
  match xs with
  | [] => ret []
  | x :: r => y <- f x ;; ys <- mapM f r ;; ret (y :: ys)
  end.

(** [xs.forEach((x, index) => ...)] updating each element in place; [i] is
    the index of the head. *)
Fixpoint forEachM {S A} (f : A -> nat -> M S A) (i : nat) (xs : list A)
  : M S (list A) :=
  match xs with
  | [] => ret []
  | x :: r => y <- f x i ;; ys <- forEachM f (Datatypes.S i) r ;; ret (y :: ys)
  end.

(** ** The host

    What the page cannot decide: the readings of the system clock, the
    draws of [Math.random], string-to-number conversion, and whether a
    storage call is fulfilled.  A clock reading is kept in the two
    renderings the code asks for. *)

Record ClockReading := {
  iso : JsString;      (* [new Date().toISOString()] *)
  base36 : JsString    (* [Date.now().toString(36)] *)
}.

Record Host := {
  clock : nat -> ClockReading;           (* the n-th reading of the clock *)
  random36 : nat -> JsString;            (* the n-th [Math.random().toString(36).substr(2)] *)
  StringToNumber : JsString -> JsNumber; (* ECMA-262 StringToNumber *)
  get_fulfilled : nat -> bool;           (* is the n-th [storage.sync.get] fulfilled *)
  set_fulfilled : nat -> bool            (* is the n-th [storage.sync.set] fulfilled *)
}.

(** What a storage key holds: nothing, an array of records, or some other
    value (not an array). *)
Inductive Stored :=
| Absent
| StoredArray (items : list JsValue)
| StoredOther (v : JsValue).

Record World := {
  host : Host;
  clock_reads : nat;        (* clock readings taken so far *)
  random_draws : nat;
  gets : nat;               (* [storage.sync.get] calls issued so far *)
  sets : nat;               (* [storage.sync.set] calls issued so far *)
  next_ref : nat;           (* identity of the next object created *)
  stored_groups : Stored;   (* under CONFIG.GROUPS_STORAGE_KEY *)
  stored_todos : Stored     (* under CONFIG.STORAGE_KEY *)
}.

Inductive StorageKey := GROUPS_STORAGE_KEY | STORAGE_KEY.

Definition MAX_TODO_LENGTH : nat := 200.
Definition MAX_GROUP_NAME_LENGTH : nat := 50.

Definition read_clock : M World ClockReading := fun w =>
  (Return (clock (host w) (clock_reads w)),
   {| host := host w; clock_reads := S (clock_reads w);
      random_draws := random_draws w; gets := gets w; sets := sets w;
      next_ref := next_ref w; stored_groups := stored_groups w;
      stored_todos := stored_todos w |}).

(** [new Date().toISOString()] *)
Definition now_iso : M World JsString := r <- read_clock ;; ret (iso r).

(** [Date.now().toString(36)] *)
Definition now_base36 : M World JsString := r <- read_clock ;; ret (base36 r).

(** [Math.random().toString(36).substr(2)] *)
Definition random_suffix : M World JsString := fun w =>
  (Return (random36 (host w) (random_draws w)),
   {| host := host w; clock_reads := clock_reads w;
      random_draws := S (random_draws w); gets := gets w; sets := sets w;
      next_ref := next_ref w; stored_groups := stored_groups w;
      stored_todos := stored_todos w |}).

(** An object literal [{k1: v1, ...}]: a fresh plain object; [Number] of
    it is NaN. *)
Definition new_object (props : list (JsString * JsValue)) : M World JsValue :=
  fun w =>
  (Return (JObject (next_ref w) (Some NaN) props),
   {| host := host w; clock_reads := clock_reads w;
      random_draws := random_draws w; gets := gets w; sets := sets w;
      next_ref := S (next_ref w); stored_groups := stored_groups w;
      stored_todos := stored_todos w |}).

(** [Number(v)] as a value, [None] when it throws a TypeError: on a
    symbol and on an object that has no primitive value. *)
Definition ToNumber (h : Host) (v : JsValue) : option JsNumber :=
  match v with
  | JUndefined => Some NaN
  | JNull => Some num_zero
  | JBool b => Some (if b then num_of_nat 1 else num_zero)
  | JNum n => Some n
  | JStr s => Some (StringToNumber h s)
  | JSymbol _ => None
  | JObject _ number _ => number
  end.

Definition Number (v : JsValue) : M World JsNumber := fun w =>
  match ToNumber (host w) v with
  | Some n => (Return n, w)
  | None => (Throw TypeError, w)
  end.

(** [Number(v) || 0] *)
Definition Number_or_0 (v : JsValue) : M World JsNumber :=
  n <- Number v ;; ret (if num_truthy n then n else num_zero).

(** [await chrome.storage.sync.get(key)] followed by [result[key]]. *)
Definition storage_get (key : StorageKey) : M World Stored := fun w =>
  let w' := {| host := host w; clock_reads := clock_reads w;
               random_draws := random_draws w; gets := S (gets w);
               sets := sets w; next_ref := next_ref w;
               stored_groups := stored_groups w;
               stored_todos := stored_todos w |} in
  if get_fulfilled (host w) (gets w)
  then (Return (match key with
                | GROUPS_STORAGE_KEY => stored_groups w
                | STORAGE_KEY => stored_todos w
                end), w')
  else (Throw HostError, w').

(** [await chrome.storage.sync.set({ [key]: items })]: the array replaces
    what the key held, unless the call is rejected. *)
Definition storage_set (key : StorageKey) (items : list JsValue)
  : M World unit := fun w =>
  if set_fulfilled (host w) (sets w)
  then (Return tt,
        {| host := host w; clock_reads := clock_reads w;
           random_draws := random_draws w; gets := gets w;
           sets := S (sets w); next_ref := next_ref w;
           stored_groups := match key with
                            | GROUPS_STORAGE_KEY => StoredArray items
                            | STORAGE_KEY => stored_groups w
                            end;
           stored_todos := match key with
                           | GROUPS_STORAGE_KEY => stored_todos w
                           | STORAGE_KEY => StoredArray items
                           end |})
  else (Throw HostError,
        {| host := host w; clock_reads := clock_reads w;
           random_draws := random_draws w; gets := gets w;
           sets := S (sets w); next_ref := next_ref w;
           stored_groups := stored_groups w;
           stored_todos := stored_todos w |}).

(** [stored || []], about to be [.map]ped: a truthy value that is not an
    array has no [map] method. *)
Definition array_or_empty {S} (stored : Stored) : M S (list JsValue) :=
  match stored with
  | Absent => ret []
  | StoredArray items => ret items
  | StoredOther v => if ToBoolean v then throw TypeError else ret []
  end.

(** [v.trim()] and [v.substring(0, n)]: methods of strings only; on any
    other value of this model the call is a TypeError. *)
Definition method_trim {S} (v : JsValue) : M S JsString :=
  match v with
  | JStr s => ret (trim s)
  | _ => throw TypeError
  end.

Definition method_substring0 {S} (n : nat) (v : JsValue) : M S JsString :=
  match v with
  | JStr s => ret (substring0 n s)
  | _ => throw TypeError
  end.

(** ** Arrays *)

Section Arrays.
Variable A : Type.

(** [xs.find(p)] *)
Definition Array_find (p : A -> bool) (xs : list A) : option A :=
  List.find p xs.

(** [xs.findIndex(p)]: the index of the first match, or [-1]. *)
Fixpoint findIndex_from (p : A -> bool) (i : Z) (xs : list A) : Z :=
  match xs with
  | [] => (-1)%Z
  | x :: r => if p x then i else findIndex_from p (i + 1)%Z r
  end.

Definition Array_findIndex (p : A -> bool) (xs : list A) : Z :=
  findIndex_from p 0%Z xs.

Fixpoint remove_at (i : nat) (xs : list A) : list A :=
  match xs, i with
  | [], _ => []
  | _ :: r, O => r
  | x :: r, S j => x :: remove_at j r
  end.

(** [xs.splice(i, 1)] for an index [i >= 0]. *)
Definition Array_splice1 (i : Z) (xs : list A) : list A :=
  remove_at (Z.to_nat i) xs.

(** The object [find] returned is mutated in place: the first match of
    the array takes the new contents. *)
Fixpoint replace_first (p : A -> bool) (y : A) (xs : list A) : list A :=
  match xs with
  | [] => []
  | x :: r => if p x then y :: r else x :: replace_first p y r
  end.

(** [xs.sort(comparefn)]: the sort is stable, and an element moves
    behind another only when the comparator says so ([v > 0]; a NaN
    result counts as 0). *)
Fixpoint sort_insert (comparefn : A -> A -> JsNumber) (x : A) (xs : list A)
  : list A :=
  match xs with
  | [] => [x]
  | y :: r =>
      if num_positive (comparefn x y) then y :: sort_insert comparefn x r
      else x :: y :: r
  end.

Definition Array_sort (comparefn : A -> A -> JsNumber) (xs : list A)
  : list A :=
  fold_right (sort_insert comparefn) [] xs.
End Arrays.

(** ** class TodoGroup *)

Module TodoGroup.

Record t := mk {
  id : JsValue;
  name : JsString;
  position : JsNumber;
  createdAt : JsString;
  updatedAt : JsString
}.

Definition validateName {S} (name : JsValue) : M S unit :=
  if negb (ToBoolean name) || negb (type_eqb (typeof name) TypeString)
  then throw (TodoValidationError "Group name must be a non-empty string")
  else
    trimmedName <- method_trim name ;;
    if Nat.eqb (List.length trimmedName) 0
    then throw (TodoValidationError
                  "Group name cannot be empty or whitespace only")
    else if Nat.ltb MAX_GROUP_NAME_LENGTH (List.length trimmedName)
    then throw (TodoValidationError
                  "Group name cannot exceed 50 characters")
    else ret tt.

Definition generateId : M World JsValue :=
  stamp <- now_base36 ;;
  suffix <- random_suffix ;;
  ret (JStr (lit "group_" ++ stamp ++ suffix)).

(** [new TodoGroup(name, position = 0, id = null)] *)
Definition constructor (name position id : JsValue) : M World t :=
  let position := default_arg (JNum num_zero) position in
  let id := default_arg JNull id in
  validateName name ;;
  this_id <- (if ToBoolean id then ret id else generateId) ;;
  this_name <- method_trim name ;;
  this_position <- Number_or_0 position ;;
  this_createdAt <- now_iso ;;
  this_updatedAt <- now_iso ;;
  ret (mk this_id this_name this_position this_createdAt this_updatedAt).

Definition updateName (this : t) (newName : JsValue) : M World t :=
  validateName newName ;;
  this_name <- method_trim newName ;;
  this_updatedAt <- now_iso ;;
  ret (mk (id this) this_name (position this) (createdAt this)
          this_updatedAt).

Definition updatePosition (this : t) (newPosition : JsValue) : M World t :=
  this_position <- Number_or_0 newPosition ;;
  this_updatedAt <- now_iso ;;
  ret (mk (id this) (name this) this_position (createdAt this)
          this_updatedAt).

Definition toJSON (this : t) : M World JsValue :=
  new_object [ (lit "id", id this);
               (lit "name", JStr (name this));
               (lit "position", JNum (position this));
               (lit "createdAt", JStr (createdAt this));
               (lit "updatedAt", JStr (updatedAt this)) ].

Definition fromJSON (data : JsValue) : M World t :=
  if negb (ToBoolean data) || negb (type_eqb (typeof data) TypeObject)
  then throw (TodoValidationError "Invalid group data format")
  else constructor (Get data "name") (Get data "position") (Get data "id").

End TodoGroup.

(** ** class TodoItem *)

Module TodoItem.

Record t := mk {
  id : JsValue;
  text : JsString;
  groupId : JsValue;
  completed : bool;
  description : JsValue;
  createdAt : JsString;
  updatedAt : JsString
}.

Definition validateText {S} (text : JsValue) : M S unit :=
  if negb (ToBoolean text) || negb (type_eqb (typeof text) TypeString)
  then throw (TodoValidationError "Todo text must be a non-empty string")
  else
    trimmedText <- method_trim text ;;
    if Nat.eqb (List.length trimmedText) 0
    then throw (TodoValidationError
                  "Todo text cannot be empty or whitespace only")
    else if Nat.ltb MAX_TODO_LENGTH (List.length trimmedText)
    then throw (TodoValidationError
                  "Todo text cannot exceed 200 characters")
    else ret tt.

Definition validateGroupId {S} (groupId : JsValue) : M S unit :=
  if negb (ToBoolean groupId) || negb (type_eqb (typeof groupId) TypeString)
  then throw (TodoValidationError "Group ID must be a non-empty string")
  else ret tt.

Definition generateId : M World JsValue :=
  stamp <- now_base36 ;;
  suffix <- random_suffix ;;
  ret (JStr (stamp ++ suffix)).

(** [new TodoItem(text, groupId, completed = false, description = '',
    id = null)] *)
Definition constructor (text groupId completed description id : JsValue)
  : M World t :=
  let completed := default_arg (JBool false) completed in
  let description := default_arg (JStr []) description in
  let id := default_arg JNull id in
  validateText text ;;
  validateGroupId groupId ;;
  this_id <- (if ToBoolean id then ret id else generateId) ;;
  this_text <- method_trim text ;;
  this_createdAt <- now_iso ;;
  this_updatedAt <- now_iso ;;
  ret (mk this_id this_text groupId (ToBoolean completed)
          (js_or description (JStr [])) this_createdAt this_updatedAt).

Definition updateText (this : t) (newText : JsValue) : M World t :=
  validateText newText ;;
  this_text <- method_trim newText ;;
  this_updatedAt <- now_iso ;;
  ret (mk (id this) this_text (groupId this) (completed this)
          (description this) (createdAt this) this_updatedAt).

Definition toggleCompletion (this : t) : M World t :=
  this_updatedAt <- now_iso ;;
  ret (mk (id this) (text this) (groupId this) (negb (completed this))
          (description this) (createdAt this) this_updatedAt).

Definition updateDescription (this : t) (newDescription : JsValue)
  : M World t :=
  this_updatedAt <- now_iso ;;
  ret (mk (id this) (text this) (groupId this) (completed this)
          (js_or newDescription (JStr [])) (createdAt this) this_updatedAt).

Definition toJSON (this : t) : M World JsValue :=
  new_object [ (lit "id", id this);
               (lit "text", JStr (text this));
               (lit "groupId", groupId this);
               (lit "completed", JBool (completed this));
               (lit "description", description this);
               (lit "createdAt", JStr (createdAt this));
               (lit "updatedAt", JStr (updatedAt this)) ].

Definition fromJSON (data : JsValue) : M World t :=
  if negb (ToBoolean data) || negb (type_eqb (typeof data) TypeObject)
  then throw (TodoValidationError "Invalid todo data format")
  else constructor (Get data "text") (Get data "groupId")
                   (Get data "completed")
                   (js_or (Get data "description") (JStr []))
                   (Get data "id").

End TodoItem.

(** ** class TodoManager

    The manager's methods are [async]; a caller awaits each before it
    issues the next, so a method is run to completion.  Entities are held
    by value in the two collections: an operation that returns an entity
    returns its contents at that time. *)

Module TodoManager.

Record t := mk {
  todos : list TodoItem.t;
  groups : list TodoGroup.t;
  currentFilter : JsValue;
  isInitialized : bool
}.

(** [new TodoManager()] *)
Definition constructor : t := mk [] [] (JStr (lit "active")) false.

(** The manager ([this]) together with the world it runs in. *)
Definition State : Type := t * World.

Definition host_call {A} (c : M World A) : M State A := fun s =>
  match c (snd s) with
  | (r, w) => (r, (fst s, w))
  end.

Definition this_todos : M State (list TodoItem.t) :=
  fun s => (Return (todos (fst s)), s).

Definition this_groups : M State (list TodoGroup.t) :=
  fun s => (Return (groups (fst s)), s).

Definition set_todos (xs : list TodoItem.t) : M State unit := fun s =>
  (Return tt,
   (mk xs (groups (fst s)) (currentFilter (fst s)) (isInitialized (fst s)),
    snd s)).

Definition set_groups (xs : list TodoGroup.t) : M State unit := fun s =>
  (Return tt,
   (mk (todos (fst s)) xs (currentFilter (fst s)) (isInitialized (fst s)),
    snd s)).

Definition set_isInitialized (b : bool) : M State unit := fun s =>
  (Return tt,
   (mk (todos (fst s)) (groups (fst s)) (currentFilter (fst s)) b, snd s)).

(** [Promise.all([a, b])]: both calls are issued, [a] first; the result
    is rejected when either is. *)
Definition Promise_all2 (a b : M State unit) : M State unit := fun s =>
  match a s with
  | (ra, s1) =>
      match b s1 with
      | (rb, s2) =>
          (match ra with
           | Throw e => Throw e
           | Return _ => rb
           end, s2)
      end
  end.

Definition saveGroups : M State unit :=
  try_catch
    (gs <- this_groups ;;
     groupData <- host_call (mapM TodoGroup.toJSON gs) ;;
     host_call (storage_set GROUPS_STORAGE_KEY groupData))
    (fun _ => throw (StorageError "Failed to save groups to storage")).

Definition saveTodos : M State unit :=
  try_catch
    (ts <- this_todos ;;
     todoData <- host_call (mapM TodoItem.toJSON ts) ;;
     host_call (storage_set STORAGE_KEY todoData))
    (fun _ => throw (StorageError "Failed to save todos to storage")).

(** The callback of [storedGroups.map] in [loadGroups]: a record that
    fails to deserialize becomes [null], filtered out afterwards. *)
Definition loadGroup (groupData : JsValue) : M World (option TodoGroup.t) :=
  try_catch (g <- TodoGroup.fromJSON groupData ;; ret (Some g))
            (fun _ => ret None).

Definition loadTodo (todoData : JsValue) : M World (option TodoItem.t) :=
  try_catch (x <- TodoItem.fromJSON todoData ;; ret (Some x))
            (fun _ => ret None).

Fixpoint filter_not_null {A} (xs : list (option A)) : list A :=
  match xs with
  | [] => []
  | Some x :: r => x :: filter_not_null r
  | None :: r => filter_not_null r
  end.

Definition loadGroups : M State unit :=
  try_catch
    (result <- host_call (storage_get GROUPS_STORAGE_KEY) ;;
     storedGroups <- array_or_empty result ;;
     loaded <- host_call (mapM loadGroup storedGroups) ;;
     set_groups (filter_not_null loaded))
    (fun _ => throw (StorageError "Failed to load groups from storage")).

Definition loadTodos : M State unit :=
  try_catch
    (result <- host_call (storage_get STORAGE_KEY) ;;
     storedTodos <- array_or_empty result ;;
     loaded <- host_call (mapM loadTodo storedTodos) ;;
     set_todos (filter_not_null loaded))
    (fun _ => throw (StorageError "Failed to load todos from storage")).

(** [(a, b) => a.position - b.position] *)
Definition by_position (a b : TodoGroup.t) : JsNumber :=
  num_sub (TodoGroup.position a) (TodoGroup.position b).

(** [addGroup(name, position = null)] *)
Definition addGroup (name position : JsValue) : M State TodoGroup.t :=
  let position := default_arg JNull position in
  try_catch
    (gs <- this_groups ;;
     let newPosition :=
       if negb (strict_equals position JNull) then position
       else JNum (num_of_nat (List.length gs)) in
     group <- host_call (TodoGroup.constructor name newPosition JUndefined) ;;
     gs <- this_groups ;;
     set_groups (gs ++ [group]) ;;
     gs <- this_groups ;;
     set_groups (Array_sort by_position gs) ;;
     saveGroups ;;
     ret group)
    (fun error =>
       if isValidationError error then throw error
       else throw (StorageError "Failed to add group")).

Definition createDefaultGroup : M State TodoGroup.t :=
  try_catch
    (defaultGroup <- addGroup (JStr (lit "To Do")) JUndefined ;;
     ret defaultGroup)
    (fun _ => throw (StorageError "Failed to create default group")).

Definition initialize : M State unit :=
  try_catch
    (loadGroups ;;
     loadTodos ;;
     gs <- this_groups ;;
     (if Nat.eqb (List.length gs) 0
      then (createDefaultGroup ;; ret tt)
      else ret tt) ;;
     set_isInitialized true)
    (fun _ => throw (StorageError "Failed to initialize todo manager")).

Definition removeGroup (groupId : JsValue) : M State bool :=
  try_catch
    (gs <- this_groups ;;
     let groupIndex :=
       Array_findIndex
         (fun group => strict_equals (TodoGroup.id group) groupId) gs in
     if Z.eqb groupIndex (-1) then ret false
     else
       ts <- this_todos ;;
       set_todos
         (filter (fun todo =>
                    negb (strict_equals (TodoItem.groupId todo) groupId))
                 ts) ;;
       gs <- this_groups ;;
       set_groups (Array_splice1 groupIndex gs) ;;
       gs <- this_groups ;;
       gs' <- host_call
                (forEachM
                   (fun group index =>
                      TodoGroup.updatePosition group
                        (JNum (num_of_nat index)))
                   0 gs) ;;
       set_groups gs' ;;
       Promise_all2 saveGroups saveTodos ;;
       ret true)
    (fun _ => throw (StorageError "Failed to remove group")).

Definition updateGroupName (groupId newName : JsValue) : M State bool :=
  try_catch
    (gs <- this_groups ;;
     let is_it group := strict_equals (TodoGroup.id group) groupId in
     match Array_find is_it gs with
     | None => ret false
     | Some group =>
         group' <- host_call (TodoGroup.updateName group newName) ;;
         set_groups (replace_first is_it group' gs) ;;
         saveGroups ;;
         ret true
     end)
    (fun error =>
       if isValidationError error then throw error
       else throw (StorageError "Failed to update group name")).

Definition addTodo (text groupId : JsValue) : M State TodoItem.t :=
  try_catch
    ((* the argument of the first Logger.info: text.substring(0, 50) *)
     method_substring0 50 text ;;
     gs <- this_groups ;;
     match Array_find
             (fun g => strict_equals (TodoGroup.id g) groupId) gs with
     | None => throw (TodoValidationError "Group not found")
     | Some _ =>
         todo <- host_call
                   (TodoItem.constructor text groupId JUndefined JUndefined
                                         JUndefined) ;;
         ts <- this_todos ;;
         set_todos (ts ++ [todo]) ;;
         saveTodos ;;
         ret todo
     end)
    (fun error =>
       if isValidationError error then throw error
       else throw (StorageError "Failed to add todo item")).

Definition removeTodo (id : JsValue) : M State bool :=
  try_catch
    (ts <- this_todos ;;
     let index :=
       Array_findIndex (fun todo => strict_equals (TodoItem.id todo) id) ts in
     if Z.eqb index (-1) then ret false
     else
       set_todos (Array_splice1 index ts) ;;
       saveTodos ;;
       ret true)
    (fun _ => throw (StorageError "Failed to remove todo item")).

Definition moveTodo (todoId newGroupId : JsValue) : M State bool :=
  try_catch
    (gs <- this_groups ;;
     match Array_find
             (fun g => strict_equals (TodoGroup.id g) newGroupId) gs with
     | None => ret false
     | Some _ =>
         ts <- this_todos ;;
         let is_it todo := strict_equals (TodoItem.id todo) todoId in
         match Array_find is_it ts with
         | None => ret false
         | Some todo =>
             if strict_equals (TodoItem.groupId todo) newGroupId
             then ret true
             else
               stamp <- host_call now_iso ;;
               set_todos
                 (replace_first is_it
                    (TodoItem.mk (TodoItem.id todo) (TodoItem.text todo)
                       newGroupId (TodoItem.completed todo)
                       (TodoItem.description todo)
                       (TodoItem.createdAt todo) stamp)
                    ts) ;;
               saveTodos ;;
               ret true
         end
     end)
    (fun _ => throw (StorageError "Failed to move todo to new group")).

Definition updateTodo (id newText newDescription : JsValue) : M State bool :=
  try_catch
    ((* the argument of the first Logger.info: newText.substring(0, 50) *)
     method_substring0 50 newText ;;
     ts <- this_todos ;;
     let is_it todo := strict_equals (TodoItem.id todo) id in
     match Array_find is_it ts with
     | None => ret false
     | Some todo =>
         todo' <- host_call (TodoItem.updateText todo newText) ;;
         todo'' <- host_call (TodoItem.updateDescription todo' newDescription) ;;
         set_todos (replace_first is_it todo'' ts) ;;
         saveTodos ;;
         ret true
     end)
    (fun error =>
       if isValidationError error then throw error
       else throw (StorageError "Failed to update todo")).

Definition toggleTodo (id : JsValue) : M State bool :=
  try_catch
    (ts <- this_todos ;;
     let is_it todo := strict_equals (TodoItem.id todo) id in
     match Array_find is_it ts with
     | None => ret false
     | Some todo =>
         todo' <- host_call (TodoItem.toggleCompletion todo) ;;
         set_todos (replace_first is_it todo' ts) ;;
         saveTodos ;;
         ret true
     end)
    (fun _ => throw (StorageError "Failed to toggle todo completion")).

Definition clearCompleted : M State nat :=
  try_catch
    (ts <- this_todos ;;
     let completedCount :=
       List.length (filter (fun todo => TodoItem.completed todo) ts) in
     set_todos (filter (fun todo => negb (TodoItem.completed todo)) ts) ;;
     saveTodos ;;
     ret completedCount)
    (fun _ => throw (StorageError "Failed to clear completed todos")).

(** [setFilter(filter)]: anything but the three filter names is ignored. *)
Definition setFilter (this : t) (filter : JsValue) : t :=
  if negb (strict_equals (JStr (lit "all")) filter
           || strict_equals (JStr (lit "active")) filter
           || strict_equals (JStr (lit "completed")) filter)
  then this
  else mk (todos this) (groups this) filter (isInitialized this).

Definition getFilteredTodos (this : t) : list TodoItem.t :=
  if strict_equals (currentFilter this) (JStr (lit "active"))
  then filter (fun todo => negb (TodoItem.completed todo)) (todos this)
  else if strict_equals (currentFilter this) (JStr (lit "completed"))
  then filter (fun todo => TodoItem.completed todo) (todos this)
  else todos this.

Definition getTodosForGroup (this : t) (groupId : JsValue)
  : list TodoItem.t :=
  filter (fun todo => strict_equals (TodoItem.groupId todo) groupId)
         (todos this).

Definition getGroups (this : t) : list TodoGroup.t :=
  Array_sort by_position (groups this).

(** [getStats()]: the three counts; [completed] never exceeds [total],
    so the subtraction is the one on naturals. *)
Record Stats := {
  total : nat;
  active : nat;
  completed : nat
}.

Definition getStats (this : t) : Stats :=
  let total := List.length (todos this) in
  let completed :=
    List.length (filter (fun todo => TodoItem.completed todo) (todos this)) in
  let active := total - completed in
  Build_Stats total active completed.

End TodoManager.

(** ** class TodoUI

    Of the user interface only the selection of the todos a column shows
    is modelled; the rest is DOM manipulation. *)

Module TodoUI.

(** [getFilteredTodosForGroup(todos)], a [switch] on
    [this.todoManager.currentFilter]. *)
Definition getFilteredTodosForGroup (todoManager : TodoManager.t)
    (todos : list TodoItem.t) : list TodoItem.t :=
  if strict_equals (TodoManager.currentFilter todoManager)
                   (JStr (lit "active"))
  then filter (fun todo => negb (TodoItem.completed todo)) todos
  else if strict_equals (TodoManager.currentFilter todoManager)
                        (JStr (lit "completed"))
  then filter (fun todo => TodoItem.completed todo) todos
  else todos.

End TodoUI.

(** * Vocabulary of the statements *)

Unset Implicit Arguments.

(** The inputs the validators refuse: anything but a string, and a
    string that trims to nothing (the empty string included) or to more
    than [cap] code units. *)
Definition refused (cap : nat) (v : JsValue) : Prop :=
  match v with
  | JStr s => List.length (trim s) = 0 \/ cap < List.length (trim s)
  | _ => True
  end.

(** The strings they accept. *)
Definition accepted (cap : nat) (s : JsString) : Prop :=
  0 < List.length (trim s) <= cap.

(** [advance reads draws refs w]: [w] after that many clock readings,
    random draws and object creations. *)
Definition advance (reads draws refs : nat) (w : World) : World :=
  {| host := host w;
     clock_reads := reads + clock_reads w;
     random_draws := draws + random_draws w;
     gets := gets w;
     sets := sets w;
     next_ref := refs + next_ref w;
     stored_groups := stored_groups w;
     stored_todos := stored_todos w |}.

(** The manager with one collection replaced. *)
Definition with_todos (xs : list TodoItem.t) (m : TodoManager.t)
  : TodoManager.t :=
  TodoManager.mk xs (TodoManager.groups m) (TodoManager.currentFilter m)
                 (TodoManager.isInitialized m).

Definition with_groups (xs : list TodoGroup.t) (m : TodoManager.t)
  : TodoManager.t :=
  TodoManager.mk (TodoManager.todos m) xs (TodoManager.currentFilter m)
                 (TodoManager.isInitialized m).

(** What a save leaves of the world: one more [set] issued, the clock
    untouched. *)
Definition wrote_once (w w' : World) : Prop :=
  host w' = host w /\ sets w' = S (sets w) /\ gets w' = gets w
  /\ clock_reads w' = clock_reads w /\ random_draws w' = random_draws w.

(** The completion of an operation that ends with a save: [v] when the
    write is fulfilled, the operation's [StorageError] otherwise. *)
Definition unless_rejected {A} (w : World) (v : A) (message : string)
  : Completion A :=
  if set_fulfilled (host w) (sets w) then Return v
  else Throw (StorageError message).

(** The todo as [toggleCompletion] leaves it when the clock reads [stamp]. *)
Definition toggled (stamp : JsString) (todo : TodoItem.t) : TodoItem.t :=
  TodoItem.mk (TodoItem.id todo) (TodoItem.text todo) (TodoItem.groupId todo)
              (negb (TodoItem.completed todo)) (TodoItem.description todo)
              (TodoItem.createdAt todo) stamp.

(** The groups as the renumbering loop of [removeGroup] leaves them:
    the group at index [k] gets position [k] and the clock reading taken
    at its turn. *)
Fixpoint renumbered (h : Host) (reads index : nat) (gs : list TodoGroup.t)
  : list TodoGroup.t :=
  match gs with
  | [] => []
  | g :: r =>
      TodoGroup.mk (TodoGroup.id g) (TodoGroup.name g) (num_of_nat index)
                   (TodoGroup.createdAt g) (iso (clock h reads))
      :: renumbered h (S reads) (S index) r
  end.

(** [a] does not sort behind [b]: the comparator of [sort] is not
    positive on them. *)
Definition not_after (a b : TodoGroup.t) : Prop :=
  num_positive (TodoManager.by_position a b) = false.

(** The array is in ascending order of position, as [addGroup] leaves
    it. *)
Definition ascending (gs : list TodoGroup.t) : Prop :=
  StronglySorted not_after gs.

(** The order the comparator induces; negative zero counts as zero. *)
Definition num_le (a b : JsNumber) : Prop :=
  match a, b with
  | NaN, _ | _, NaN => True
  | NegInf, _ | _, PosInf => True
  | PosInf, _ | _, NegInf => False
  | NegZero, NegZero => True
  | NegZero, Fin q => (0 <= q)%Q
  | Fin p, NegZero => (p <= 0)%Q
  | Fin p, Fin q => (p <= q)%Q
  end.

(** No group position is NaN. *)
Definition regular (g : TodoGroup.t) : Prop := TodoGroup.position g <> NaN.

(** [n || 0] *)
Definition or_zero (n : JsNumber) : JsNumber :=
  if num_truthy n then n else num_zero.

(** The values [Number] converts: all but the symbols and the objects
    that have no primitive value. *)
Definition convertible (v : JsValue) : Prop :=
  match v with
  | JSymbol _ | JObject _ None _ => False
  | _ => True
  end.

(** ** Hosts and data of the examples *)

(** Three decimal digits. *)
Definition millis (n : nat) : JsString :=
  [N.of_nat (48 + (n / 100) mod 10); N.of_nat (48 + (n / 10) mod 10);
   N.of_nat (48 + n mod 10)].

(** The conversion of strings in the hosts of the examples.  It is
    [StringToNumber] on the strings the examples convert and not beyond:
    the empty string, unsigned decimal numerals below 2^53, and strings
    that begin with a letter other than I, which are NaN.  White space,
    signs, fractions, exponents, the 0x, 0o and 0b forms, Infinity and
    rounding to a double are left out; the theorems hold for every host
    and do not depend on it. *)
Fixpoint decimal (acc : Z) (s : JsString) : JsNumber :=
  match s with
  | [] => Fin (inject_Z acc)
  | c :: r =>
      if (N.leb 48 c && N.leb c 57)%N
      then decimal (10 * acc + (Z.of_N c - 48))%Z r
      else NaN
  end.

(** A host whose clock advances by a millisecond from one reading to
    the next and whose storage calls are all fulfilled. *)
Definition ticking_host : Host :=
  {| clock := fun n =>
       {| iso := lit "2024-05-01T09:00:00." ++ millis n ++ lit "Z";
          base36 := lit "lvo1x" ++ millis n |};
     random36 := fun n => lit "k3f9q" ++ millis n;
     StringToNumber := decimal 0;
     get_fulfilled := fun _ => true;
     set_fulfilled := fun _ => true |}.

(** The same host with a clock that is read faster than it advances:
    every reading falls in the same millisecond. *)
Definition frozen_host : Host :=
  {| clock := fun _ =>
       {| iso := lit "2024-05-01T09:00:00.000Z"; base36 := lit "lvo1x000" |};
     random36 := random36 ticking_host;
     StringToNumber := decimal 0;
     get_fulfilled := fun _ => true;
     set_fulfilled := fun _ => true |}.

(** A world in which nothing has happened yet. *)
Definition fresh_world (h : Host) (groups todos : Stored) : World :=
  {| host := h; clock_reads := 0; random_draws := 0; gets := 0; sets := 0;
     next_ref := 0; stored_groups := groups; stored_todos := todos |}.

(** [{toString: 1}]: an object JSON can carry that has no primitive
    value. *)
Definition no_primitive_value : JsValue :=
  JObject 0 None [(lit "toString", JNum (num_of_nat 1))].

(** A stored todo record whose [completed] is a string and whose
    [description] is [0]. *)
Definition loose_todo_record : JsValue :=
  JObject 1 (Some NaN)
    [ (lit "id", JStr (lit "t1"));
      (lit "text", JStr (lit " Buy milk "));
      (lit "groupId", JStr (lit "g1"));
      (lit "completed", JStr (lit "yes"));
      (lit "description", JNum num_zero) ].

Definition work_group : TodoGroup.t :=
  TodoGroup.mk (JStr (lit "g1")) (lit "Work") (num_of_nat 3)
    (lit "2024-04-30T08:00:00.000Z") (lit "2024-04-30T08:00:00.000Z").

(** A storage key that holds no record: it is absent, holds the empty
    array, or holds a falsy value (which [|| []] replaces). *)
Definition holds_no_records (stored : Stored) : Prop :=
  match stored with
  | Absent => True
  | StoredArray items => items = []
  | StoredOther v => ToBoolean v = false
  end.

(** The position [addGroup] hands to the constructor. *)
Definition newPosition_of (position : JsValue) (m : TodoManager.t) : JsValue :=
  if negb (strict_equals (default_arg JNull position) JNull)
  then default_arg JNull position
  else JNum (num_of_nat (List.length (TodoManager.groups m))).

(** The group and the todo the constructors build with a generated id. *)
Definition new_group (w : World) (name : JsString) (n : JsNumber)
  : TodoGroup.t :=
  TodoGroup.mk
    (JStr (lit "group_" ++ base36 (clock (host w) (clock_reads w))
           ++ random36 (host w) (random_draws w)))
    (trim name) (or_zero n)
    (iso (clock (host w) (1 + clock_reads w)))
    (iso (clock (host w) (2 + clock_reads w))).

Definition new_todo (w : World) (text groupId : JsString) : TodoItem.t :=
  TodoItem.mk
    (JStr (base36 (clock (host w) (clock_reads w))
           ++ random36 (host w) (random_draws w)))
    (trim text) (JStr groupId) false (JStr [])
    (iso (clock (host w) (1 + clock_reads w)))
    (iso (clock (host w) (2 + clock_reads w))).

(** A manager that holds the group [work_group] and nothing else. *)
Definition work_manager : TodoManager.t :=
  TodoManager.mk [] [work_group] (JStr (lit "active")) true.

(** A stored group record [{id, name, position}]. *)
Definition group_record (ref : nat) (id name : string) (position : nat)
  : JsValue :=
  JObject ref (Some NaN)
    [ (lit "id", JStr (lit id));
      (lit "name", JStr (lit name));
      (lit "position", JNum (num_of_nat position)) ].

(** Three group records stored out of position order, and the manager
    that [initialize] makes of them. *)
Definition shuffled_store : Stored :=
  StoredArray [ group_record 10 "a" "Home" 1;
                group_record 11 "b" "Work" 0;
                group_record 12 "c" "Later" 2 ].

Definition loaded_shuffled : TodoManager.State :=
  snd (TodoManager.initialize
         (TodoManager.constructor,
          fresh_world ticking_host shuffled_store Absent)).

(** The state after [addTodo("Buy milk", "g1")] under the frozen clock,
    and the id the todo got. *)
Definition frozen_after_add : TodoManager.State :=
  snd (TodoManager.addTodo (JStr (lit "Buy milk")) (JStr (lit "g1"))
         (work_manager, fresh_world frozen_host Absent Absent)).

Definition frozen_todo_id : JsValue := JStr (lit "lvo1x000k3f9q000").

(** A todo of group [g1], and a manager that holds it. *)
Definition milk_todo : TodoItem.t :=
  TodoItem.mk (JStr (lit "t1")) (lit "Buy milk") (JStr (lit "g1")) false
    (JStr []) (lit "2024-04-30T08:00:00.000Z") (lit "2024-04-30T08:00:00.000Z").

Definition milk_manager : TodoManager.t :=
  TodoManager.mk [milk_todo] [work_group] (JStr (lit "active")) true.

Definition home_group : TodoGroup.t :=
  TodoGroup.mk (JStr (lit "g2")) (lit "Home") (num_of_nat 5)
    (lit "2024-04-30T08:05:00.000Z") (lit "2024-04-30T08:05:00.000Z").

Definition two_group_manager : TodoManager.t :=
  TodoManager.mk [milk_todo] [work_group; home_group] (JStr (lit "active"))
    true.

(** ** Vocabulary of the further properties *)

(** Some element of the array passes the test, or none does. *)
Definition some_match {A} (p : A -> bool) (xs : list A) : Prop :=
  exists x, In x xs /\ p x = true.

Definition no_match {A} (p : A -> bool) (xs : list A) : Prop :=
  forall x, In x xs -> p x = false.

(** The tests by id the manager's lookups use. *)
Definition group_is (id : JsValue) (g : TodoGroup.t) : bool :=
  strict_equals (TodoGroup.id g) id.

Definition todo_is (id : JsValue) (t : TodoItem.t) : bool :=
  strict_equals (TodoItem.id t) id.

Definition in_group (groupId : JsValue) (t : TodoItem.t) : bool :=
  strict_equals (TodoItem.groupId t) groupId.

(** What the constructors guarantee of a group: a truthy id, a trimmed
    name of 1 to 50 code units, a position that [|| 0] leaves alone. *)
Definition group_ok (g : TodoGroup.t) : Prop :=
  ToBoolean (TodoGroup.id g) = true
  /\ accepted MAX_GROUP_NAME_LENGTH (TodoGroup.name g)
  /\ trim (TodoGroup.name g) = TodoGroup.name g
  /\ or_zero (TodoGroup.position g) = TodoGroup.position g.

(** The records [saveGroups] and [saveTodos] write, the first one with
    object identity [ref]. *)
Fixpoint group_records (ref : nat) (gs : list TodoGroup.t) : list JsValue :=
  match gs with
  | [] => []
  | g :: r =>
      JObject ref (Some NaN)
        [ (lit "id", TodoGroup.id g);
          (lit "name", JStr (TodoGroup.name g));
          (lit "position", JNum (TodoGroup.position g));
          (lit "createdAt", JStr (TodoGroup.createdAt g));
          (lit "updatedAt", JStr (TodoGroup.updatedAt g)) ]
      :: group_records (S ref) r
  end.

Fixpoint todo_records (ref : nat) (ts : list TodoItem.t) : list JsValue :=
  match ts with
  | [] => []
  | t :: r =>
      JObject ref (Some NaN)
        [ (lit "id", TodoItem.id t);
          (lit "text", JStr (TodoItem.text t));
          (lit "groupId", TodoItem.groupId t);
          (lit "completed", JBool (TodoItem.completed t));
          (lit "description", TodoItem.description t);
          (lit "createdAt", JStr (TodoItem.createdAt t));
          (lit "updatedAt", JStr (TodoItem.updatedAt t)) ]
      :: todo_records (S ref) r
  end.

(** Every todo belongs to a group the manager holds. *)
Definition referential (m : TodoManager.t) : Prop :=
  forall t, In t (TodoManager.todos m) ->
            exists g, In g (TodoManager.groups m)
                      /\ strict_equals (TodoGroup.id g) (TodoItem.groupId t)
                         = true.

(** The world after a save of [items] under [key]: the objects have been
    created and one [set] issued; the key holds the records if the call
    was fulfilled. *)
Definition saved (key : StorageKey) (items : list JsValue) (w : World)
  : World :=
  snd (storage_set key items (advance 0 0 (List.length items) w)).

(** The three names [setFilter] accepts. *)
Definition is_filter_name (filter : JsValue) : bool :=
  strict_equals (JStr (lit "all")) filter
  || strict_equals (JStr (lit "active")) filter
  || strict_equals (JStr (lit "completed")) filter.

Definition is_active (t : TodoItem.t) : bool := negb (TodoItem.completed t).

(** [w'] is [w] after some clock readings, random draws and object
    creations: the storage and the call counters are as in [w]. *)
Definition quiet (w w' : World) : Prop :=
  exists reads draws refs, w' = advance reads draws refs w.

(** The validators' verdict on a string, as a boolean. *)
Definition acceptedb (cap : nat) (s : JsString) : bool :=
  negb (Nat.eqb (List.length (trim s)) 0)
  && Nat.leb (List.length (trim s)) cap.

Definition convertibleb (v : JsValue) : bool :=
  match v with
  | JSymbol _ | JObject _ None _ => false
  | _ => true
  end.

Definition is_record (v : JsValue) : bool :=
  match v with
  | JObject _ _ _ => true
  | _ => false
  end.

(** The stored records that [loadGroups] and [loadTodos] keep. *)
Definition loads_as_group (v : JsValue) : bool :=
  is_record v
  && match Get v "name" with
     | JStr s => acceptedb MAX_GROUP_NAME_LENGTH s
     | _ => false
     end
  && convertibleb (Get v "position").

Definition loads_as_todo (v : JsValue) : bool :=
  is_record v
  && match Get v "text" with
     | JStr s => acceptedb MAX_TODO_LENGTH s
     | _ => false
     end
  && match Get v "groupId" with
     | JStr g => negb (Nat.eqb (List.length g) 0)
     | _ => false
     end.

(** The group, and the todo, that a kept record is loaded as. *)
Definition group_loaded_from (h : Host) (v : JsValue) (g : TodoGroup.t)
  : Prop :=
  (exists s, Get v "name" = JStr s /\ TodoGroup.name g = trim s)
  /\ (exists n,
         ToNumber h (default_arg (JNum num_zero) (Get v "position")) = Some n
         /\ TodoGroup.position g = or_zero n)
  /\ (ToBoolean (Get v "id") = true -> TodoGroup.id g = Get v "id")
  /\ group_ok g.

Definition todo_loaded_from (v : JsValue) (t : TodoItem.t) : Prop :=
  (exists s, Get v "text" = JStr s /\ TodoItem.text t = trim s)
  /\ TodoItem.groupId t = Get v "groupId"
  /\ TodoItem.completed t = ToBoolean (Get v "completed")
  /\ TodoItem.description t = js_or (Get v "description") (JStr [])
  /\ (ToBoolean (Get v "id") = true -> TodoItem.id t = Get v "id").

(** What the constructor guarantees of a todo whose id is truthy. *)
Definition todo_ok (t : TodoItem.t) : Prop :=
  ToBoolean (TodoItem.id t) = true
  /\ accepted MAX_TODO_LENGTH (TodoItem.text t)
  /\ trim (TodoItem.text t) = TodoItem.text t
  /\ (exists g, TodoItem.groupId t = JStr g /\ g <> [])
  /\ js_or (TodoItem.description t) (JStr []) = TodoItem.description t.

(** A host whose storage rejects every call. *)
Definition offline_host : Host :=
  {| clock := clock ticking_host;
     random36 := random36 ticking_host;
     StringToNumber := decimal 0;
     get_fulfilled := fun _ => false;
     set_fulfilled := fun _ => false |}.

(** The records that [stored || []] hands to [map], and the stored
    values it can hand over: all but a truthy value that is no array. *)
Definition records_in (stored : Stored) : list JsValue :=
  match stored with
  | StoredArray items => items
  | _ => []
  end.

Definition mappable (stored : Stored) : Prop :=
  match stored with
  | StoredOther v => ToBoolean v = false
  | _ => True
  end.

(** A call of one of the manager's mutating methods, as the handlers of
    the UI issue them. *)
Inductive Call :=
| AddGroup (name position : JsValue)
| RemoveGroup (groupId : JsValue)
| UpdateGroupName (groupId newName : JsValue)
| AddTodo (text groupId : JsValue)
| RemoveTodo (id : JsValue)
| MoveTodo (todoId newGroupId : JsValue)
| UpdateTodo (id newText newDescription : JsValue)
| ToggleTodo (id : JsValue)
| ClearCompleted
| SetFilter (filter : JsValue).

(** The state a call leaves behind, whether it returned or threw: the
    handlers catch what the manager throws and go on with the manager as
    it is. *)
Definition state_after (c : Call) (st : TodoManager.State)
  : TodoManager.State :=
  match c with
  | AddGroup name position => snd (TodoManager.addGroup name position st)
  | RemoveGroup groupId => snd (TodoManager.removeGroup groupId st)
  | UpdateGroupName groupId newName =>
      snd (TodoManager.updateGroupName groupId newName st)
  | AddTodo text groupId => snd (TodoManager.addTodo text groupId st)
  | RemoveTodo id => snd (TodoManager.removeTodo id st)
  | MoveTodo todoId newGroupId =>
      snd (TodoManager.moveTodo todoId newGroupId st)
  | UpdateTodo id newText newDescription =>
      snd (TodoManager.updateTodo id newText newDescription st)
  | ToggleTodo id => snd (TodoManager.toggleTodo id st)
  | ClearCompleted => snd (TodoManager.clearCompleted st)
  | SetFilter filter => (TodoManager.setFilter (fst st) filter, snd st)
  end.

Definition state_after_all (cs : list Call) (st : TodoManager.State)
  : TodoManager.State :=
  fold_left (fun st c => state_after c st) cs st.

(** The groups are what the constructor guarantees and in ascending
    order of position. *)
Definition groups_in_order (m : TodoManager.t) : Prop :=
  Forall group_ok (TodoManager.groups m)
  /\ ascending (TodoManager.groups m).

(** The manager a call leaves is the one it found, or differs from it in
    one of these ways. *)
Inductive effect (m : TodoManager.t) : TodoManager.t -> Prop :=
| nothing_done : effect m m
| group_added g :
    group_ok g ->
    effect m (with_groups
                (Array_sort TodoManager.by_position
                   (TodoManager.groups m ++ [g])) m)
| group_removed groupId h reads before g after :
    TodoManager.groups m = before ++ g :: after ->
    group_is groupId g = true ->
    effect m (TodoManager.mk
                (filter (fun todo => negb (in_group groupId todo))
                        (TodoManager.todos m))
                (renumbered h reads 0 (before ++ after))
                (TodoManager.currentFilter m) (TodoManager.isInitialized m))
| group_renamed groupId g s stamp :
    Array_find (group_is groupId) (TodoManager.groups m) = Some g ->
    accepted MAX_GROUP_NAME_LENGTH s ->
    effect m (with_groups
                (replace_first (group_is groupId)
                   (TodoGroup.mk (TodoGroup.id g) (trim s)
                      (TodoGroup.position g) (TodoGroup.createdAt g) stamp)
                   (TodoManager.groups m)) m)
| todo_added t :
    some_match (group_is (TodoItem.groupId t)) (TodoManager.groups m) ->
    effect m (with_todos (TodoManager.todos m ++ [t]) m)
| todo_removed before t after :
    TodoManager.todos m = before ++ t :: after ->
    effect m (with_todos (before ++ after) m)
| todo_moved todoId newGroupId t stamp :
    some_match (group_is newGroupId) (TodoManager.groups m) ->
    Array_find (todo_is todoId) (TodoManager.todos m) = Some t ->
    effect m (with_todos
                (replace_first (todo_is todoId)
                   (TodoItem.mk (TodoItem.id t) (TodoItem.text t) newGroupId
                      (TodoItem.completed t) (TodoItem.description t)
                      (TodoItem.createdAt t) stamp)
                   (TodoManager.todos m)) m)
| todo_edited id t text completed description stamp :
    Array_find (todo_is id) (TodoManager.todos m) = Some t ->
    effect m (with_todos
                (replace_first (todo_is id)
                   (TodoItem.mk (TodoItem.id t) text (TodoItem.groupId t)
                      completed description (TodoItem.createdAt t) stamp)
                   (TodoManager.todos m)) m)
| completed_cleared :
    effect m (with_todos (filter is_active (TodoManager.todos m)) m)
| filter_set name :
    is_filter_name name = true ->
    effect m (TodoManager.mk (TodoManager.todos m) (TodoManager.groups m)
                name (TodoManager.isInitialized m)).

Ltac ran H := rewrite H; cbn [fst snd].


(** A host that rejects the second write and no other call. *)
Definition second_write_fails : Host :=
  {| clock := clock ticking_host;
     random36 := random36 ticking_host;
     StringToNumber := decimal 0;
     get_fulfilled := fun _ => true;
     set_fulfilled := fun n => negb (Nat.eqb n 1) |}.

(** A stored group record whose id is the number 7, and the manager that
    [initialize] makes of it: [fromJSON] keeps any truthy id. *)
Definition numbered_group_record : JsValue :=
  JObject 20 (Some NaN)
    [ (lit "id", JNum (num_of_nat 7));
      (lit "name", JStr (lit "Seven"));
      (lit "position", JNum (num_of_nat 0)) ].

Definition loaded_numbered : TodoManager.State :=
  snd (TodoManager.initialize
         (TodoManager.constructor,
          fresh_world ticking_host (StoredArray [numbered_group_record])
            Absent)).

(** * Properties *)

(** ** Running computations *)

Lemma bind_return {S A B} (c : M S A) (k : A -> M S B) s a s' :
  c s = (Return a, s') -> bind c k s = k a s'.
Proof. intros H. unfold bind. now rewrite H. Qed.

Lemma bind_throw {S A B} (c : M S A) (k : A -> M S B) s e s' :
  c s = (Throw e, s') -> bind c k s = (Throw e, s').
Proof. intros H. unfold bind. now rewrite H. Qed.

Lemma try_catch_return {S A} (c : M S A) h s a s' :
  c s = (Return a, s') -> try_catch c h s = (Return a, s').
Proof. intros H. unfold try_catch. now rewrite H. Qed.

Lemma try_catch_throw {S A} (c : M S A) h s e s' :
  c s = (Throw e, s') -> try_catch c h s = h e s'.
Proof. intros H. unfold try_catch. now rewrite H. Qed.

(** ** Strings *)

Lemma trimStart_suffix s : exists p, s = p ++ trimStart s.
Proof.
  induction s as [|c r [p Hp]]; simpl.
  - now exists [].
  - destruct (isWhiteSpace c).
    + exists (c :: p). simpl. now rewrite <- Hp.
    + now exists [].
Qed.

Lemma trimStart_head s c r : trimStart s = c :: r -> isWhiteSpace c = false.
Proof.
  induction s as [|d t IH]; simpl; [discriminate|].
  destruct (isWhiteSpace d) eqn:E; [exact IH|].
  intros H. injection H as -> _. exact E.
Qed.

Lemma trimStart_fixed c r :
  isWhiteSpace c = false -> trimStart (c :: r) = c :: r.
Proof. intros H. simpl. now rewrite H. Qed.

Lemma trimStart_idem s : trimStart (trimStart s) = trimStart s.
Proof.
  destruct (trimStart s) as [|c r] eqn:E; [reflexivity|].
  apply trimStart_fixed. eapply trimStart_head; eauto.
Qed.

Lemma trimStart_trim s : trimStart (trim s) = trim s.
Proof.
  unfold trim, trimEnd.
  destruct (trimStart s) as [|c r] eqn:E; [reflexivity|].
  destruct (trimStart_suffix (rev (c :: r))) as [p Hp].
  destruct (trimStart (rev (c :: r))) as [|d v] eqn:Ev; [reflexivity|].
  assert (Hrev : c :: r = rev (d :: v) ++ rev p).
  { rewrite <- rev_app_distr, <- Hp. now rewrite rev_involutive. }
  destruct (rev (d :: v)) as [|x y] eqn:Ex.
  - apply (f_equal (@List.length N)) in Ex. rewrite length_rev in Ex.
    discriminate.
  - simpl in Hrev. injection Hrev as <- _.
    apply trimStart_fixed. eapply trimStart_head; eauto.
Qed.

Lemma trim_idem s : trim (trim s) = trim s.
Proof.
  unfold trim at 1. rewrite trimStart_trim.
  unfold trim, trimEnd. rewrite rev_involutive, trimStart_idem.
  reflexivity.
Qed.

Lemma trim_nil : trim [] = [].
Proof. reflexivity. Qed.

Lemma trim_nonempty s : 0 < List.length (trim s) -> s <> [].
Proof. intros H ->. simpl in H. lia. Qed.

(** ** Validation *)

Lemma string_truthy s : s <> [] -> ToBoolean (JStr s) = true.
Proof. destruct s; [congruence|reflexivity]. Qed.

Lemma validateName_refuses S v (st : S) :
  refused MAX_GROUP_NAME_LENGTH v ->
  exists message,
    TodoGroup.validateName v st = (Throw (TodoValidationError message), st).
Proof.
  unfold TodoGroup.validateName.
  destruct v as [| |b|n|s|k|r n p]; simpl; intros H;
    try (eexists; reflexivity).
  - destruct b; eexists; reflexivity.
  - destruct (num_truthy n); eexists; reflexivity.
  - destruct s as [|c s]; [eexists; reflexivity|].
    cbn [List.length Nat.eqb negb orb].
    unfold bind, method_trim, ret.
    destruct H as [H|H].
    + rewrite H. eexists; reflexivity.
    + destruct (Nat.eqb_spec (List.length (trim (c :: s))) 0);
        [eexists; reflexivity|].
      apply Nat.ltb_lt in H. rewrite H. eexists; reflexivity.
Qed.

Lemma validateName_accepts S s (st : S) :
  accepted MAX_GROUP_NAME_LENGTH s ->
  TodoGroup.validateName (JStr s) st = (Return tt, st).
Proof.
  intros [H1 H2]. unfold TodoGroup.validateName.
  rewrite (string_truthy s (trim_nonempty s H1)). simpl.
  unfold bind, method_trim, ret.
  destruct (Nat.eqb_spec (List.length (trim s)) 0); [lia|].
  destruct (Nat.ltb_spec MAX_GROUP_NAME_LENGTH (List.length (trim s)));
    [lia|reflexivity].
Qed.

Lemma validateText_refuses S v (st : S) :
  refused MAX_TODO_LENGTH v ->
  exists message,
    TodoItem.validateText v st = (Throw (TodoValidationError message), st).
Proof.
  unfold TodoItem.validateText.
  destruct v as [| |b|n|s|k|r n p]; simpl; intros H;
    try (eexists; reflexivity).
  - destruct b; eexists; reflexivity.
  - destruct (num_truthy n); eexists; reflexivity.
  - destruct s as [|c s]; [eexists; reflexivity|].
    cbn [List.length Nat.eqb negb orb].
    unfold bind, method_trim, ret.
    destruct H as [H|H].
    + rewrite H. eexists; reflexivity.
    + destruct (Nat.eqb_spec (List.length (trim (c :: s))) 0);
        [eexists; reflexivity|].
      apply Nat.ltb_lt in H. rewrite H. eexists; reflexivity.
Qed.

Lemma validateText_accepts S s (st : S) :
  accepted MAX_TODO_LENGTH s ->
  TodoItem.validateText (JStr s) st = (Return tt, st).
Proof.
  intros [H1 H2]. unfold TodoItem.validateText.
  rewrite (string_truthy s (trim_nonempty s H1)). simpl.
  unfold bind, method_trim, ret.
  destruct (Nat.eqb_spec (List.length (trim s)) 0); [lia|].
  destruct (Nat.ltb_spec MAX_TODO_LENGTH (List.length (trim s)));
    [lia|reflexivity].
Qed.

(** ** Arrays *)

Lemma find_exists {A} (p : A -> bool) xs :
  (exists x, In x xs /\ p x = true) -> exists y, find p xs = Some y.
Proof.
  intros [x [Hin Hp]]. destruct (find p xs) eqn:E; [eauto|].
  rewrite (find_none p xs E x Hin) in Hp. discriminate.
Qed.

Lemma find_absent {A} (p : A -> bool) xs :
  (forall x, In x xs -> p x = false) -> find p xs = None.
Proof.
  induction xs as [|x r IH]; simpl; intros H; [reflexivity|].
  rewrite (H x (or_introl eq_refl)). apply IH. intros; apply H; now right.
Qed.

(** ** Entity creation refuses bad names and texts *)

Lemma TodoGroup_constructor_refuses name position id w :
  refused MAX_GROUP_NAME_LENGTH name ->
  exists message,
    TodoGroup.constructor name position id w
    = (Throw (TodoValidationError message), w).
Proof.
  intros H. destruct (validateName_refuses World name w H) as [msg Hmsg].
  exists msg. unfold TodoGroup.constructor.
  now rewrite (bind_throw _ _ _ _ _ Hmsg).
Qed.

Lemma TodoItem_constructor_refuses text groupId completed description id w :
  refused MAX_TODO_LENGTH text ->
  exists message,
    TodoItem.constructor text groupId completed description id w
    = (Throw (TodoValidationError message), w).
Proof.
  intros H. destruct (validateText_refuses World text w H) as [msg Hmsg].
  exists msg. unfold TodoItem.constructor.
  now rewrite (bind_throw _ _ _ _ _ Hmsg).
Qed.

Lemma host_call_run {A} (c : M World A) m w r w' :
  c w = (r, w') -> TodoManager.host_call c (m, w) = (r, (m, w')).
Proof. intros H. unfold TodoManager.host_call. simpl. now rewrite H. Qed.

Lemma addGroup_refuses name position m w :
  refused MAX_GROUP_NAME_LENGTH name ->
  exists message,
    TodoManager.addGroup name position (m, w)
    = (Throw (TodoValidationError message), (m, w)).
Proof.
  intros H. unfold TodoManager.addGroup.
  set (newPosition :=
         if negb (strict_equals (default_arg JNull position) JNull)
         then default_arg JNull position
         else JNum (num_of_nat (List.length (TodoManager.groups m)))).
  destruct (TodoGroup_constructor_refuses name newPosition JUndefined w H)
    as [msg Hmsg].
  exists msg.
  rewrite (try_catch_throw _ _ _ (TodoValidationError msg) (m, w));
    [reflexivity|].
  unfold bind at 1. unfold TodoManager.this_groups at 1. simpl.
  fold newPosition.
  apply bind_throw, host_call_run. exact Hmsg.
Qed.

Lemma addTodo_refuses_string s groupId m w :
  refused MAX_TODO_LENGTH (JStr s) ->
  exists message,
    TodoManager.addTodo (JStr s) groupId (m, w)
    = (Throw (TodoValidationError message), (m, w)).
Proof.
  intros H. unfold TodoManager.addTodo.
  destruct (Array_find
              (fun g => strict_equals (TodoGroup.id g) groupId)
              (TodoManager.groups m)) eqn:E.
  - destruct (TodoItem_constructor_refuses (JStr s) groupId JUndefined
                JUndefined JUndefined w H) as [msg Hmsg].
    exists msg.
    rewrite (try_catch_throw _ _ _ (TodoValidationError msg) (m, w));
      [reflexivity|].
    unfold bind at 1. unfold method_substring0, ret.
    unfold bind at 1. unfold TodoManager.this_groups at 1. simpl.
    rewrite E.
    apply bind_throw, host_call_run. exact Hmsg.
  - exists "Group not found"%string.
    rewrite (try_catch_throw _ _ _ (TodoValidationError "Group not found")
               (m, w)); [reflexivity|].
    unfold bind at 1. unfold method_substring0, ret.
    unfold bind at 1. unfold TodoManager.this_groups at 1. simpl.
    rewrite E. reflexivity.
Qed.

(** Where validation does come first: a refused name or text stops
    [new TodoGroup], [new TodoItem] and [addGroup] with a
    [TodoValidationError] before anything is touched, and so it stops
    [addTodo] when the text is a string. *)
Lemma validation_precedes_mutation :
  (forall name position id w,
      refused MAX_GROUP_NAME_LENGTH name ->
      exists message,
        TodoGroup.constructor name position id w
        = (Throw (TodoValidationError message), w))
  /\ (forall text groupId completed description id w,
      refused MAX_TODO_LENGTH text ->
      exists message,
        TodoItem.constructor text groupId completed description id w
        = (Throw (TodoValidationError message), w))
  /\ (forall name position m w,
      refused MAX_GROUP_NAME_LENGTH name ->
      exists message,
        TodoManager.addGroup name position (m, w)
        = (Throw (TodoValidationError message), (m, w)))
  /\ (forall s groupId m w,
      refused MAX_TODO_LENGTH (JStr s) ->
      exists message,
        TodoManager.addTodo (JStr s) groupId (m, w)
        = (Throw (TodoValidationError message), (m, w))).
Proof.
  repeat split.
  - apply TodoGroup_constructor_refuses.
  - apply TodoItem_constructor_refuses.
  - apply addGroup_refuses.
  - apply addTodo_refuses_string.
Qed.

(** C4 (the code departs from it): [addTodo] evaluates
    [text.substring(0, 50)] for its first log line before anything is
    validated, so a text that is not a string raises a TypeError there,
    which the handler turns into a [StorageError]; the manager and the
    world are left as they were. *)
Theorem addTodo_non_string_text_throws_StorageError :
  forall text groupId m w,
    typeof text <> TypeString ->
    TodoManager.addTodo text groupId (m, w)
    = (Throw (StorageError "Failed to add todo item"), (m, w)).
Proof.
  intros text groupId m w H. unfold TodoManager.addTodo.
  rewrite (try_catch_throw _ _ _ TypeError (m, w)); [reflexivity|].
  apply bind_throw.
  destruct text; try reflexivity. now elim H.
Qed.

(** ** moveTodo *)

(** C3: when the target group exists and the todo that [find] returns for
    [todoId] (the todo with that id) already has [newGroupId] as its
    group, [moveTodo] returns [true] and leaves the manager and the world
    exactly as they were: no todo is altered (so [updatedAt] stays), the
    clock is not read and no [storage.sync.set] is issued. *)
Theorem moveTodo_same_group_is_noop :
  forall todoId newGroupId m w todo,
    (exists g, In g (TodoManager.groups m)
               /\ strict_equals (TodoGroup.id g) newGroupId = true) ->
    Array_find (fun t => strict_equals (TodoItem.id t) todoId)
               (TodoManager.todos m) = Some todo ->
    strict_equals (TodoItem.groupId todo) newGroupId = true ->
    TodoManager.moveTodo todoId newGroupId (m, w) = (Return true, (m, w)).
Proof.
  intros todoId newGroupId m w todo Hgroup Hfind Hsame.
  destruct (find_exists
              (fun g => strict_equals (TodoGroup.id g) newGroupId)
              (TodoManager.groups m) Hgroup) as [g Hg].
  unfold TodoManager.moveTodo.
  apply try_catch_return.
  unfold bind at 1. unfold TodoManager.this_groups at 1. simpl.
  unfold Array_find in *. rewrite Hg.
  unfold bind at 1. unfold TodoManager.this_todos at 1. simpl.
  rewrite Hfind, Hsame. reflexivity.
Qed.

(** ** addTodo *)

Lemma addTodo_unknown_group s groupId m w :
  (forall g, In g (TodoManager.groups m) ->
             strict_equals (TodoGroup.id g) groupId = false) ->
  TodoManager.addTodo (JStr s) groupId (m, w)
  = (Throw (TodoValidationError "Group not found"), (m, w)).
Proof.
  intros H. unfold TodoManager.addTodo.
  rewrite (try_catch_throw _ _ _ (TodoValidationError "Group not found")
             (m, w)); [reflexivity|].
  unfold bind at 1. unfold method_substring0, ret.
  unfold bind at 1. unfold TodoManager.this_groups at 1. simpl.
  unfold Array_find. rewrite (find_absent _ _ H). reflexivity.
Qed.

(** ** The world as the host calls leave it *)

Lemma advance_advance a b c a' b' c' w :
  advance a b c (advance a' b' c' w) = advance (a + a') (b + b') (c + c') w.
Proof.
  unfold advance. simpl. f_equal; lia.
Qed.

Lemma advance_0 w : advance 0 0 0 w = w.
Proof. now destruct w. Qed.

Lemma mapM_TodoItem_toJSON ts : forall w,
  exists ds, mapM TodoItem.toJSON ts w
             = (Return ds, advance 0 0 (List.length ts) w)
             /\ List.length ds = List.length ts.
Proof.
  induction ts as [|x r IH]; intros w; simpl.
  - exists []. now rewrite advance_0.
  - destruct (IH (advance 0 0 1 w)) as [ds [Hds Hlen]].
    eexists (_ :: ds). split; [|simpl; now rewrite Hlen].
    unfold bind at 1. unfold TodoItem.toJSON at 1, new_object.
    fold (advance 0 0 1 w).
    rewrite (bind_return _ _ _ _ _ Hds). unfold ret.
    rewrite advance_advance. simpl. do 3 f_equal. lia.
Qed.

Lemma mapM_TodoGroup_toJSON gs : forall w,
  exists ds, mapM TodoGroup.toJSON gs w
             = (Return ds, advance 0 0 (List.length gs) w)
             /\ List.length ds = List.length gs.
Proof.
  induction gs as [|x r IH]; intros w; simpl.
  - exists []. now rewrite advance_0.
  - destruct (IH (advance 0 0 1 w)) as [ds [Hds Hlen]].
    eexists (_ :: ds). split; [|simpl; now rewrite Hlen].
    unfold bind at 1. unfold TodoGroup.toJSON at 1, new_object.
    fold (advance 0 0 1 w).
    rewrite (bind_return _ _ _ _ _ Hds). unfold ret.
    rewrite advance_advance. simpl. do 3 f_equal. lia.
Qed.

Lemma saveTodos_run m w :
  exists w',
    TodoManager.saveTodos (m, w)
    = (unless_rejected w tt "Failed to save todos to storage", (m, w'))
    /\ wrote_once w w'.
Proof.
  destruct (mapM_TodoItem_toJSON (TodoManager.todos m) w) as [ds [Hds _]].
  unfold TodoManager.saveTodos, unless_rejected, try_catch.
  unfold bind at 1. unfold TodoManager.this_todos at 1. simpl.
  rewrite (bind_return _ _ _ _ _
             (host_call_run (mapM TodoItem.toJSON (TodoManager.todos m))
                m w _ _ Hds)).
  unfold TodoManager.host_call, storage_set. simpl.
  destruct (set_fulfilled (host w) (sets w)); eexists; split;
    try reflexivity; repeat split.
Qed.

Lemma saveGroups_run m w :
  exists w',
    TodoManager.saveGroups (m, w)
    = (unless_rejected w tt "Failed to save groups to storage", (m, w'))
    /\ wrote_once w w'.
Proof.
  destruct (mapM_TodoGroup_toJSON (TodoManager.groups m) w) as [ds [Hds _]].
  unfold TodoManager.saveGroups, unless_rejected, try_catch.
  unfold bind at 1. unfold TodoManager.this_groups at 1. simpl.
  rewrite (bind_return _ _ _ _ _
             (host_call_run (mapM TodoGroup.toJSON (TodoManager.groups m))
                m w _ _ Hds)).
  unfold TodoManager.host_call, storage_set. simpl.
  destruct (set_fulfilled (host w) (sets w)); eexists; split;
    try reflexivity; repeat split.
Qed.

(** ** clearCompleted *)

Lemma clearCompleted_run m w :
  exists w',
    TodoManager.clearCompleted (m, w)
    = (unless_rejected w
         (List.length (filter (fun t => TodoItem.completed t)
                              (TodoManager.todos m)))
         "Failed to clear completed todos",
       (with_todos (filter (fun t => negb (TodoItem.completed t))
                           (TodoManager.todos m)) m, w'))
    /\ wrote_once w w'.
Proof.
  set (m' := with_todos (filter (fun t => negb (TodoItem.completed t))
                                (TodoManager.todos m)) m).
  destruct (saveTodos_run m' w) as [w' [Hsave Hw]].
  exists w'. split; [|exact Hw].
  unfold TodoManager.clearCompleted, try_catch.
  unfold bind at 1. unfold TodoManager.this_todos at 1. simpl.
  unfold bind at 1. unfold TodoManager.set_todos at 1. simpl.
  fold (with_todos (filter (fun t => negb (TodoItem.completed t))
                           (TodoManager.todos m)) m). fold m'.
  unfold bind at 1. rewrite Hsave. unfold unless_rejected.
  destruct (set_fulfilled (host w) (sets w)); reflexivity.
Qed.

Lemma filter_completed_of_active (ts : list TodoItem.t) :
  filter (fun t => TodoItem.completed t)
         (filter (fun t => negb (TodoItem.completed t)) ts) = [].
Proof.
  induction ts as [|t r IH]; simpl; [reflexivity|].
  destruct (TodoItem.completed t) eqn:E; simpl; [exact IH|].
  now rewrite E.
Qed.

Lemma filter_active_idem (ts : list TodoItem.t) :
  filter (fun t => negb (TodoItem.completed t))
         (filter (fun t => negb (TodoItem.completed t)) ts)
  = filter (fun t => negb (TodoItem.completed t)) ts.
Proof.
  induction ts as [|t r IH]; simpl; [reflexivity|].
  destruct (TodoItem.completed t) eqn:E; simpl; [exact IH|].
  rewrite E. simpl. now rewrite IH.
Qed.

Lemma filter_partition_length {A} (p : A -> bool) xs :
  List.length xs
  = List.length (filter (fun x => negb (p x)) xs)
    + List.length (filter p xs).
Proof.
  induction xs as [|x r IH]; simpl; [reflexivity|].
  destruct (p x); simpl; lia.
Qed.

(** C6: [clearCompleted] keeps, in their order, exactly the todos whose
    [completed] is false and drops exactly those whose [completed] is
    true; it returns the number dropped (when the write of the todos is
    rejected the removal has still happened and the call ends in its
    [StorageError]).  Called again at once it removes nothing and
    returns 0. *)
Theorem clearCompleted_removes_exactly_the_completed :
  forall m w,
  exists m' w' w'',
    TodoManager.clearCompleted (m, w)
    = (unless_rejected w
         (List.length (TodoManager.todos m)
          - List.length (TodoManager.todos m'))
         "Failed to clear completed todos", (m', w'))
    /\ TodoManager.todos m'
       = filter (fun t => negb (TodoItem.completed t)) (TodoManager.todos m)
    /\ TodoManager.groups m' = TodoManager.groups m
    /\ (forall t, In t (TodoManager.todos m')
                  <-> In t (TodoManager.todos m)
                      /\ TodoItem.completed t = false)
    /\ List.length (TodoManager.todos m) - List.length (TodoManager.todos m')
       = List.length (filter (fun t => TodoItem.completed t)
                             (TodoManager.todos m))
    /\ TodoManager.clearCompleted (m', w')
       = (unless_rejected w' 0 "Failed to clear completed todos", (m', w'')).
Proof.
  intros m w.
  destruct (clearCompleted_run m w) as [w' [H1 _]].
  set (m' := with_todos (filter (fun t => negb (TodoItem.completed t))
                                (TodoManager.todos m)) m) in *.
  destruct (clearCompleted_run m' w') as [w'' [H2 _]].
  assert (Hcount :
            List.length (TodoManager.todos m)
            - List.length (TodoManager.todos m')
            = List.length (filter (fun t => TodoItem.completed t)
                                  (TodoManager.todos m))).
  { simpl.
    rewrite (filter_partition_length (fun t => TodoItem.completed t)
               (TodoManager.todos m)) at 1. lia. }
  exists m', w', w''. repeat split.
  - now rewrite Hcount.
  - simpl in H. apply filter_In in H. tauto.
  - simpl in H. apply filter_In in H. destruct H as [_ H].
    now destruct (TodoItem.completed t).
  - intros [Hin Hc]. simpl. apply filter_In. now rewrite Hc.
  - exact Hcount.
  - rewrite H2. simpl. rewrite filter_completed_of_active.
    unfold with_todos. simpl. now rewrite filter_active_idem.
Qed.

(** ** toggleTodo *)

Lemma find_replace_first {A} (p : A -> bool) y xs x :
  find p xs = Some x -> p y = true -> find p (replace_first p y xs) = Some y.
Proof.
  induction xs as [|z r IH]; simpl; [discriminate|].
  destruct (p z) eqn:E; simpl; intros H Hy.
  - now rewrite Hy.
  - rewrite E. now apply IH.
Qed.

Lemma replace_first_twice {A} (p : A -> bool) y z xs :
  p y = true ->
  replace_first p z (replace_first p y xs) = replace_first p z xs.
Proof.
  intros Hy. induction xs as [|x r IH]; simpl; [reflexivity|].
  destruct (p x) eqn:E; simpl.
  - now rewrite Hy.
  - rewrite E. now rewrite IH.
Qed.

Lemma find_holds {A} (p : A -> bool) xs x : find p xs = Some x -> p x = true.
Proof. intros H. now destruct (find_some p xs H). Qed.

Lemma toggleTodo_run id m w todo :
  Array_find (fun t => strict_equals (TodoItem.id t) id)
             (TodoManager.todos m) = Some todo ->
  exists w',
    TodoManager.toggleTodo id (m, w)
    = (unless_rejected w true "Failed to toggle todo completion",
       (with_todos
          (replace_first (fun t => strict_equals (TodoItem.id t) id)
             (toggled (iso (clock (host w) (clock_reads w))) todo)
             (TodoManager.todos m)) m, w'))
    /\ host w' = host w /\ sets w' = S (sets w)
    /\ clock_reads w' = S (clock_reads w).
Proof.
  intros Hfind.
  set (m' := with_todos
          (replace_first (fun t => strict_equals (TodoItem.id t) id)
             (toggled (iso (clock (host w) (clock_reads w))) todo)
             (TodoManager.todos m)) m).
  destruct (saveTodos_run m' (advance 1 0 0 w))
    as [w' [Hsave [Hh [Hs [_ [Hc _]]]]]].
  exists w'. split; [|now rewrite Hh, Hs, Hc].
  unfold TodoManager.toggleTodo, try_catch.
  unfold bind at 1. unfold TodoManager.this_todos at 1. simpl.
  unfold Array_find in Hfind |- *. rewrite Hfind.
  unfold bind at 1. unfold TodoManager.host_call at 1. simpl.
  unfold bind at 1. unfold TodoManager.set_todos at 1. simpl.
  fold (toggled (iso (clock (host w) (clock_reads w))) todo).
  fold (with_todos
          (replace_first (fun t => strict_equals (TodoItem.id t) id)
             (toggled (iso (clock (host w) (clock_reads w))) todo)
             (TodoManager.todos m)) m). fold m'.
  unfold bind at 1.
  match goal with
  | |- context [TodoManager.saveTodos (m', ?x)] =>
      change x with (advance 1 0 0 w)
  end.
  rewrite Hsave. unfold unless_rejected. simpl.
  destruct (set_fulfilled (host w) (sets w)); reflexivity.
Qed.

(** C7 as the code has it: toggling the todo with id [id] twice brings
    its [completed] flag back (every other field but [updatedAt] is
    untouched throughout, and so is every other todo), and each toggle
    sets [updatedAt] to the clock reading taken at that toggle.  Whether
    that differs from [createdAt] is up to the clock: it does exactly when
    the reading does. *)
Theorem toggleTodo_twice_restores_completed :
  forall id m w todo,
    Array_find (fun t => strict_equals (TodoItem.id t) id)
               (TodoManager.todos m) = Some todo ->
    let is_it := fun t => strict_equals (TodoItem.id t) id in
    let first_reading := iso (clock (host w) (clock_reads w)) in
    let second_reading := iso (clock (host w) (S (clock_reads w))) in
    exists m1 w1 m2 w2,
      TodoManager.toggleTodo id (m, w)
      = (unless_rejected w true "Failed to toggle todo completion", (m1, w1))
      /\ TodoManager.toggleTodo id (m1, w1)
         = (unless_rejected w1 true "Failed to toggle todo completion",
            (m2, w2))
      /\ TodoManager.todos m1
         = replace_first is_it
             (TodoItem.mk (TodoItem.id todo) (TodoItem.text todo)
                (TodoItem.groupId todo) (negb (TodoItem.completed todo))
                (TodoItem.description todo) (TodoItem.createdAt todo)
                first_reading)
             (TodoManager.todos m)
      /\ TodoManager.todos m2
         = replace_first is_it
             (TodoItem.mk (TodoItem.id todo) (TodoItem.text todo)
                (TodoItem.groupId todo) (TodoItem.completed todo)
                (TodoItem.description todo) (TodoItem.createdAt todo)
                second_reading)
             (TodoManager.todos m)
      /\ TodoManager.groups m2 = TodoManager.groups m.
Proof.
  intros id m w todo Hfind is_it first_reading second_reading.
  destruct (toggleTodo_run id m w todo Hfind) as [w1 [H1 [Hh [_ Hc]]]].
  set (t1 := toggled first_reading todo).
  set (m1 := with_todos (replace_first is_it t1 (TodoManager.todos m)) m).
  assert (Ht1 : is_it t1 = true).
  { unfold is_it, t1, toggled. simpl. exact (find_holds _ _ _ Hfind). }
  assert (Hfind1 : Array_find is_it (TodoManager.todos m1) = Some t1).
  { unfold m1. simpl. eapply find_replace_first; eauto. }
  destruct (toggleTodo_run id m1 w1 t1 Hfind1) as [w2 [H2 _]].
  exists m1, w1. eexists. exists w2.
  split; [exact H1|]. split; [exact H2|].
  split; [reflexivity|]. split; [|reflexivity].
  simpl. rewrite (replace_first_twice is_it t1 _ _ Ht1).
  unfold toggled, t1, toggled. simpl.
  rewrite negb_involutive, Hh, Hc. reflexivity.
Qed.

(** ** removeGroup *)

Lemma findIndex_from_found {A} (p : A -> bool) before x after :
  p x = true -> (forall y, In y before -> p y = false) ->
  forall i, findIndex_from p i (before ++ x :: after)
            = (i + Z.of_nat (List.length before))%Z.
Proof.
  intros Hx. induction before as [|b r IH]; simpl; intros Hb i.
  - rewrite Hx. lia.
  - rewrite (Hb b (or_introl eq_refl)).
    rewrite IH by (intros; apply Hb; now right). lia.
Qed.

Lemma findIndex_from_absent {A} (p : A -> bool) xs :
  (forall y, In y xs -> p y = false) ->
  forall i, findIndex_from p i xs = (-1)%Z.
Proof.
  induction xs as [|x r IH]; simpl; intros H i; [reflexivity|].
  rewrite (H x (or_introl eq_refl)). apply IH. intros; apply H; now right.
Qed.

Lemma first_match {A} (p : A -> bool) xs :
  (exists x, In x xs /\ p x = true) ->
  exists before x after,
    xs = before ++ x :: after /\ p x = true
    /\ (forall y, In y before -> p y = false).
Proof.
  induction xs as [|z r IH]; intros [x [Hin Hp]]; [destruct Hin|].
  destruct (p z) eqn:E.
  - exists [], z, r. repeat split; [exact E|intros y []].
  - destruct Hin as [->|Hin]; [congruence|].
    destruct (IH (ex_intro _ x (conj Hin Hp)))
      as [before [y [after [-> [Hy Hb]]]]].
    exists (z :: before), y, after. repeat split; [exact Hy|].
    intros u [<-|Hu]; [exact E|now apply Hb].
Qed.

Lemma remove_at_middle {A} (before : list A) x after :
  remove_at (List.length before) (before ++ x :: after) = before ++ after.
Proof. induction before as [|b r IH]; simpl; [reflexivity|now rewrite IH]. Qed.

Lemma Number_or_0_index index w :
  Number_or_0 (JNum (num_of_nat index)) w = (Return (num_of_nat index), w).
Proof.
  unfold Number_or_0, bind, Number, ret. do 2 f_equal.
  destruct index; reflexivity.
Qed.

Lemma forEach_updatePosition gs : forall index w,
  forEachM (fun group i => TodoGroup.updatePosition group (JNum (num_of_nat i)))
           index gs w
  = (Return (renumbered (host w) (clock_reads w) index gs),
     advance (List.length gs) 0 0 w).
Proof.
  induction gs as [|g r IH]; intros index w; simpl.
  - unfold ret. now rewrite advance_0.
  - unfold bind at 1. unfold TodoGroup.updatePosition at 1.
    rewrite (bind_return _ _ _ _ _ (Number_or_0_index index w)).
    unfold bind at 1. unfold now_iso at 1, bind at 1, read_clock at 1, ret at 1.
    unfold ret at 1.
    match goal with
    | |- bind _ _ ?x = _ => change x with (advance 1 0 0 w)
    end.
    rewrite (bind_return _ _ _ _ _ (IH (S index) (advance 1 0 0 w))).
    unfold ret. rewrite advance_advance. simpl.
    do 3 f_equal. lia.
Qed.

Lemma map_id_renumbered h gs : forall reads index,
  List.map TodoGroup.id (renumbered h reads index gs)
  = List.map TodoGroup.id gs.
Proof. induction gs; intros; simpl; [reflexivity|now rewrite IHgs]. Qed.

Lemma map_name_renumbered h gs : forall reads index,
  List.map TodoGroup.name (renumbered h reads index gs)
  = List.map TodoGroup.name gs.
Proof. induction gs; intros; simpl; [reflexivity|now rewrite IHgs]. Qed.

Lemma map_position_renumbered h gs : forall reads index,
  List.map TodoGroup.position (renumbered h reads index gs)
  = List.map num_of_nat (seq index (List.length gs)).
Proof. induction gs; intros; simpl; [reflexivity|now rewrite IHgs]. Qed.

Lemma removeGroup_unknown groupId m w :
  (forall g, In g (TodoManager.groups m) ->
             strict_equals (TodoGroup.id g) groupId = false) ->
  TodoManager.removeGroup groupId (m, w) = (Return false, (m, w)).
Proof.
  intros H. unfold TodoManager.removeGroup.
  apply try_catch_return.
  unfold bind at 1. unfold TodoManager.this_groups at 1. simpl.
  unfold Array_findIndex.
  rewrite (findIndex_from_absent _ _ H). reflexivity.
Qed.

Lemma removeGroup_run groupId m w before g after :
  TodoManager.groups m = before ++ g :: after ->
  strict_equals (TodoGroup.id g) groupId = true ->
  (forall y, In y before -> strict_equals (TodoGroup.id y) groupId = false) ->
  exists w',
    TodoManager.removeGroup groupId (m, w)
    = ((if set_fulfilled (host w) (sets w)
           && set_fulfilled (host w) (S (sets w))
        then Return true
        else Throw (StorageError "Failed to remove group")),
       (TodoManager.mk
          (filter (fun todo =>
                     negb (strict_equals (TodoItem.groupId todo) groupId))
                  (TodoManager.todos m))
          (renumbered (host w) (clock_reads w) 0 (before ++ after))
          (TodoManager.currentFilter m) (TodoManager.isInitialized m),
        w')).
Proof.
  intros Hgs Hg Hbefore.
  set (m' := TodoManager.mk
          (filter (fun todo =>
                     negb (strict_equals (TodoItem.groupId todo) groupId))
                  (TodoManager.todos m))
          (renumbered (host w) (clock_reads w) 0 (before ++ after))
          (TodoManager.currentFilter m) (TodoManager.isInitialized m)).
  set (w0 := advance (List.length (before ++ after)) 0 0 w).
  destruct (saveGroups_run m' w0) as [w1 [Hsg [Hh1 [Hs1 _]]]].
  destruct (saveTodos_run m' w1) as [w2 [Hst _]].
  exists w2.
  unfold TodoManager.removeGroup, try_catch.
  unfold bind at 1. unfold TodoManager.this_groups at 1. simpl.
  unfold Array_findIndex. rewrite Hgs.
  rewrite (findIndex_from_found
             (fun group => strict_equals (TodoGroup.id group) groupId)
             before g after Hg Hbefore 0%Z).
  replace (0 + Z.of_nat (List.length before) =? -1)%Z with false
    by (symmetry; apply Z.eqb_neq; lia).
  unfold bind at 1. unfold TodoManager.this_todos at 1. simpl.
  unfold bind at 1. unfold TodoManager.set_todos at 1. simpl.
  unfold bind at 1. unfold TodoManager.this_groups at 1. simpl.
  unfold bind at 1. unfold TodoManager.set_groups at 1. simpl.
  unfold bind at 1. unfold TodoManager.this_groups at 1. simpl.
  unfold Array_splice1. rewrite Hgs, Nat2Z.id, remove_at_middle.
  unfold bind at 1. unfold TodoManager.host_call at 1. simpl.
  rewrite forEach_updatePosition. simpl host. simpl clock_reads.
  unfold bind at 1. unfold TodoManager.set_groups at 1. simpl.
  fold m'. fold w0.
  unfold bind at 1. unfold TodoManager.Promise_all2.
  rewrite Hsg, Hst. unfold unless_rejected.
  rewrite Hh1, Hs1. unfold w0. simpl.
  destruct (set_fulfilled (host w) (sets w));
    destruct (set_fulfilled (host w) (S (sets w))); reflexivity.
Qed.

(** *** Position order *)

Lemma sort_insert_least x xs :
  Forall (not_after x) xs ->
  sort_insert TodoManager.by_position x xs = x :: xs.
Proof.
  destruct xs as [|y r]; simpl; [reflexivity|].
  intros H. inversion H as [|? ? Hy _]; subst.
  unfold not_after in Hy. now rewrite Hy.
Qed.

Lemma Array_sort_ascending gs :
  ascending gs -> Array_sort TodoManager.by_position gs = gs.
Proof.
  induction 1 as [|x r Hr IH Hx]; [reflexivity|].
  unfold Array_sort in *. simpl. rewrite IH. now apply sort_insert_least.
Qed.

Lemma ascending_remove before g after :
  ascending (before ++ g :: after) -> ascending (before ++ after).
Proof.
  unfold ascending. induction before as [|b r IH]; simpl; intros H.
  - now inversion H.
  - inversion H as [|? ? Hr Hb]; subst. constructor; [now apply IH|].
    rewrite Forall_app in Hb |- *. destruct Hb as [H1 H2].
    split; [exact H1|now inversion H2].
Qed.

Lemma num_of_nat_not_after i j :
  i <= j -> num_positive (num_sub (num_of_nat i) (num_of_nat j)) = false.
Proof.
  intros H. unfold num_of_nat, num_sub, num_positive.
  destruct (Qcompare_spec (inject_Z (Z.of_nat i) - inject_Z (Z.of_nat j)) 0)
    as [_|_|Hlt]; try reflexivity.
  exfalso. unfold Qlt, Qminus, Qplus, Qopp, inject_Z in Hlt. simpl in Hlt.
  lia.
Qed.

Lemma renumbered_from h gs : forall reads index,
  Forall (fun g => exists j, index <= j
                             /\ TodoGroup.position g = num_of_nat j)
         (renumbered h reads index gs).
Proof.
  induction gs as [|g r IH]; intros reads index; simpl; constructor.
  - exists index. split; [lia|reflexivity].
  - eapply Forall_impl; [|apply (IH (S reads) (S index))].
    intros a [j [Hj Ha]]. exists j. split; [lia|exact Ha].
Qed.

Lemma renumbered_ascending h gs : forall reads index,
  ascending (renumbered h reads index gs).
Proof.
  unfold ascending.
  induction gs as [|g r IH]; intros reads index; simpl; constructor.
  - apply IH.
  - eapply Forall_impl; [|apply (renumbered_from h r (S reads) (S index))].
    intros a [j [Hj Ha]]. unfold not_after, TodoManager.by_position.
    simpl. rewrite Ha. apply num_of_nat_not_after. lia.
Qed.

(** C2 on the arrays the manager keeps.  When the groups array is in
    ascending order of position, as [addGroup] and [removeGroup] leave
    it, [removeGroup] for the id of a group the manager holds drops every
    todo whose [groupId] is that id, takes the (first) group with that id
    out, and gives the remaining groups the positions 0..n-1 in their
    order by ascending position, which is then also the order
    [getGroups] shows them in; it returns [true] when both writes are
    fulfilled and ends in its [StorageError], the removal done,
    otherwise.  For an id that no group has the call returns [false] and
    changes nothing, whatever the order of the array. *)
Theorem removeGroup_cascades_and_renumbers_in_position_order :
  forall groupId m w,
    (ascending (TodoManager.groups m) ->
     (exists g, In g (TodoManager.groups m)
                /\ strict_equals (TodoGroup.id g) groupId = true) ->
     exists before g after m' w',
       TodoManager.groups m = before ++ g :: after
       /\ strict_equals (TodoGroup.id g) groupId = true
       /\ (forall y, In y before ->
                     strict_equals (TodoGroup.id y) groupId = false)
       /\ TodoManager.removeGroup groupId (m, w)
          = ((if set_fulfilled (host w) (sets w)
                 && set_fulfilled (host w) (S (sets w))
              then Return true
              else Throw (StorageError "Failed to remove group")),
             (m', w'))
       /\ TodoManager.todos m'
          = filter (fun todo =>
                      negb (strict_equals (TodoItem.groupId todo) groupId))
                   (TodoManager.todos m)
       /\ List.map TodoGroup.id (TodoManager.groups m')
          = List.map TodoGroup.id
              (Array_sort TodoManager.by_position (before ++ after))
       /\ List.map TodoGroup.name (TodoManager.groups m')
          = List.map TodoGroup.name
              (Array_sort TodoManager.by_position (before ++ after))
       /\ List.map TodoGroup.position (TodoManager.groups m')
          = List.map num_of_nat (seq 0 (List.length (before ++ after)))
       /\ TodoManager.getGroups m' = TodoManager.groups m')
    /\ ((forall g, In g (TodoManager.groups m) ->
                   strict_equals (TodoGroup.id g) groupId = false) ->
        TodoManager.removeGroup groupId (m, w) = (Return false, (m, w))).
Proof.
  intros groupId m w. split; [|apply removeGroup_unknown].
  intros Hasc Hknown.
  destruct (first_match
              (fun g => strict_equals (TodoGroup.id g) groupId)
              (TodoManager.groups m) Hknown)
    as [before [g [after [Hgs [Hg Hbefore]]]]].
  destruct (removeGroup_run groupId m w before g after Hgs Hg Hbefore)
    as [w' Hrun].
  assert (Hrest : ascending (before ++ after))
    by (apply ascending_remove with g; now rewrite <- Hgs).
  exists before, g, after. eexists. exists w'.
  split; [exact Hgs|]. split; [exact Hg|]. split; [exact Hbefore|].
  split; [exact Hrun|]. simpl.
  rewrite (Array_sort_ascending _ Hrest).
  split; [reflexivity|].
  split; [apply map_id_renumbered|].
  split; [apply map_name_renumbered|].
  split; [apply map_position_renumbered|].
  unfold TodoManager.getGroups. simpl.
  apply Array_sort_ascending, renumbered_ascending.
Qed.

(** ** The constructors *)

Lemma convertible_ToNumber h v :
  convertible v <-> exists n, ToNumber h v = Some n.
Proof.
  destruct v as [| |b|n|s|k|r [n|] p]; simpl; split; intros H;
    try exact I; try (eexists; reflexivity); try contradiction;
    destruct H as [n' H]; discriminate.
Qed.

Lemma Number_or_0_run v w n :
  ToNumber (host w) v = Some n -> Number_or_0 v w = (Return (or_zero n), w).
Proof. intros H. unfold Number_or_0, bind, Number. now rewrite H. Qed.

Lemma Number_or_0_throws v w :
  ToNumber (host w) v = None -> Number_or_0 v w = (Throw TypeError, w).
Proof. intros H. unfold Number_or_0, bind, Number. now rewrite H. Qed.

Lemma default_null_truthy id :
  ToBoolean (default_arg JNull id) = ToBoolean id
  /\ (ToBoolean id = true -> default_arg JNull id = id).
Proof. destruct id; simpl; split; try reflexivity; discriminate. Qed.

(** The group [new TodoGroup] builds from an accepted name and a
    position that converts to [n]: with the id it was given if that is
    truthy, with a generated one otherwise. *)
Lemma TodoGroup_constructor_run s position id w n :
  accepted MAX_GROUP_NAME_LENGTH s ->
  ToNumber (host w) (default_arg (JNum num_zero) position) = Some n ->
  TodoGroup.constructor (JStr s) position id w
  = if ToBoolean id
    then (Return
            (TodoGroup.mk id (trim s) (or_zero n)
               (iso (clock (host w) (clock_reads w)))
               (iso (clock (host w) (1 + clock_reads w)))),
          advance 2 0 0 w)
    else (Return
            (TodoGroup.mk
               (JStr (lit "group_"
                      ++ base36 (clock (host w) (clock_reads w))
                      ++ random36 (host w) (random_draws w)))
               (trim s) (or_zero n)
               (iso (clock (host w) (1 + clock_reads w)))
               (iso (clock (host w) (2 + clock_reads w)))),
          advance 3 1 0 w).
Proof.
  intros Hs Hn. unfold TodoGroup.constructor.
  rewrite (bind_return _ _ _ _ _ (validateName_accepts World s w Hs)).
  destruct (default_null_truthy id) as [Ht Hid]. rewrite Ht.
  destruct (ToBoolean id) eqn:E.
  - rewrite (Hid eq_refl).
    unfold bind at 1. unfold ret at 1.
    unfold bind at 1. unfold method_trim at 1, ret at 1.
    rewrite (bind_return _ _ _ _ _ (Number_or_0_run _ _ _ Hn)).
    reflexivity.
  - unfold bind at 1. unfold TodoGroup.generateId.
    unfold bind at 1. unfold now_base36, bind at 1, read_clock at 1.
    unfold ret at 1. unfold bind at 1. unfold random_suffix at 1.
    unfold ret at 1.
    unfold bind at 1. unfold method_trim at 1, ret at 1.
    unfold bind at 1.
    match goal with
    | |- context [Number_or_0 _ ?x] => change x with (advance 1 1 0 w)
    end.
    rewrite (Number_or_0_run _ (advance 1 1 0 w) n Hn).
    reflexivity.
Qed.

(** ... and what happens when the position does not convert. *)
Lemma TodoGroup_constructor_position_throws s position id w :
  accepted MAX_GROUP_NAME_LENGTH s ->
  ToNumber (host w) (default_arg (JNum num_zero) position) = None ->
  exists w', TodoGroup.constructor (JStr s) position id w
             = (Throw TypeError, w').
Proof.
  intros Hs Hn. unfold TodoGroup.constructor.
  rewrite (bind_return _ _ _ _ _ (validateName_accepts World s w Hs)).
  destruct (default_null_truthy id) as [Ht Hid]. rewrite Ht.
  destruct (ToBoolean id) eqn:E.
  - unfold bind at 1. unfold ret at 1.
    unfold bind at 1. unfold method_trim at 1, ret at 1.
    rewrite (bind_throw _ _ _ _ _ (Number_or_0_throws _ _ Hn)).
    eexists; reflexivity.
  - unfold bind at 1. unfold TodoGroup.generateId.
    unfold bind at 1. unfold now_base36, bind at 1, read_clock at 1.
    unfold ret at 1. unfold bind at 1. unfold random_suffix at 1.
    unfold ret at 1.
    unfold bind at 1. unfold method_trim at 1, ret at 1.
    unfold bind at 1.
    match goal with
    | |- context [Number_or_0 _ ?x] => change x with (advance 1 1 0 w)
    end.
    rewrite (Number_or_0_throws _ (advance 1 1 0 w) Hn).
    eexists; reflexivity.
Qed.

Lemma updatePosition_run g newPosition w n :
  ToNumber (host w) newPosition = Some n ->
  TodoGroup.updatePosition g newPosition w
  = (Return
       (TodoGroup.mk (TodoGroup.id g) (TodoGroup.name g) (or_zero n)
          (TodoGroup.createdAt g) (iso (clock (host w) (clock_reads w)))),
     advance 1 0 0 w).
Proof.
  intros Hn. unfold TodoGroup.updatePosition.
  rewrite (bind_return _ _ _ _ _ (Number_or_0_run _ _ _ Hn)).
  reflexivity.
Qed.

Lemma validateGroupId_accepts S g (st : S) :
  g <> [] -> TodoItem.validateGroupId (JStr g) st = (Return tt, st).
Proof.
  intros H. unfold TodoItem.validateGroupId.
  now rewrite (string_truthy g H).
Qed.

(** The todo [new TodoItem] builds from an accepted text and a group id
    that is a non-empty string. *)
Lemma TodoItem_constructor_run s g completed description id w :
  accepted MAX_TODO_LENGTH s -> g <> [] ->
  TodoItem.constructor (JStr s) (JStr g) completed description id w
  = if ToBoolean id
    then (Return
            (TodoItem.mk id (trim s) (JStr g)
               (ToBoolean (default_arg (JBool false) completed))
               (js_or (default_arg (JStr []) description) (JStr []))
               (iso (clock (host w) (clock_reads w)))
               (iso (clock (host w) (1 + clock_reads w)))),
          advance 2 0 0 w)
    else (Return
            (TodoItem.mk
               (JStr (base36 (clock (host w) (clock_reads w))
                      ++ random36 (host w) (random_draws w)))
               (trim s) (JStr g)
               (ToBoolean (default_arg (JBool false) completed))
               (js_or (default_arg (JStr []) description) (JStr []))
               (iso (clock (host w) (1 + clock_reads w)))
               (iso (clock (host w) (2 + clock_reads w)))),
          advance 3 1 0 w).
Proof.
  intros Hs Hg. unfold TodoItem.constructor.
  rewrite (bind_return _ _ _ _ _ (validateText_accepts World s w Hs)).
  rewrite (bind_return _ _ _ _ _ (validateGroupId_accepts World g w Hg)).
  destruct (default_null_truthy id) as [Ht Hid]. rewrite Ht.
  destruct (ToBoolean id) eqn:E.
  - rewrite (Hid eq_refl). reflexivity.
  - reflexivity.
Qed.

(** ** Position coercion *)

(** C9 as the code has it.  For a [position] that [Number] converts
    (undefined, null, a boolean, a number, a string, an object with a
    primitive value), [new TodoGroup] with an accepted name and
    [updatePosition] do not throw, and the position they store is
    [Number(position) || 0]: 0 when [position] is omitted (the
    constructor's default) and whenever it converts to NaN. *)
Theorem position_is_coerced_when_convertible :
  forall position w,
    convertible position ->
    (forall s id,
        accepted MAX_GROUP_NAME_LENGTH s ->
        exists g w' n,
          TodoGroup.constructor (JStr s) position id w = (Return g, w')
          /\ ToNumber (host w) (default_arg (JNum num_zero) position) = Some n
          /\ TodoGroup.position g = or_zero n
          /\ (position = JUndefined -> TodoGroup.position g = num_zero)
          /\ (n = NaN -> TodoGroup.position g = num_zero))
    /\ (forall this,
        exists n,
          ToNumber (host w) position = Some n
          /\ TodoGroup.updatePosition this position w
             = (Return
                  (TodoGroup.mk (TodoGroup.id this) (TodoGroup.name this)
                     (or_zero n) (TodoGroup.createdAt this)
                     (iso (clock (host w) (clock_reads w)))),
                advance 1 0 0 w)
          /\ (n = NaN -> or_zero n = num_zero)).
Proof.
  intros position w Hpos.
  assert (Hdef : convertible (default_arg (JNum num_zero) position))
    by (destruct position; try exact Hpos; exact I).
  split.
  - intros s id Hs.
    destruct (proj1 (convertible_ToNumber (host w) _) Hdef) as [n Hn].
    pose proof (TodoGroup_constructor_run s position id w n Hs Hn) as Hrun.
    destruct (ToBoolean id); eexists; eexists; exists n;
      (split; [exact Hrun|]); (split; [exact Hn|]);
      (split; [reflexivity|]); simpl; split.
    + intros ->. simpl in Hn. injection Hn as <-. reflexivity.
    + intros ->. reflexivity.
    + intros ->. simpl in Hn. injection Hn as <-. reflexivity.
    + intros ->. reflexivity.
  - intros this.
    destruct (proj1 (convertible_ToNumber (host w) _) Hpos) as [n Hn].
    exists n. split; [exact Hn|]. split.
    + now apply updatePosition_run.
    + intros ->. reflexivity.
Qed.

Lemma position_is_coerced_when_convertible_witness :
  convertible (JStr (lit "second"))
  /\ accepted MAX_GROUP_NAME_LENGTH (lit " Work ")
  /\ exists g w' n,
       TodoGroup.constructor (JStr (lit " Work ")) (JStr (lit "second"))
         JUndefined (fresh_world ticking_host Absent Absent)
       = (Return g, w')
       /\ ToNumber (host (fresh_world ticking_host Absent Absent))
            (default_arg (JNum num_zero) (JStr (lit "second"))) = Some n
       /\ TodoGroup.position g = or_zero n
       /\ (JStr (lit "second") = JUndefined -> TodoGroup.position g = num_zero)
       /\ (n = NaN -> TodoGroup.position g = num_zero).
Proof.
  split; [exact I|].
  split; [vm_compute; split; lia|].
  apply (proj1 (position_is_coerced_when_convertible
                  (JStr (lit "second"))
                  (fresh_world ticking_host Absent Absent) I)).
  vm_compute. split; lia.
Defined.

(** C9 as stated fails: a position that has no primitive value, such as
    the stored object [{toString: 1}], makes [Number(position)] throw a
    TypeError, so the constructor and [updatePosition] throw because of
    the position (the same construction without it succeeds). *)
Lemma position_without_primitive_value_throws :
  (exists g w',
      TodoGroup.constructor (JStr (lit "Work")) JUndefined JUndefined
        (fresh_world ticking_host Absent Absent) = (Return g, w'))
  /\ fst (TodoGroup.constructor (JStr (lit "Work")) no_primitive_value
            JUndefined (fresh_world ticking_host Absent Absent))
     = Throw TypeError
  /\ fst (TodoGroup.updatePosition work_group no_primitive_value
            (fresh_world ticking_host Absent Absent))
     = Throw TypeError.
Proof.
  split; [|split; reflexivity].
  eexists. eexists. reflexivity.
Qed.

(** ** Deserializing a todo *)

(** C10: a record object whose [text] is an accepted string and whose
    [groupId] is a non-empty string deserializes whatever its
    [completed] and [description] are: [completed] becomes
    [Boolean(data.completed)], false when the field is absent, and
    [description] becomes [data.description || ''], the empty string
    when the field is absent or falsy. *)
Theorem TodoItem_fromJSON_tolerates_completed_and_description :
  forall ref number props w s g,
    let data := JObject ref number props in
    Get data "text" = JStr s ->
    accepted MAX_TODO_LENGTH s ->
    Get data "groupId" = JStr g ->
    g <> [] ->
    exists item w',
      TodoItem.fromJSON data w = (Return item, w')
      /\ TodoItem.text item = trim s
      /\ TodoItem.groupId item = JStr g
      /\ TodoItem.completed item = ToBoolean (Get data "completed")
      /\ TodoItem.description item = js_or (Get data "description") (JStr [])
      /\ (Get data "completed" = JUndefined -> TodoItem.completed item = false)
      /\ (ToBoolean (Get data "description") = false ->
          TodoItem.description item = JStr []).
Proof.
  intros ref number props w s g data Htext Hs Hgroup Hg.
  assert (Hc : forall v, ToBoolean (default_arg (JBool false) v) = ToBoolean v)
    by (intros []; reflexivity).
  assert (Hd : forall v,
             js_or (default_arg (JStr []) (js_or v (JStr []))) (JStr [])
             = js_or v (JStr [])).
  { intros v. unfold js_or. destruct (ToBoolean v) eqn:E.
    - destruct v; try discriminate; simpl in *; now rewrite ?E.
    - reflexivity. }
  unfold TodoItem.fromJSON. change (ToBoolean data) with true.
  change (typeof data) with TypeObject. cbn [negb orb type_eqb].
  rewrite Htext, Hgroup.
  rewrite (TodoItem_constructor_run s g _ _ _ w Hs Hg).
  destruct (ToBoolean (Get data "id")); eexists; eexists;
    (split; [reflexivity|]); cbn [TodoItem.text TodoItem.groupId
      TodoItem.completed TodoItem.description]; rewrite Hc, Hd;
    repeat split; try (intros ->; reflexivity);
    intros E; unfold js_or; now rewrite E.
Qed.

Lemma TodoItem_fromJSON_tolerates_witness :
  exists item w',
    TodoItem.fromJSON loose_todo_record
      (fresh_world ticking_host Absent Absent) = (Return item, w')
    /\ TodoItem.text item = trim (lit " Buy milk ")
    /\ TodoItem.groupId item = JStr (lit "g1")
    /\ TodoItem.completed item
       = ToBoolean (Get loose_todo_record "completed")
    /\ TodoItem.description item
       = js_or (Get loose_todo_record "description") (JStr [])
    /\ (Get loose_todo_record "completed" = JUndefined ->
        TodoItem.completed item = false)
    /\ (ToBoolean (Get loose_todo_record "description") = false ->
        TodoItem.description item = JStr []).
Proof.
  apply (TodoItem_fromJSON_tolerates_completed_and_description
           1 (Some NaN) _ (fresh_world ticking_host Absent Absent)
           (lit " Buy milk ") (lit "g1")).
  - reflexivity.
  - vm_compute. split; lia.
  - reflexivity.
  - discriminate.
Defined.

(** ** addGroup and addTodo *)

Lemma addGroup_run s position m w n :
  accepted MAX_GROUP_NAME_LENGTH s ->
  ToNumber (host w) (default_arg (JNum num_zero) (newPosition_of position m))
  = Some n ->
  exists w',
    TodoManager.addGroup (JStr s) position (m, w)
    = (unless_rejected w (new_group w s n) "Failed to add group",
       (with_groups
          (Array_sort TodoManager.by_position
             (TodoManager.groups m ++ [new_group w s n])) m, w'))
    /\ host w' = host w /\ sets w' = S (sets w) /\ gets w' = gets w.
Proof.
  intros Hs Hn.
  set (m' := with_groups
          (Array_sort TodoManager.by_position
             (TodoManager.groups m ++ [new_group w s n])) m).
  destruct (saveGroups_run m' (advance 3 1 0 w))
    as [w' [Hsave [Hh [Hset [Hget _]]]]].
  exists w'. split; [|now rewrite Hh, Hset, Hget].
  pose proof (TodoGroup_constructor_run s (newPosition_of position m)
                JUndefined w n Hs Hn) as Hnew.
  cbn [ToBoolean] in Hnew. fold (new_group w s n) in Hnew.
  unfold TodoManager.addGroup, try_catch.
  unfold bind at 1. unfold TodoManager.this_groups at 1.
  cbn [fst snd TodoManager.groups].
  fold (newPosition_of position m).
  rewrite (bind_return _ _ _ _ _
             (host_call_run _ m w _ _ Hnew)).
  unfold bind at 1. unfold TodoManager.this_groups at 1.
  cbn [fst snd TodoManager.groups].
  unfold bind at 1. unfold TodoManager.set_groups at 1.
  cbn [fst snd TodoManager.groups TodoManager.todos
       TodoManager.currentFilter TodoManager.isInitialized].
  unfold bind at 1. unfold TodoManager.this_groups at 1.
  cbn [fst snd TodoManager.groups].
  unfold bind at 1. unfold TodoManager.set_groups at 1.
  cbn [fst snd TodoManager.groups TodoManager.todos
       TodoManager.currentFilter TodoManager.isInitialized].
  fold (with_groups
          (Array_sort TodoManager.by_position
             (TodoManager.groups m ++ [new_group w s n])) m). fold m'.
  unfold bind at 1. rewrite Hsave. unfold unless_rejected.
  cbn [advance host sets].
  destruct (set_fulfilled (host w) (sets w)); reflexivity.
Qed.

Lemma addTodo_run s g m w :
  accepted MAX_TODO_LENGTH s -> g <> [] ->
  (exists group, In group (TodoManager.groups m)
                 /\ strict_equals (TodoGroup.id group) (JStr g) = true) ->
  exists w',
    TodoManager.addTodo (JStr s) (JStr g) (m, w)
    = (unless_rejected w (new_todo w s g) "Failed to add todo item",
       (with_todos (TodoManager.todos m ++ [new_todo w s g]) m, w'))
    /\ host w' = host w /\ sets w' = S (sets w).
Proof.
  intros Hs Hg Hknown.
  destruct (find_exists
              (fun x => strict_equals (TodoGroup.id x) (JStr g))
              (TodoManager.groups m) Hknown) as [group Hfind].
  set (m' := with_todos (TodoManager.todos m ++ [new_todo w s g]) m).
  destruct (saveTodos_run m' (advance 3 1 0 w))
    as [w' [Hsave [Hh [Hset _]]]].
  exists w'. split; [|now rewrite Hh, Hset].
  pose proof (TodoItem_constructor_run s g JUndefined JUndefined JUndefined
                w Hs Hg) as Hnew.
  cbn [ToBoolean default_arg] in Hnew.
  unfold TodoManager.addTodo, try_catch.
  unfold bind at 1. unfold method_substring0 at 1, ret at 1.
  unfold bind at 1. unfold TodoManager.this_groups at 1.
  cbn [fst snd TodoManager.groups].
  unfold Array_find. rewrite Hfind.
  rewrite (bind_return _ _ _ _ _ (host_call_run _ m w _ _ Hnew)).
  unfold bind at 1. unfold TodoManager.this_todos at 1.
  cbn [fst snd TodoManager.todos].
  unfold bind at 1. unfold TodoManager.set_todos at 1.
  cbn [fst snd TodoManager.groups TodoManager.todos
       TodoManager.currentFilter TodoManager.isInitialized].
  unfold bind at 1.
  match goal with
  | |- context [TodoManager.saveTodos ?x] =>
      change x with (m', advance 3 1 0 w)
  end.
  change (js_or (JStr []) (JStr [])) with (JStr (@nil N)).
  fold (new_todo w s g).
  rewrite Hsave. unfold unless_rejected.
  cbn [advance host sets].
  destruct (set_fulfilled (host w) (sets w)); reflexivity.
Qed.

(** C5 for string arguments: with a text that is a string, [addTodo] for
    a [groupId] that no group has ends in the [TodoValidationError]
    "Group not found" and
    leaves the manager and the world as they were; for the id (a
    non-empty string) of a group the manager holds and an accepted text
    it appends a new todo with that [groupId], the trimmed text,
    [completed] false and an empty description, and returns it (when the
    write of the todos is rejected the todo is appended all the same and
    the call ends in its [StorageError]). *)
Theorem addTodo_requires_an_existing_group :
  forall s groupId m w,
    ((forall group, In group (TodoManager.groups m) ->
                    strict_equals (TodoGroup.id group) groupId = false) ->
     TodoManager.addTodo (JStr s) groupId (m, w)
     = (Throw (TodoValidationError "Group not found"), (m, w)))
    /\ (forall g,
           groupId = JStr g -> g <> [] ->
           (exists group, In group (TodoManager.groups m)
                          /\ strict_equals (TodoGroup.id group) groupId = true) ->
           accepted MAX_TODO_LENGTH s ->
           exists todo m' w',
             TodoManager.addTodo (JStr s) groupId (m, w)
             = (unless_rejected w todo "Failed to add todo item", (m', w'))
             /\ TodoManager.todos m' = TodoManager.todos m ++ [todo]
             /\ TodoManager.groups m' = TodoManager.groups m
             /\ TodoItem.groupId todo = groupId
             /\ TodoItem.text todo = trim s
             /\ TodoItem.completed todo = false
             /\ TodoItem.description todo = JStr []).
Proof.
  intros s groupId m w. split; [apply addTodo_unknown_group|].
  intros g -> Hg Hknown Hs.
  destruct (addTodo_run s g m w Hs Hg Hknown) as [w' [Hrun _]].
  exists (new_todo w s g). eexists. exists w'.
  split; [exact Hrun|]. repeat split.
Qed.

Lemma addTodo_requires_an_existing_group_witness :
  ((forall group, In group (TodoManager.groups work_manager) ->
                  strict_equals (TodoGroup.id group) (JStr (lit "g2")) = false)
   /\ TodoManager.addTodo (JStr (lit "Buy milk")) (JStr (lit "g2"))
        (work_manager, fresh_world ticking_host Absent Absent)
      = (Throw (TodoValidationError "Group not found"),
         (work_manager, fresh_world ticking_host Absent Absent)))
  /\ (accepted MAX_TODO_LENGTH (lit "Buy milk")
      /\ exists todo m' w',
           TodoManager.addTodo (JStr (lit "Buy milk")) (JStr (lit "g1"))
             (work_manager, fresh_world ticking_host Absent Absent)
           = (unless_rejected (fresh_world ticking_host Absent Absent) todo
                "Failed to add todo item", (m', w'))
           /\ TodoManager.todos m' = TodoManager.todos work_manager ++ [todo]
           /\ TodoManager.groups m' = TodoManager.groups work_manager
           /\ TodoItem.groupId todo = JStr (lit "g1")
           /\ TodoItem.text todo = trim (lit "Buy milk")
           /\ TodoItem.completed todo = false
           /\ TodoItem.description todo = JStr []).
Proof.
  assert (H : forall group, In group (TodoManager.groups work_manager) ->
                strict_equals (TodoGroup.id group) (JStr (lit "g2")) = false).
  { intros group [<-|[]]. reflexivity. }
  assert (Hs : accepted MAX_TODO_LENGTH (lit "Buy milk"))
    by (vm_compute; split; lia).
  split; [split; [exact H|]|split; [exact Hs|]].
  - apply (proj1 (addTodo_requires_an_existing_group
                    (lit "Buy milk") (JStr (lit "g2")) work_manager
                    (fresh_world ticking_host Absent Absent)) H).
  - apply (proj2 (addTodo_requires_an_existing_group
                    (lit "Buy milk") (JStr (lit "g1")) work_manager
                    (fresh_world ticking_host Absent Absent))
             (lit "g1") eq_refl).
    + discriminate.
    + exists work_group. split; [now left|reflexivity].
    + exact Hs.
Defined.

(** *** [addGroup] leaves the array in ascending position order

    The comparator orders the numbers other than NaN, and no group
    position is NaN ([Number(position) || 0]). *)

Lemma fin_not_positive p q :
  num_positive (Fin (p - q)) = false <-> (p <= q)%Q.
Proof.
  unfold num_positive, Qcompare, Qle, Qminus, Qplus, Qopp. simpl.
  destruct (Z.compare_spec
              ((Qnum p * Z.pos (Qden q) + - Qnum q * Z.pos (Qden p)) * 1)
              0) as [H|H|H];
    split; intros H'; try reflexivity; try discriminate; lia.
Qed.

Lemma fin_not_positive_0 p :
  num_positive (Fin p) = false <-> (p <= 0)%Q.
Proof.
  unfold num_positive, Qcompare, Qle. simpl.
  destruct (Z.compare_spec (Qnum p * 1) 0) as [H|H|H];
    split; intros H'; try reflexivity; try discriminate; lia.
Qed.

Lemma not_positive_sub a b :
  num_positive (num_sub a b) = false <-> num_le a b.
Proof.
  destruct a as [| | | |p], b as [| | | |q];
    try (simpl; split; [intros _; exact I|reflexivity]);
    try (simpl; split; [discriminate|intros []]).
  - apply (fin_not_positive 0 q).
  - apply fin_not_positive_0.
  - apply fin_not_positive.
Qed.

Lemma num_le_total a b : num_le a b \/ num_le b a.
Proof.
  destruct a as [| | | |p], b as [| | | |q]; simpl; auto;
    try apply Qle_refl.
  - destruct (Qlt_le_dec 0 q); [left; now apply Qlt_le_weak|now right].
  - destruct (Qlt_le_dec 0 p); [right; now apply Qlt_le_weak|now left].
  - destruct (Qlt_le_dec p q); [left; now apply Qlt_le_weak|now right].
Qed.

Lemma num_le_trans a b c :
  b <> NaN -> num_le a b -> num_le b c -> num_le a c.
Proof.
  intros Hb.
  destruct a as [| | | |p], b as [| | | |q], c as [| | | |r]; simpl;
    try tauto; try congruence; intros H1 H2;
    try apply Qle_refl; eauto using Qle_trans.
Qed.

Lemma not_after_le a b :
  not_after a b <-> num_le (TodoGroup.position a) (TodoGroup.position b).
Proof. apply not_positive_sub. Qed.

Lemma sort_insert_In x xs y :
  In y (sort_insert TodoManager.by_position x xs) -> y = x \/ In y xs.
Proof.
  induction xs as [|z r IH]; simpl.
  - intros [<-|[]]; now left.
  - destruct (num_positive (TodoManager.by_position x z)); simpl.
    + intros [<-|H]; [right; now left|].
      destruct (IH H); [now left|right; now right].
    + intros [<-|[<-|H]]; [now left|right; now left|right; now right].
Qed.

Lemma sort_insert_ascending x xs :
  regular x -> Forall regular xs -> ascending xs ->
  ascending (sort_insert TodoManager.by_position x xs).
Proof.
  unfold ascending. intros Hx Hreg Hs.
  induction Hs as [|y r Hr IH Hy]; simpl.
  - repeat constructor.
  - inversion Hreg as [|? ? Hy' Hreg']; subst.
    destruct (num_positive (TodoManager.by_position x y)) eqn:E.
    + constructor; [now apply IH|].
      apply Forall_forall. intros z Hz.
      destruct (sort_insert_In x r z Hz) as [->|Hin].
      * apply not_after_le.
        destruct (num_le_total (TodoGroup.position y) (TodoGroup.position x))
          as [H|H]; [exact H|].
        apply not_after_le in H. unfold not_after in H. congruence.
      * rewrite Forall_forall in Hy. now apply Hy.
    + constructor; [now constructor|].
      constructor; [exact E|].
      apply Forall_forall. intros z Hz. rewrite Forall_forall in Hy.
      apply not_after_le.
      apply (num_le_trans _ (TodoGroup.position y)); [exact Hy'| |].
      * now apply not_after_le.
      * apply not_after_le. now apply Hy.
Qed.

Lemma sort_insert_regular x xs :
  regular x -> Forall regular xs ->
  Forall regular (sort_insert TodoManager.by_position x xs).
Proof.
  intros Hx Hxs. apply Forall_forall. intros y Hy.
  destruct (sort_insert_In x xs y Hy) as [->|H]; [exact Hx|].
  rewrite Forall_forall in Hxs. now apply Hxs.
Qed.

Lemma Array_sort_is_ascending gs :
  Forall regular gs ->
  ascending (Array_sort TodoManager.by_position gs)
  /\ Forall regular (Array_sort TodoManager.by_position gs).
Proof.
  unfold Array_sort. induction 1 as [|x r Hx Hr [IH1 IH2]]; simpl.
  - split; constructor.
  - split; [now apply sort_insert_ascending|now apply sort_insert_regular].
Qed.

Lemma or_zero_regular n : or_zero n <> NaN.
Proof. unfold or_zero. destruct n; simpl; try discriminate.
  destruct (Qeq_bool q 0); discriminate. Qed.

(** Whatever the groups array was, it is in ascending position order
    after a successful [addGroup], provided no position in it is NaN. *)
Lemma addGroup_leaves_ascending s position m w n :
  accepted MAX_GROUP_NAME_LENGTH s ->
  ToNumber (host w) (default_arg (JNum num_zero) (newPosition_of position m))
  = Some n ->
  Forall regular (TodoManager.groups m) ->
  exists r m' w',
    TodoManager.addGroup (JStr s) position (m, w) = (r, (m', w'))
    /\ ascending (TodoManager.groups m')
    /\ Forall regular (TodoManager.groups m').
Proof.
  intros Hs Hn Hreg.
  destruct (addGroup_run s position m w n Hs Hn) as [w' [Hrun _]].
  eexists. eexists. exists w'. split; [exact Hrun|].
  simpl. apply Array_sort_is_ascending.
  apply Forall_app. split; [exact Hreg|].
  constructor; [|constructor]. unfold regular, new_group. simpl.
  apply or_zero_regular.
Qed.

(** ** initialize *)

Lemma array_or_empty_nothing S stored (st : S) :
  holds_no_records stored -> array_or_empty stored st = (Return [], st).
Proof.
  destruct stored as [|items|v]; simpl; intros H.
  - reflexivity.
  - now rewrite H.
  - now rewrite H.
Qed.

(** Loading a key that holds no record empties the collection. *)
Lemma loadGroups_nothing m w :
  get_fulfilled (host w) (gets w) = true ->
  holds_no_records (stored_groups w) ->
  exists w',
    TodoManager.loadGroups (m, w) = (Return tt, (with_groups [] m, w'))
    /\ host w' = host w /\ gets w' = S (gets w) /\ sets w' = sets w
    /\ stored_todos w' = stored_todos w.
Proof.
  intros Hget Hnone. eexists. split.
  - unfold TodoManager.loadGroups. apply try_catch_return.
    unfold bind at 1. unfold TodoManager.host_call at 1, storage_get.
    cbn [fst snd]. rewrite Hget.
    rewrite (bind_return _ _ _ _ _ (array_or_empty_nothing _ _ _ Hnone)).
    reflexivity.
  - repeat split.
Qed.

Lemma loadTodos_nothing m w :
  get_fulfilled (host w) (gets w) = true ->
  holds_no_records (stored_todos w) ->
  exists w',
    TodoManager.loadTodos (m, w) = (Return tt, (with_todos [] m, w'))
    /\ host w' = host w /\ gets w' = S (gets w) /\ sets w' = sets w.
Proof.
  intros Hget Hnone. eexists. split.
  - unfold TodoManager.loadTodos. apply try_catch_return.
    unfold bind at 1. unfold TodoManager.host_call at 1, storage_get.
    cbn [fst snd]. rewrite Hget.
    rewrite (bind_return _ _ _ _ _ (array_or_empty_nothing _ _ _ Hnone)).
    reflexivity.
  - repeat split.
Qed.

(** C8: when both storage keys can be read and hold no record,
    [initialize] leaves the manager with no todo and exactly one group,
    named "To Do", at position 0.  It completes, with [isInitialized]
    set, when the write of that group is fulfilled; when the write is
    rejected the group is in the manager all the same and the call ends
    in its [StorageError]. *)
Theorem initialize_creates_the_default_group :
  forall m w,
    holds_no_records (stored_groups w) ->
    holds_no_records (stored_todos w) ->
    get_fulfilled (host w) (gets w) = true ->
    get_fulfilled (host w) (S (gets w)) = true ->
    exists g m' w',
      TodoManager.initialize (m, w)
      = (unless_rejected w tt "Failed to initialize todo manager", (m', w'))
      /\ TodoManager.groups m' = [g]
      /\ TodoGroup.name g = lit "To Do"
      /\ TodoGroup.position g = num_zero
      /\ TodoManager.todos m' = []
      /\ (set_fulfilled (host w) (sets w) = true ->
          TodoManager.isInitialized m' = true).
Proof.
  intros m w Hg Ht Hget1 Hget2.
  destruct (loadGroups_nothing m w Hget1 Hg)
    as [w1 [Hload1 [Hh1 [Hgets1 [Hsets1 Hst1]]]]].
  assert (Hget2' : get_fulfilled (host w1) (gets w1) = true)
    by now rewrite Hh1, Hgets1.
  assert (Ht' : holds_no_records (stored_todos w1)) by now rewrite Hst1.
  destruct (loadTodos_nothing (with_groups [] m) w1 Hget2' Ht')
    as [w2 [Hload2 [Hh2 [_ Hsets2]]]].
  set (m2 := with_todos [] (with_groups [] m)) in *.
  assert (Hname : accepted MAX_GROUP_NAME_LENGTH (lit "To Do"))
    by (vm_compute; split; lia).
  destruct (addGroup_run (lit "To Do") JUndefined m2 w2 (num_of_nat 0)
              Hname eq_refl) as [w3 [Hadd _]].
  set (g := new_group w2 (lit "To Do") (num_of_nat 0)) in *.
  unfold TodoManager.initialize, try_catch.
  rewrite (bind_return _ _ _ _ _ Hload1).
  rewrite (bind_return _ _ _ _ _ Hload2).
  unfold bind at 1. unfold TodoManager.this_groups at 1.
  cbn [fst snd TodoManager.groups m2 with_todos with_groups Nat.eqb
       List.length].
  unfold bind at 1. unfold bind at 1.
  unfold TodoManager.createDefaultGroup, try_catch.
  unfold bind at 1.
  fold m2. rewrite Hadd.
  exists g.
  unfold unless_rejected in *.
  rewrite Hh2, Hh1, Hsets2, Hsets1.
  destruct (set_fulfilled (host w) (sets w)); eexists; eexists;
    (split; [reflexivity|]); repeat split; discriminate.
Qed.

(** ** Serialization round trip *)

Lemma or_zero_idem n : or_zero (or_zero n) = or_zero n.
Proof. unfold or_zero. destruct (num_truthy n) eqn:E; [now rewrite E|reflexivity]. Qed.

Lemma accepted_trim cap s : accepted cap s -> accepted cap (trim s).
Proof. unfold accepted. now rewrite trim_idem. Qed.

Lemma refused_or_accepted cap v :
  refused cap v \/ exists s, v = JStr s /\ accepted cap s.
Proof.
  destruct v as [| |b|n|s|k|r n p]; try (left; exact I).
  simpl. unfold accepted.
  destruct (Nat.eq_dec (List.length (trim s)) 0) as [E|E]; [now left; left|].
  destruct (Nat.lt_ge_cases cap (List.length (trim s))) as [L|L];
    [now left; right|].
  right. exists s. split; [reflexivity|lia].
Qed.

(** What every group that [new TodoGroup] returns satisfies. *)
Lemma TodoGroup_constructor_inv name position id w g w' :
  TodoGroup.constructor name position id w = (Return g, w') ->
  ToBoolean (TodoGroup.id g) = true
  /\ accepted MAX_GROUP_NAME_LENGTH (TodoGroup.name g)
  /\ trim (TodoGroup.name g) = TodoGroup.name g
  /\ or_zero (TodoGroup.position g) = TodoGroup.position g.
Proof.
  intros H.
  destruct (refused_or_accepted MAX_GROUP_NAME_LENGTH name)
    as [Hr|[s [-> Hs]]].
  - destruct (TodoGroup_constructor_refuses name position id w Hr)
      as [msg Hmsg]. congruence.
  - destruct (ToNumber (host w)
                (default_arg (JNum num_zero) position)) as [n|] eqn:Hn.
    + rewrite (TodoGroup_constructor_run s position id w n Hs Hn) in H.
      destruct (ToBoolean id) eqn:E; injection H as <- _; simpl;
        (split; [try exact E; reflexivity|]);
        (split; [now apply accepted_trim|]);
        (split; [apply trim_idem|apply or_zero_idem]).
    + destruct (TodoGroup_constructor_position_throws s position id w Hs Hn)
        as [w'' Hthrow]. congruence.
Qed.

Lemma TodoGroup_roundtrip g w :
  ToBoolean (TodoGroup.id g) = true ->
  accepted MAX_GROUP_NAME_LENGTH (TodoGroup.name g) ->
  trim (TodoGroup.name g) = TodoGroup.name g ->
  or_zero (TodoGroup.position g) = TodoGroup.position g ->
  bind (TodoGroup.toJSON g) TodoGroup.fromJSON w
  = (Return
       (TodoGroup.mk (TodoGroup.id g) (TodoGroup.name g)
          (TodoGroup.position g)
          (iso (clock (host w) (clock_reads w)))
          (iso (clock (host w) (1 + clock_reads w)))),
     advance 2 0 1 w).
Proof.
  intros Hid Hname Htrim Hpos.
  unfold bind, TodoGroup.toJSON, new_object, TodoGroup.fromJSON.
  cbn [ToBoolean typeof type_eqb negb orb].
  change (Get (JObject _ _ _) "name") with (JStr (TodoGroup.name g)).
  change (Get (JObject _ _ _) "position") with (JNum (TodoGroup.position g)).
  change (Get (JObject _ _ _) "id") with (TodoGroup.id g).
  match goal with
  | |- TodoGroup.constructor _ _ _ ?x = _ => change x with (advance 0 0 1 w)
  end.
  rewrite (TodoGroup_constructor_run (TodoGroup.name g)
             (JNum (TodoGroup.position g)) (TodoGroup.id g)
             (advance 0 0 1 w) (TodoGroup.position g) Hname eq_refl).
  rewrite Hid, Htrim, Hpos, advance_advance. reflexivity.
Qed.

Lemma validateGroupId_cases S v (st : S) :
  (exists message,
      TodoItem.validateGroupId v st
      = (Throw (TodoValidationError message), st))
  \/ exists g, v = JStr g /\ g <> [].
Proof.
  unfold TodoItem.validateGroupId.
  destruct v as [| |b|n|g|k|r n p]; simpl;
    try (left; eexists; reflexivity).
  - destruct b; left; eexists; reflexivity.
  - destruct (num_truthy n); left; eexists; reflexivity.
  - destruct g; [left; eexists; reflexivity|].
    right. eexists. split; [reflexivity|discriminate].
Qed.

(** What every todo that [new TodoItem] returns satisfies. *)
Lemma TodoItem_constructor_inv text groupId completed description id w t w' :
  TodoItem.constructor text groupId completed description id w
  = (Return t, w') ->
  accepted MAX_TODO_LENGTH (TodoItem.text t)
  /\ trim (TodoItem.text t) = TodoItem.text t
  /\ (exists g, TodoItem.groupId t = JStr g /\ g <> [])
  /\ js_or (default_arg (JStr []) (js_or (TodoItem.description t) (JStr [])))
           (JStr [])
     = TodoItem.description t.
Proof.
  intros H.
  assert (Hd : forall v,
             let d := js_or (default_arg (JStr []) v) (JStr []) in
             js_or (default_arg (JStr []) (js_or d (JStr []))) (JStr []) = d).
  { intros v d. unfold d, js_or.
    destruct (ToBoolean (default_arg (JStr []) v)) eqn:E.
    - rewrite E. destruct (default_arg (JStr []) v) eqn:Ev;
        try discriminate; simpl in *; now rewrite ?E.
    - reflexivity. }
  destruct (refused_or_accepted MAX_TODO_LENGTH text) as [Hr|[s [-> Hs]]].
  - destruct (TodoItem_constructor_refuses text groupId completed description
                id w Hr) as [msg Hmsg]. congruence.
  - assert (Hg : exists g, groupId = JStr g /\ g <> []).
    { destruct (validateGroupId_cases World groupId w) as [[msg Hmsg]|Hg];
        [|exact Hg].
      unfold TodoItem.constructor in H.
      rewrite (bind_return _ _ _ _ _ (validateText_accepts World s w Hs)) in H.
      rewrite (bind_throw _ _ _ _ _ Hmsg) in H. discriminate H. }
    destruct Hg as [g [-> Hg]].
    rewrite (TodoItem_constructor_run s g completed description id w Hs Hg)
      in H.
    destruct (ToBoolean id); injection H as <- _; simpl;
      (split; [now apply accepted_trim|]);
      (split; [apply trim_idem|]);
      (split; [now exists g|apply Hd]).
Qed.

Lemma TodoItem_roundtrip t w g :
  ToBoolean (TodoItem.id t) = true ->
  accepted MAX_TODO_LENGTH (TodoItem.text t) ->
  trim (TodoItem.text t) = TodoItem.text t ->
  TodoItem.groupId t = JStr g -> g <> [] ->
  js_or (default_arg (JStr []) (js_or (TodoItem.description t) (JStr [])))
        (JStr [])
  = TodoItem.description t ->
  bind (TodoItem.toJSON t) TodoItem.fromJSON w
  = (Return
       (TodoItem.mk (TodoItem.id t) (TodoItem.text t) (TodoItem.groupId t)
          (TodoItem.completed t) (TodoItem.description t)
          (iso (clock (host w) (clock_reads w)))
          (iso (clock (host w) (1 + clock_reads w)))),
     advance 2 0 1 w).
Proof.
  intros Hid Htext Htrim Hgroup Hg Hdesc.
  unfold bind, TodoItem.toJSON, new_object, TodoItem.fromJSON.
  cbn [ToBoolean typeof type_eqb negb orb].
  change (Get (JObject _ _ _) "text") with (JStr (TodoItem.text t)).
  change (Get (JObject _ _ _) "groupId") with (TodoItem.groupId t).
  change (Get (JObject _ _ _) "completed") with (JBool (TodoItem.completed t)).
  change (Get (JObject _ _ _) "description") with (TodoItem.description t).
  change (Get (JObject _ _ _) "id") with (TodoItem.id t).
  match goal with
  | |- TodoItem.constructor _ _ _ _ _ ?x = _ =>
      change x with (advance 0 0 1 w)
  end.
  rewrite Hgroup.
  rewrite (TodoItem_constructor_run (TodoItem.text t) g _ _ _
             (advance 0 0 1 w) Htext Hg).
  rewrite Hid, Htrim, Hdesc, advance_advance. reflexivity.
Qed.

(** C1 (the code departs from it).  Serializing an entity that a
    constructor built and deserializing the record succeeds and keeps
    [id], [name]/[text], [position]/[groupId], [completed] and
    [description]; but [fromJSON] passes neither [createdAt] nor
    [updatedAt] to the constructor, which stamps both anew: the entity
    that comes back carries the two clock readings taken while it was
    deserialized, not the original's.  (A todo keeps its id when the id
    is truthy, as a given or generated id is; groups always do.) *)
Theorem serialize_deserialize_keeps_fields_but_stamps_anew :
  (forall name position id w0 g w1,
      TodoGroup.constructor name position id w0 = (Return g, w1) ->
      forall w,
      exists g' w',
        bind (TodoGroup.toJSON g) TodoGroup.fromJSON w = (Return g', w')
        /\ TodoGroup.id g' = TodoGroup.id g
        /\ TodoGroup.name g' = TodoGroup.name g
        /\ TodoGroup.position g' = TodoGroup.position g
        /\ TodoGroup.createdAt g' = iso (clock (host w) (clock_reads w))
        /\ TodoGroup.updatedAt g' = iso (clock (host w) (1 + clock_reads w)))
  /\ (forall text groupId completed description id w0 t w1,
      TodoItem.constructor text groupId completed description id w0
      = (Return t, w1) ->
      ToBoolean (TodoItem.id t) = true ->
      forall w,
      exists t' w',
        bind (TodoItem.toJSON t) TodoItem.fromJSON w = (Return t', w')
        /\ TodoItem.id t' = TodoItem.id t
        /\ TodoItem.text t' = TodoItem.text t
        /\ TodoItem.groupId t' = TodoItem.groupId t
        /\ TodoItem.completed t' = TodoItem.completed t
        /\ TodoItem.description t' = TodoItem.description t
        /\ TodoItem.createdAt t' = iso (clock (host w) (clock_reads w))
        /\ TodoItem.updatedAt t' = iso (clock (host w) (1 + clock_reads w))).
Proof.
  split.
  - intros name position id w0 g w1 H w.
    destruct (TodoGroup_constructor_inv _ _ _ _ _ _ H) as [H1 [H2 [H3 H4]]].
    eexists. eexists. split; [now apply TodoGroup_roundtrip|].
    repeat split.
  - intros text groupId completed description id w0 t w1 H Hid w.
    destruct (TodoItem_constructor_inv _ _ _ _ _ _ _ _ H)
      as [H1 [H2 [[g [H3 Hg]] H4]]].
    eexists. eexists. split; [now apply (TodoItem_roundtrip t w g)|].
    repeat split.
Qed.

(** ** The statements at concrete inputs *)

(** C1 at concrete inputs: a group and a todo built at the first
    readings of the ticking clock and sent through [toJSON] and
    [fromJSON] right after come back with a later [createdAt]. *)
Lemma serialize_deserialize_stamps_anew_witness :
  (exists g w1 g' w',
      TodoGroup.constructor (JStr (lit "Work")) JUndefined JUndefined
        (fresh_world ticking_host Absent Absent) = (Return g, w1)
      /\ bind (TodoGroup.toJSON g) TodoGroup.fromJSON w1 = (Return g', w')
      /\ TodoGroup.id g' = TodoGroup.id g
      /\ TodoGroup.name g' = TodoGroup.name g
      /\ TodoGroup.position g' = TodoGroup.position g
      /\ TodoGroup.createdAt g = lit "2024-05-01T09:00:00.001Z"
      /\ TodoGroup.createdAt g' = lit "2024-05-01T09:00:00.003Z"
      /\ TodoGroup.createdAt g' <> TodoGroup.createdAt g)
  /\ (exists t w1 t' w',
      TodoItem.constructor (JStr (lit "Buy milk")) (JStr (lit "g1"))
        JUndefined JUndefined JUndefined
        (fresh_world ticking_host Absent Absent) = (Return t, w1)
      /\ ToBoolean (TodoItem.id t) = true
      /\ bind (TodoItem.toJSON t) TodoItem.fromJSON w1 = (Return t', w')
      /\ TodoItem.id t' = TodoItem.id t
      /\ TodoItem.text t' = TodoItem.text t
      /\ TodoItem.groupId t' = TodoItem.groupId t
      /\ TodoItem.updatedAt t = lit "2024-05-01T09:00:00.002Z"
      /\ TodoItem.updatedAt t' = lit "2024-05-01T09:00:00.004Z"
      /\ TodoItem.updatedAt t' <> TodoItem.updatedAt t).
Proof.
  split.
  - eexists. eexists.
    assert (H : TodoGroup.constructor (JStr (lit "Work")) JUndefined
                  JUndefined (fresh_world ticking_host Absent Absent)
                = (Return (new_group (fresh_world ticking_host Absent Absent)
                             (lit "Work") num_zero),
                   advance 3 1 0 (fresh_world ticking_host Absent Absent)))
      by reflexivity.
    destruct (proj1 serialize_deserialize_keeps_fields_but_stamps_anew
                _ _ _ _ _ _ H
                (advance 3 1 0 (fresh_world ticking_host Absent Absent)))
      as [g' [w' [Hrun [Hid [Hname [Hpos [Hcreated _]]]]]]].
    exists g', w'.
    split; [exact H|]. split; [exact Hrun|].
    split; [exact Hid|]. split; [exact Hname|]. split; [exact Hpos|].
    split; [reflexivity|]. split; [exact Hcreated|].
    rewrite Hcreated. vm_compute. discriminate.
  - eexists. eexists.
    assert (H : TodoItem.constructor (JStr (lit "Buy milk")) (JStr (lit "g1"))
                  JUndefined JUndefined JUndefined
                  (fresh_world ticking_host Absent Absent)
                = (Return (new_todo (fresh_world ticking_host Absent Absent)
                             (lit "Buy milk") (lit "g1")),
                   advance 3 1 0 (fresh_world ticking_host Absent Absent)))
      by reflexivity.
    destruct (proj2 serialize_deserialize_keeps_fields_but_stamps_anew
                _ _ _ _ _ _ _ _ H eq_refl
                (advance 3 1 0 (fresh_world ticking_host Absent Absent)))
      as [t' [w' [Hrun [Hid [Htext [Hgroup [_ [_ [_ Hupdated]]]]]]]]].
    exists t', w'.
    split; [exact H|]. split; [reflexivity|]. split; [exact Hrun|].
    split; [exact Hid|]. split; [exact Htext|]. split; [exact Hgroup|].
    split; [reflexivity|]. split; [exact Hupdated|].
    rewrite Hupdated. vm_compute. discriminate.
Defined.

(** C2 at a concrete input: two groups in ascending position order and
    a todo of the first; the first group is removed, then an id no group
    has is tried. *)
Lemma removeGroup_cascades_and_renumbers_witness :
  (exists g, In g (TodoManager.groups two_group_manager)
             /\ strict_equals (TodoGroup.id g) (JStr (lit "g1")) = true)
  /\ ascending (TodoManager.groups two_group_manager)
  /\ (exists m' w',
        TodoManager.removeGroup (JStr (lit "g1"))
          (two_group_manager, fresh_world ticking_host Absent Absent)
        = (Return true, (m', w'))
        /\ TodoManager.todos m' = []
        /\ List.map TodoGroup.position (TodoManager.groups m')
           = [num_of_nat 0]
        /\ List.map TodoGroup.id (TodoManager.groups m')
           = [JStr (lit "g2")]
        /\ TodoManager.getGroups m' = TodoManager.groups m')
  /\ (forall g, In g (TodoManager.groups two_group_manager) ->
                strict_equals (TodoGroup.id g) (JStr (lit "g9")) = false)
  /\ TodoManager.removeGroup (JStr (lit "g9"))
       (two_group_manager, fresh_world ticking_host Absent Absent)
     = (Return false,
        (two_group_manager, fresh_world ticking_host Absent Absent)).
Proof.
  assert (Hknown : exists g, In g (TodoManager.groups two_group_manager)
             /\ strict_equals (TodoGroup.id g) (JStr (lit "g1")) = true).
  { exists work_group. split; [now left|reflexivity]. }
  assert (Hasc : ascending (TodoManager.groups two_group_manager)).
  { repeat constructor. }
  assert (Hunknown : forall g, In g (TodoManager.groups two_group_manager) ->
             strict_equals (TodoGroup.id g) (JStr (lit "g9")) = false).
  { intros g [<-|[<-|[]]]; reflexivity. }
  split; [exact Hknown|]. split; [exact Hasc|].
  split; [|split; [exact Hunknown|]].
  - destruct (proj1 (removeGroup_cascades_and_renumbers_in_position_order
                       (JStr (lit "g1")) two_group_manager
                       (fresh_world ticking_host Absent Absent)) Hasc Hknown)
      as [before [g [after [m' [w' [Hgs [_ [Hfirst [Hrun [Htodos
           [Hids [_ [Hpos Hshown]]]]]]]]]]]]].
    assert (Hsplit : before = [] /\ after = [home_group]).
    { destruct before as [|b r]; simpl in Hgs.
      - injection Hgs as _ <-. now split.
      - injection Hgs as <- _.
        specialize (Hfirst work_group (or_introl eq_refl)). discriminate. }
    destruct Hsplit as [-> ->].
    exists m', w'. split; [exact Hrun|]. split; [exact Htodos|].
    split; [exact Hpos|]. split; [exact Hids|exact Hshown].
  - apply (proj2 (removeGroup_cascades_and_renumbers_in_position_order
                    (JStr (lit "g9")) two_group_manager
                    (fresh_world ticking_host Absent Absent)) Hunknown).
Defined.

(** C2 as stated fails.  [initialize] loads three groups stored as Home
    (position 1), Work (position 0), Later (position 2).  Removing Later
    leaves Work before Home in ascending position order, yet the
    renumbering follows the array: Home gets position 0 and Work
    position 1, and the order by position is turned around. *)
Lemma removeGroup_renumbers_against_position_order :
  let before := fst loaded_shuffled in
  let remaining :=
    filter (fun g => negb (strict_equals (TodoGroup.id g) (JStr (lit "c"))))
           (TodoManager.groups before) in
  let after :=
    fst (snd (TodoManager.removeGroup (JStr (lit "c")) loaded_shuffled)) in
  fst (TodoManager.removeGroup (JStr (lit "c")) loaded_shuffled) = Return true
  /\ List.map TodoGroup.name (Array_sort TodoManager.by_position remaining)
     = [lit "Work"; lit "Home"]
  /\ List.map (fun g => (TodoGroup.name g, TodoGroup.position g))
              (TodoManager.groups after)
     = [(lit "Home", num_of_nat 0); (lit "Work", num_of_nat 1)]
  /\ List.map TodoGroup.name (TodoManager.getGroups after)
     <> List.map TodoGroup.name
          (Array_sort TodoManager.by_position remaining).
Proof.
  vm_compute. repeat split. discriminate.
Qed.

(** C3 at a concrete input. *)
Lemma moveTodo_same_group_is_noop_witness :
  TodoManager.moveTodo (JStr (lit "t1")) (JStr (lit "g1"))
    (milk_manager, fresh_world ticking_host Absent Absent)
  = (Return true, (milk_manager, fresh_world ticking_host Absent Absent)).
Proof.
  apply (moveTodo_same_group_is_noop (JStr (lit "t1")) (JStr (lit "g1"))
           milk_manager (fresh_world ticking_host Absent Absent) milk_todo).
  - exists work_group. split; [now left|reflexivity].
  - reflexivity.
  - reflexivity.
Defined.

(** C4 at the failing input: [addTodo(42, "g1")]. *)
Lemma addTodo_non_string_text_witness :
  typeof (JNum (num_of_nat 42)) <> TypeString
  /\ TodoManager.addTodo (JNum (num_of_nat 42)) (JStr (lit "g1"))
       (work_manager, fresh_world ticking_host Absent Absent)
     = (Throw (StorageError "Failed to add todo item"),
        (work_manager, fresh_world ticking_host Absent Absent)).
Proof.
  assert (H : typeof (JNum (num_of_nat 42)) <> TypeString) by discriminate.
  split; [exact H|].
  apply (addTodo_non_string_text_throws_StorageError
           (JNum (num_of_nat 42)) (JStr (lit "g1")) work_manager
           (fresh_world ticking_host Absent Absent) H).
Defined.

(** C5 as stated fails off string arguments.  With a text that is not a
    string and a [groupId] no group has, [addTodo] ends in its
    [StorageError], not in a validation error: the log line reads
    [text.substring] first.  And a group loaded from a record whose id
    is the number 7 exists, yet [addTodo] with a valid text and that id
    appends nothing and ends in a validation error: [validateGroupId]
    admits non-empty strings only. *)
Lemma addTodo_off_string_arguments :
  (forall group, In group (TodoManager.groups work_manager) ->
                 strict_equals (TodoGroup.id group) (JStr (lit "nope"))
                 = false)
  /\ TodoManager.addTodo (JNum (num_of_nat 42)) (JStr (lit "nope"))
       (work_manager, fresh_world ticking_host Absent Absent)
     = (Throw (StorageError "Failed to add todo item"),
        (work_manager, fresh_world ticking_host Absent Absent))
  /\ isValidationError (StorageError "Failed to add todo item") = false
  /\ (exists group,
         In group (TodoManager.groups (fst loaded_numbered))
         /\ strict_equals (TodoGroup.id group) (JNum (num_of_nat 7)) = true)
  /\ accepted MAX_TODO_LENGTH (lit "Buy milk")
  /\ TodoManager.addTodo (JStr (lit "Buy milk")) (JNum (num_of_nat 7))
       loaded_numbered
     = (Throw (TodoValidationError "Group ID must be a non-empty string"),
        loaded_numbered)
  /\ TodoManager.todos (fst loaded_numbered) = [].
Proof.
  split; [intros group [<-|[]]; reflexivity|].
  split; [reflexivity|]. split; [reflexivity|].
  split.
  { exists (TodoGroup.mk (JNum (num_of_nat 7)) (lit "Seven") (num_of_nat 0)
              (lit "2024-05-01T09:00:00.000Z")
              (lit "2024-05-01T09:00:00.001Z")).
    split; [vm_compute; now left|reflexivity]. }
  split; [vm_compute; split; lia|].
  split; vm_compute; reflexivity.
Qed.

(** C7 at a concrete input. *)
Lemma toggleTodo_twice_witness :
  exists m1 w1 m2 w2,
    TodoManager.toggleTodo (JStr (lit "t1"))
      (milk_manager, fresh_world ticking_host Absent Absent)
    = (Return true, (m1, w1))
    /\ TodoManager.toggleTodo (JStr (lit "t1")) (m1, w1)
       = (unless_rejected w1 true "Failed to toggle todo completion",
          (m2, w2))
    /\ List.map TodoItem.completed (TodoManager.todos m1) = [true]
    /\ List.map TodoItem.completed (TodoManager.todos m2) = [false]
    /\ List.map TodoItem.updatedAt (TodoManager.todos m2)
       = [lit "2024-05-01T09:00:00.001Z"].
Proof.
  destruct (toggleTodo_twice_restores_completed (JStr (lit "t1")) milk_manager
              (fresh_world ticking_host Absent Absent) milk_todo eq_refl)
    as [m1 [w1 [m2 [w2 [H1 [H2 [Ht1 [Ht2 _]]]]]]]].
  exists m1, w1, m2, w2.
  split; [exact H1|]. split; [exact H2|].
  rewrite Ht1, Ht2. repeat split.
Defined.

(** C7 as stated fails: under a clock that is read twice within one
    millisecond, a todo added and toggled at once has an [updatedAt]
    equal to its [createdAt]. *)
Lemma toggleTodo_can_leave_updatedAt_at_createdAt :
  let after_toggle :=
    snd (TodoManager.toggleTodo frozen_todo_id frozen_after_add) in
  fst (TodoManager.toggleTodo frozen_todo_id frozen_after_add) = Return true
  /\ exists todo,
       TodoManager.todos (fst after_toggle) = [todo]
       /\ TodoItem.id todo = frozen_todo_id
       /\ TodoItem.completed todo = true
       /\ TodoItem.updatedAt todo = TodoItem.createdAt todo.
Proof.
  split; [vm_compute; reflexivity|].
  eexists. split; [vm_compute; reflexivity|].
  repeat split.
Qed.

(** C8 at a concrete input: the first run, with nothing stored. *)
Lemma initialize_creates_the_default_group_witness :
  exists g m' w',
    TodoManager.initialize
      (TodoManager.constructor, fresh_world ticking_host Absent Absent)
    = (Return tt, (m', w'))
    /\ TodoManager.groups m' = [g]
    /\ TodoGroup.name g = lit "To Do"
    /\ TodoGroup.position g = num_zero
    /\ TodoManager.todos m' = []
    /\ TodoManager.isInitialized m' = true.
Proof.
  destruct (initialize_creates_the_default_group TodoManager.constructor
              (fresh_world ticking_host Absent Absent) I I eq_refl eq_refl)
    as [g [m' [w' [Hrun [Hg [Hname [Hpos [Htodos Hinit]]]]]]]].
  exists g, m', w'.
  split; [exact Hrun|]. split; [exact Hg|]. split; [exact Hname|].
  split; [exact Hpos|]. split; [exact Htodos|]. now apply Hinit.
Defined.

(** ** The scenarios of the specification, run on the ticking host *)

Example scenario_buy_milk :
  let s0 := (TodoManager.constructor, fresh_world ticking_host Absent Absent) in
  let s1 := snd (TodoManager.addGroup (JStr (lit "Work")) JUndefined s0) in
  let s2 := snd (TodoManager.addGroup (JStr (lit "Home")) JUndefined s1) in
  let work := JStr (lit "group_lvo1x000k3f9q000") in
  let home := JStr (lit "group_lvo1x003k3f9q001") in
  let s3 := snd (TodoManager.addTodo (JStr (lit "Buy milk")) home s2) in
  List.map (fun g => (TodoGroup.id g, TodoGroup.name g, TodoGroup.position g))
           (TodoManager.groups (fst s2))
  = [(work, lit "Work", num_of_nat 0); (home, lit "Home", num_of_nat 1)]
  /\ List.map TodoItem.text (TodoManager.getTodosForGroup (fst s3) home)
     = [lit "Buy milk"]
  /\ TodoManager.getTodosForGroup (fst s3) work = [].
Proof. vm_compute. repeat split. Qed.

Example scenario_remove_first_group :
  let s0 := (TodoManager.constructor, fresh_world ticking_host Absent Absent) in
  let s1 := snd (TodoManager.addGroup (JStr (lit "A")) JUndefined s0) in
  let s2 := snd (TodoManager.addGroup (JStr (lit "B")) JUndefined s1) in
  let a := JStr (lit "group_lvo1x000k3f9q000") in
  let s3 := snd (TodoManager.removeGroup a s2) in
  fst (TodoManager.removeGroup a s2) = Return true
  /\ List.map (fun g => (TodoGroup.name g, TodoGroup.position g))
              (TodoManager.getGroups (fst s3))
     = [(lit "B", num_of_nat 0)].
Proof. vm_compute. repeat split. Qed.

(** * Further properties of the manager *)

(** ** Stepping through a method *)

Lemma bind_ret {S A B} (a : A) (k : A -> M S B) s : bind (ret a) k s = k a s.
Proof. reflexivity. Qed.

Lemma bind_raise {S A B} e (k : A -> M S B) s :
  bind (throw e) k s = (Throw e, s).
Proof. reflexivity. Qed.

Lemma bind_this_todos {B} (k : list TodoItem.t -> M TodoManager.State B) m w :
  bind TodoManager.this_todos k (m, w) = k (TodoManager.todos m) (m, w).
Proof. reflexivity. Qed.

Lemma bind_this_groups {B} (k : list TodoGroup.t -> M TodoManager.State B) m w :
  bind TodoManager.this_groups k (m, w) = k (TodoManager.groups m) (m, w).
Proof. reflexivity. Qed.

Lemma bind_set_todos {B} xs (k : unit -> M TodoManager.State B) m w :
  bind (TodoManager.set_todos xs) k (m, w) = k tt (with_todos xs m, w).
Proof. reflexivity. Qed.

Lemma bind_set_groups {B} xs (k : unit -> M TodoManager.State B) m w :
  bind (TodoManager.set_groups xs) k (m, w) = k tt (with_groups xs m, w).
Proof. reflexivity. Qed.

Lemma bind_host_call {A B} (c : M World A) (k : A -> M TodoManager.State B)
      m w :
  bind (TodoManager.host_call c) k (m, w)
  = match c w with
    | (Return a, w') => k a (m, w')
    | (Throw e, w') => (Throw e, (m, w'))
    end.
Proof.
  unfold bind, TodoManager.host_call. simpl.
  destruct (c w) as [[a|e] w']; reflexivity.
Qed.

Lemma now_iso_run w :
  now_iso w = (Return (iso (clock (host w) (clock_reads w))), advance 1 0 0 w).
Proof. reflexivity. Qed.

Lemma some_or_no_match {A} (p : A -> bool) xs :
  some_match p xs \/ no_match p xs.
Proof.
  induction xs as [|x r [[y [Hy Hp]]|H]].
  - right. intros x [].
  - left. exists y. split; [now right|exact Hp].
  - destruct (p x) eqn:E.
    + left. exists x. split; [now left|exact E].
    + right. intros y [<-|Hy]; [exact E|now apply H].
Qed.

Lemma find_first {A} (p : A -> bool) before x after :
  p x = true -> no_match p before ->
  find p (before ++ x :: after) = Some x.
Proof.
  intros Hx. induction before as [|b r IH]; simpl; intros Hb.
  - now rewrite Hx.
  - rewrite (Hb b (or_introl eq_refl)). apply IH.
    intros y Hy. apply Hb. now right.
Qed.

Lemma replace_first_middle {A} (p : A -> bool) y before x after :
  p x = true -> no_match p before ->
  replace_first p y (before ++ x :: after) = before ++ y :: after.
Proof.
  intros Hx. induction before as [|b r IH]; simpl; intros Hb.
  - now rewrite Hx.
  - rewrite (Hb b (or_introl eq_refl)). f_equal. apply IH.
    intros z Hz. apply Hb. now right.
Qed.

Lemma replace_first_length {A} (p : A -> bool) y xs :
  List.length (replace_first p y xs) = List.length xs.
Proof.
  induction xs as [|x r IH]; simpl; [reflexivity|].
  destruct (p x); simpl; [reflexivity|now rewrite IH].
Qed.

Lemma replace_first_In {A} (p : A -> bool) y xs z :
  In z (replace_first p y xs) -> z = y \/ In z xs.
Proof.
  induction xs as [|x r IH]; simpl; [intros []|].
  destruct (p x); simpl.
  - intros [<-|H]; [now left|right; now right].
  - intros [<-|H]; [right; now left|].
    destruct (IH H); [now left|right; now right].
Qed.

(** ** Strict equality *)

Lemma string_eqb_eq a : forall b, string_eqb a b = true <-> a = b.
Proof.
  induction a as [|x r IH]; intros [|y t]; simpl; split; intros H;
    try reflexivity; try discriminate.
  - apply andb_true_iff in H. destruct H as [H1 H2].
    apply N.eqb_eq in H1. apply IH in H2. now subst.
  - injection H as -> ->. rewrite N.eqb_refl. now apply IH.
Qed.

Lemma string_eqb_refl a : string_eqb a a = true.
Proof. now apply string_eqb_eq. Qed.

Lemma num_strict_equals_euclid a b c :
  num_strict_equals a b = true -> num_strict_equals a c = true ->
  num_strict_equals b c = true.
Proof.
  destruct a as [| | | |p], b as [| | | |q], c as [| | | |r]; simpl;
    try discriminate; try reflexivity; intros H1 H2;
    try (apply Qeq_bool_iff in H1); try (apply Qeq_bool_iff in H2);
    try apply Qeq_bool_iff;
    first [ assumption
          | reflexivity
          | (rewrite H1, H2; reflexivity)
          | (rewrite <- H2; exact H1)
          | (rewrite <- H1; exact H2) ].
Qed.

(** Two values strictly equal to a third are strictly equal. *)
Lemma strict_equals_euclid a b c :
  strict_equals a b = true -> strict_equals a c = true ->
  strict_equals b c = true.
Proof.
  destruct a, b; simpl; try discriminate; destruct c; simpl;
    try discriminate; try reflexivity; intros H1 H2.
  - destruct b, b0, b1; simpl in *; congruence.
  - eapply num_strict_equals_euclid; eauto.
  - apply string_eqb_eq in H1, H2. subst. apply string_eqb_refl.
  - apply Nat.eqb_eq in H1, H2. subst. apply Nat.eqb_refl.
  - apply Nat.eqb_eq in H1, H2. subst. apply Nat.eqb_refl.
Qed.

(** ** Saving *)

Lemma mapM_TodoItem_toJSON_exact ts : forall w,
  mapM TodoItem.toJSON ts w
  = (Return (todo_records (next_ref w) ts),
     advance 0 0 (List.length ts) w).
Proof.
  induction ts as [|x r IH]; intros w; simpl.
  - unfold ret. now rewrite advance_0.
  - unfold bind at 1. unfold TodoItem.toJSON at 1, new_object.
    match goal with
    | |- bind _ _ ?x = _ => change x with (advance 0 0 1 w)
    end.
    rewrite (bind_return _ _ _ _ _ (IH (advance 0 0 1 w))). unfold ret.
    rewrite advance_advance. simpl. do 3 f_equal. lia.
Qed.

Lemma mapM_TodoGroup_toJSON_exact gs : forall w,
  mapM TodoGroup.toJSON gs w
  = (Return (group_records (next_ref w) gs),
     advance 0 0 (List.length gs) w).
Proof.
  induction gs as [|x r IH]; intros w; simpl.
  - unfold ret. now rewrite advance_0.
  - unfold bind at 1. unfold TodoGroup.toJSON at 1, new_object.
    match goal with
    | |- bind _ _ ?x = _ => change x with (advance 0 0 1 w)
    end.
    rewrite (bind_return _ _ _ _ _ (IH (advance 0 0 1 w))). unfold ret.
    rewrite advance_advance. simpl. do 3 f_equal. lia.
Qed.

Lemma todo_records_length ts : forall ref,
  List.length (todo_records ref ts) = List.length ts.
Proof. induction ts; intros; simpl; [reflexivity|now rewrite IHts]. Qed.

Lemma group_records_length gs : forall ref,
  List.length (group_records ref gs) = List.length gs.
Proof. induction gs; intros; simpl; [reflexivity|now rewrite IHgs]. Qed.

Lemma saveTodos_exact m w :
  TodoManager.saveTodos (m, w)
  = (unless_rejected w tt "Failed to save todos to storage",
     (m, saved STORAGE_KEY (todo_records (next_ref w) (TodoManager.todos m))
           w)).
Proof.
  unfold TodoManager.saveTodos, try_catch.
  rewrite bind_this_todos, bind_host_call, mapM_TodoItem_toJSON_exact.
  unfold saved. rewrite todo_records_length.
  unfold TodoManager.host_call, unless_rejected, storage_set. simpl.
  destruct (set_fulfilled (host w) (sets w)); reflexivity.
Qed.

Lemma saveGroups_exact m w :
  TodoManager.saveGroups (m, w)
  = (unless_rejected w tt "Failed to save groups to storage",
     (m, saved GROUPS_STORAGE_KEY
           (group_records (next_ref w) (TodoManager.groups m)) w)).
Proof.
  unfold TodoManager.saveGroups, try_catch.
  rewrite bind_this_groups, bind_host_call, mapM_TodoGroup_toJSON_exact.
  unfold saved. rewrite group_records_length.
  unfold TodoManager.host_call, unless_rejected, storage_set. simpl.
  destruct (set_fulfilled (host w) (sets w)); reflexivity.
Qed.

Lemma saved_frame key items w :
  host (saved key items w) = host w
  /\ sets (saved key items w) = S (sets w)
  /\ gets (saved key items w) = gets w
  /\ clock_reads (saved key items w) = clock_reads w
  /\ random_draws (saved key items w) = random_draws w.
Proof.
  unfold saved, storage_set. simpl.
  destruct (set_fulfilled (host w) (sets w)); simpl; repeat split.
Qed.

Lemma saved_store key items w :
  (set_fulfilled (host w) (sets w) = true ->
   match key with
   | GROUPS_STORAGE_KEY =>
       stored_groups (saved key items w) = StoredArray items
       /\ stored_todos (saved key items w) = stored_todos w
   | STORAGE_KEY =>
       stored_todos (saved key items w) = StoredArray items
       /\ stored_groups (saved key items w) = stored_groups w
   end)
  /\ (set_fulfilled (host w) (sets w) = false ->
      stored_groups (saved key items w) = stored_groups w
      /\ stored_todos (saved key items w) = stored_todos w).
Proof.
  unfold saved, storage_set. simpl.
  destruct (set_fulfilled (host w) (sets w)); split; intros H;
    try discriminate; destruct key; split; reflexivity.
Qed.

(** What an operation that ends in [await this.saveTodos(); return v]
    comes to, under either of the two handlers the manager uses. *)
Lemma ends_with_saveTodos {A} (v : A) message m w :
  bind TodoManager.saveTodos (fun _ => ret v) (m, w)
  = (match unless_rejected w v message with
     | Return a => Return a
     | Throw _ => Throw (StorageError "Failed to save todos to storage")
     end,
     (m, saved STORAGE_KEY (todo_records (next_ref w) (TodoManager.todos m))
           w)).
Proof.
  unfold bind. rewrite saveTodos_exact. unfold unless_rejected.
  destruct (set_fulfilled (host w) (sets w)); reflexivity.
Qed.

Lemma ends_with_saveGroups {A} (v : A) message m w :
  bind TodoManager.saveGroups (fun _ => ret v) (m, w)
  = (match unless_rejected w v message with
     | Return a => Return a
     | Throw _ => Throw (StorageError "Failed to save groups to storage")
     end,
     (m, saved GROUPS_STORAGE_KEY
           (group_records (next_ref w) (TodoManager.groups m)) w)).
Proof.
  unfold bind. rewrite saveGroups_exact. unfold unless_rejected.
  destruct (set_fulfilled (host w) (sets w)); reflexivity.
Qed.

Lemma records_mirror_todos ts : forall ref,
  List.map (fun d => Get d "id") (todo_records ref ts)
  = List.map TodoItem.id ts
  /\ List.map (fun d => Get d "text") (todo_records ref ts)
     = List.map (fun t => JStr (TodoItem.text t)) ts
  /\ List.map (fun d => Get d "groupId") (todo_records ref ts)
     = List.map TodoItem.groupId ts
  /\ List.map (fun d => Get d "completed") (todo_records ref ts)
     = List.map (fun t => JBool (TodoItem.completed t)) ts
  /\ List.map (fun d => Get d "description") (todo_records ref ts)
     = List.map TodoItem.description ts
  /\ List.map (fun d => Get d "createdAt") (todo_records ref ts)
     = List.map (fun t => JStr (TodoItem.createdAt t)) ts
  /\ List.map (fun d => Get d "updatedAt") (todo_records ref ts)
     = List.map (fun t => JStr (TodoItem.updatedAt t)) ts.
Proof.
  induction ts as [|t r IH]; intros ref; simpl; [repeat split|].
  destruct (IH (S ref)) as [H1 [H2 [H3 [H4 [H5 [H6 H7]]]]]].
  change (Get (JObject ref (Some NaN) _) "id") with (TodoItem.id t).
  change (Get (JObject ref (Some NaN) _) "text") with (JStr (TodoItem.text t)).
  change (Get (JObject ref (Some NaN) _) "groupId") with (TodoItem.groupId t).
  change (Get (JObject ref (Some NaN) _) "completed")
    with (JBool (TodoItem.completed t)).
  change (Get (JObject ref (Some NaN) _) "description")
    with (TodoItem.description t).
  change (Get (JObject ref (Some NaN) _) "createdAt")
    with (JStr (TodoItem.createdAt t)).
  change (Get (JObject ref (Some NaN) _) "updatedAt")
    with (JStr (TodoItem.updatedAt t)).
  rewrite H1, H2, H3, H4, H5, H6, H7. repeat split.
Qed.

(** X1.  [saveTodos] never touches the manager.  When the write is fulfilled
    the todos key holds one record per todo, in the order of the
    collection, carrying each of the seven fields, and the groups key is
    as it was; when the write is rejected the call ends in a
    [StorageError] and both keys are as they were. *)
Theorem saveTodos_writes_the_whole_collection :
  forall m w,
  exists w' records,
    TodoManager.saveTodos (m, w)
    = (unless_rejected w tt "Failed to save todos to storage", (m, w'))
    /\ List.length records = List.length (TodoManager.todos m)
    /\ List.map (fun d => Get d "id") records
       = List.map TodoItem.id (TodoManager.todos m)
    /\ List.map (fun d => Get d "text") records
       = List.map (fun t => JStr (TodoItem.text t)) (TodoManager.todos m)
    /\ List.map (fun d => Get d "groupId") records
       = List.map TodoItem.groupId (TodoManager.todos m)
    /\ List.map (fun d => Get d "completed") records
       = List.map (fun t => JBool (TodoItem.completed t)) (TodoManager.todos m)
    /\ List.map (fun d => Get d "description") records
       = List.map TodoItem.description (TodoManager.todos m)
    /\ List.map (fun d => Get d "createdAt") records
       = List.map (fun t => JStr (TodoItem.createdAt t)) (TodoManager.todos m)
    /\ List.map (fun d => Get d "updatedAt") records
       = List.map (fun t => JStr (TodoItem.updatedAt t)) (TodoManager.todos m)
    /\ stored_groups w' = stored_groups w
    /\ stored_todos w'
       = (if set_fulfilled (host w) (sets w) then StoredArray records
          else stored_todos w).
Proof.
  intros m w.
  exists (saved STORAGE_KEY (todo_records (next_ref w) (TodoManager.todos m)) w),
         (todo_records (next_ref w) (TodoManager.todos m)).
  split; [apply saveTodos_exact|].
  split; [apply todo_records_length|].
  destruct (records_mirror_todos (TodoManager.todos m) (next_ref w))
    as [H1 [H2 [H3 [H4 [H5 [H6 H7]]]]]].
  repeat (split; [assumption|]).
  destruct (saved_store STORAGE_KEY
              (todo_records (next_ref w) (TodoManager.todos m)) w) as [Hy Hn].
  destruct (set_fulfilled (host w) (sets w)).
  - destruct (Hy eq_refl) as [Ha Hb]. now split.
  - destruct (Hn eq_refl) as [Ha Hb]. now split.
Qed.

(** ** removeTodo *)

Lemma Array_findIndex_found {A} (p : A -> bool) before x after :
  p x = true -> no_match p before ->
  Array_findIndex p (before ++ x :: after) = Z.of_nat (List.length before).
Proof.
  intros Hx Hb. unfold Array_findIndex.
  now rewrite (findIndex_from_found p before x after Hx Hb 0%Z).
Qed.

Lemma Array_findIndex_absent {A} (p : A -> bool) xs :
  no_match p xs -> Array_findIndex p xs = (-1)%Z.
Proof. intros H. apply findIndex_from_absent. exact H. Qed.

Lemma removeTodo_run id m w before t after :
  TodoManager.todos m = before ++ t :: after ->
  todo_is id t = true -> no_match (todo_is id) before ->
  TodoManager.removeTodo id (m, w)
  = (unless_rejected w true "Failed to remove todo item",
     (with_todos (before ++ after) m,
      saved STORAGE_KEY (todo_records (next_ref w) (before ++ after)) w)).
Proof.
  intros Hts Ht Hb. unfold TodoManager.removeTodo, try_catch.
  rewrite bind_this_todos. fold (todo_is id). rewrite Hts.
  rewrite (Array_findIndex_found (todo_is id) before t after Ht Hb).
  replace (Z.of_nat (List.length before) =? -1)%Z with false
    by (symmetry; apply Z.eqb_neq; lia).
  unfold Array_splice1. rewrite Nat2Z.id, remove_at_middle.
  rewrite bind_set_todos.
  rewrite (ends_with_saveTodos true "Failed to remove todo item").
  unfold unless_rejected.
  destruct (set_fulfilled (host w) (sets w)); reflexivity.
Qed.

Lemma removeTodo_unknown id m w :
  no_match (todo_is id) (TodoManager.todos m) ->
  TodoManager.removeTodo id (m, w) = (Return false, (m, w)).
Proof.
  intros H. unfold TodoManager.removeTodo, try_catch.
  rewrite bind_this_todos. fold (todo_is id).
  now rewrite (Array_findIndex_absent _ _ H).
Qed.

(** X2.  [removeTodo] takes out the first todo with the given id, keeps all
    the others in their order and leaves the groups alone; it returns
    [true] when the write is fulfilled and ends in its [StorageError],
    the todo removed, when it is rejected. *)
Theorem removeTodo_removes_the_first_match :
  forall id m w,
    some_match (todo_is id) (TodoManager.todos m) ->
    exists before t after m' w',
      TodoManager.todos m = before ++ t :: after
      /\ todo_is id t = true
      /\ no_match (todo_is id) before
      /\ TodoManager.removeTodo id (m, w)
         = (unless_rejected w true "Failed to remove todo item", (m', w'))
      /\ TodoManager.todos m' = before ++ after
      /\ TodoManager.groups m' = TodoManager.groups m
      /\ S (List.length (TodoManager.todos m'))
         = List.length (TodoManager.todos m).
Proof.
  intros id m w Hsome.
  destruct (first_match (todo_is id) (TodoManager.todos m) Hsome)
    as [before [t [after [Hts [Ht Hb]]]]].
  exists before, t, after. eexists. eexists.
  split; [exact Hts|]. split; [exact Ht|]. split; [exact Hb|].
  split; [exact (removeTodo_run id m w before t after Hts Ht Hb)|].
  simpl. repeat split. rewrite Hts, !length_app. simpl. lia.
Qed.

Lemma removeTodo_removes_the_first_match_witness :
  some_match (todo_is (JStr (lit "t1"))) (TodoManager.todos milk_manager)
  /\ exists m' w',
       TodoManager.removeTodo (JStr (lit "t1"))
         (milk_manager, fresh_world ticking_host Absent Absent)
       = (Return true, (m', w'))
       /\ TodoManager.todos m' = [].
Proof.
  assert (H : some_match (todo_is (JStr (lit "t1")))
                (TodoManager.todos milk_manager)).
  { exists milk_todo. split; [now left|reflexivity]. }
  split; [exact H|].
  destruct (removeTodo_removes_the_first_match (JStr (lit "t1")) milk_manager
              (fresh_world ticking_host Absent Absent) H)
    as [before [t [after [m' [w' [Hts [_ [_ [Hrun [Htodos [_ Hlen]]]]]]]]]]].
  exists m', w'. split; [exact Hrun|].
  simpl in Hlen. destruct (TodoManager.todos m'); [reflexivity|discriminate].
Defined.

(** ** Lookups that find nothing *)

Lemma Array_find_none {A} (p : A -> bool) xs :
  no_match p xs -> Array_find p xs = None.
Proof. intros H. apply find_absent. exact H. Qed.

Lemma Array_find_some {A} (p : A -> bool) xs :
  some_match p xs -> exists x, Array_find p xs = Some x.
Proof. intros H. apply find_exists. exact H. Qed.

(** X3.  An operation addressed to an id that nothing has returns [false]
    and
    leaves the manager and the world exactly as they were (no clock
    reading, no write): [removeTodo], [toggleTodo], [updateTodo] (with a
    text that is a string, valid or not), [updateGroupName] (with any
    name, valid or not), and [moveTodo] both when the target group is
    unknown (whether or not the todo exists) and when the todo is. *)
Theorem unknown_ids_change_nothing :
  forall id m w,
    (no_match (todo_is id) (TodoManager.todos m) ->
     TodoManager.removeTodo id (m, w) = (Return false, (m, w))
     /\ TodoManager.toggleTodo id (m, w) = (Return false, (m, w))
     /\ (forall s newDescription,
            TodoManager.updateTodo id (JStr s) newDescription (m, w)
            = (Return false, (m, w)))
     /\ (forall newGroupId,
            TodoManager.moveTodo id newGroupId (m, w)
            = (Return false, (m, w))))
    /\ (no_match (group_is id) (TodoManager.groups m) ->
        (forall newName,
            TodoManager.updateGroupName id newName (m, w)
            = (Return false, (m, w)))
        /\ (forall todoId,
               TodoManager.moveTodo todoId id (m, w)
               = (Return false, (m, w)))).
Proof.
  intros id m w. split.
  - intros H. split; [now apply removeTodo_unknown|].
    split; [|split].
    + unfold TodoManager.toggleTodo, try_catch.
      rewrite bind_this_todos. fold (todo_is id).
      now rewrite (Array_find_none _ _ H).
    + intros s d. unfold TodoManager.updateTodo, try_catch.
      unfold method_substring0. rewrite bind_ret, bind_this_todos.
      fold (todo_is id). now rewrite (Array_find_none _ _ H).
    + intros g. unfold TodoManager.moveTodo, try_catch.
      rewrite bind_this_groups.
      destruct (Array_find _ (TodoManager.groups m)); [|reflexivity].
      rewrite bind_this_todos. fold (todo_is id).
      now rewrite (Array_find_none _ _ H).
  - intros H. split.
    + intros n. unfold TodoManager.updateGroupName, try_catch.
      rewrite bind_this_groups. fold (group_is id).
      now rewrite (Array_find_none _ _ H).
    + intros t. unfold TodoManager.moveTodo, try_catch.
      rewrite bind_this_groups. fold (group_is id).
      now rewrite (Array_find_none _ _ H).
Qed.

Lemma unknown_ids_change_nothing_witness :
  no_match (todo_is (JStr (lit "t9"))) (TodoManager.todos milk_manager)
  /\ no_match (group_is (JStr (lit "g9"))) (TodoManager.groups milk_manager)
  /\ TodoManager.toggleTodo (JStr (lit "t9"))
       (milk_manager, fresh_world ticking_host Absent Absent)
     = (Return false, (milk_manager, fresh_world ticking_host Absent Absent))
  /\ TodoManager.moveTodo (JStr (lit "t1")) (JStr (lit "g9"))
       (milk_manager, fresh_world ticking_host Absent Absent)
     = (Return false, (milk_manager, fresh_world ticking_host Absent Absent)).
Proof.
  assert (Ht : no_match (todo_is (JStr (lit "t9")))
                 (TodoManager.todos milk_manager)).
  { intros t [<-|[]]. reflexivity. }
  assert (Hg : no_match (group_is (JStr (lit "g9")))
                 (TodoManager.groups milk_manager)).
  { intros g [<-|[]]. reflexivity. }
  split; [exact Ht|]. split; [exact Hg|]. split.
  - apply (proj1 (unknown_ids_change_nothing (JStr (lit "t9")) milk_manager
                    (fresh_world ticking_host Absent Absent)) Ht).
  - apply (proj2 (unknown_ids_change_nothing (JStr (lit "g9")) milk_manager
                    (fresh_world ticking_host Absent Absent)) Hg).
Defined.

(** ** moveTodo, to another group *)

Lemma moveTodo_run todoId newGroupId m w todo :
  some_match (group_is newGroupId) (TodoManager.groups m) ->
  Array_find (todo_is todoId) (TodoManager.todos m) = Some todo ->
  in_group newGroupId todo = false ->
  exists w',
    TodoManager.moveTodo todoId newGroupId (m, w)
    = (unless_rejected w true "Failed to move todo to new group",
       (with_todos
          (replace_first (todo_is todoId)
             (TodoItem.mk (TodoItem.id todo) (TodoItem.text todo) newGroupId
                (TodoItem.completed todo) (TodoItem.description todo)
                (TodoItem.createdAt todo)
                (iso (clock (host w) (clock_reads w))))
             (TodoManager.todos m)) m, w')).
Proof.
  intros Hgroup Hfind Hother.
  destruct (Array_find_some _ _ Hgroup) as [g Hg].
  eexists.
  unfold TodoManager.moveTodo, try_catch.
  rewrite bind_this_groups. fold (group_is newGroupId). rewrite Hg.
  rewrite bind_this_todos. fold (todo_is todoId). rewrite Hfind.
  fold (in_group newGroupId todo). rewrite Hother.
  rewrite bind_host_call, now_iso_run, bind_set_todos.
  rewrite (ends_with_saveTodos true "Failed to move todo to new group").
  unfold unless_rejected. cbn [advance host sets].
  destruct (set_fulfilled (host w) (sets w)); reflexivity.
Qed.

(** X4.  When the target group exists and the todo that [find] returns for
    [todoId] is in another group, [moveTodo] gives that todo the new
    [groupId] and the clock reading as [updatedAt]; its other fields,
    every other todo, the order and number of the todos and the groups
    are as before.  It returns [true] when the write is fulfilled and
    ends in its [StorageError], the todo moved, when it is rejected. *)
Theorem moveTodo_reassigns_the_group :
  forall todoId newGroupId m w todo,
    some_match (group_is newGroupId) (TodoManager.groups m) ->
    Array_find (todo_is todoId) (TodoManager.todos m) = Some todo ->
    in_group newGroupId todo = false ->
    exists m' w',
      TodoManager.moveTodo todoId newGroupId (m, w)
      = (unless_rejected w true "Failed to move todo to new group", (m', w'))
      /\ TodoManager.todos m'
         = replace_first (todo_is todoId)
             (TodoItem.mk (TodoItem.id todo) (TodoItem.text todo) newGroupId
                (TodoItem.completed todo) (TodoItem.description todo)
                (TodoItem.createdAt todo)
                (iso (clock (host w) (clock_reads w))))
             (TodoManager.todos m)
      /\ List.length (TodoManager.todos m')
         = List.length (TodoManager.todos m)
      /\ TodoManager.groups m' = TodoManager.groups m.
Proof.
  intros todoId newGroupId m w todo Hgroup Hfind Hother.
  destruct (moveTodo_run todoId newGroupId m w todo Hgroup Hfind Hother)
    as [w' Hrun].
  eexists. exists w'. split; [exact Hrun|].
  simpl. split; [reflexivity|]. split; [apply replace_first_length|].
  reflexivity.
Qed.

Lemma moveTodo_reassigns_the_group_witness :
  some_match (group_is (JStr (lit "g2")))
             (TodoManager.groups two_group_manager)
  /\ exists m' w',
       TodoManager.moveTodo (JStr (lit "t1")) (JStr (lit "g2"))
         (two_group_manager, fresh_world ticking_host Absent Absent)
       = (Return true, (m', w'))
       /\ List.map TodoItem.groupId (TodoManager.todos m')
          = [JStr (lit "g2")]
       /\ List.map TodoItem.updatedAt (TodoManager.todos m')
          = [lit "2024-05-01T09:00:00.000Z"].
Proof.
  assert (H : some_match (group_is (JStr (lit "g2")))
                (TodoManager.groups two_group_manager)).
  { exists home_group. split; [right; now left|reflexivity]. }
  split; [exact H|].
  destruct (moveTodo_reassigns_the_group (JStr (lit "t1")) (JStr (lit "g2"))
              two_group_manager (fresh_world ticking_host Absent Absent)
              milk_todo H eq_refl eq_refl)
    as [m' [w' [Hrun [Htodos _]]]].
  exists m', w'. split; [exact Hrun|]. rewrite Htodos. split; reflexivity.
Defined.

(** ** updateGroupName *)

Lemma updateName_run this s w :
  accepted MAX_GROUP_NAME_LENGTH s ->
  TodoGroup.updateName this (JStr s) w
  = (Return
       (TodoGroup.mk (TodoGroup.id this) (trim s) (TodoGroup.position this)
          (TodoGroup.createdAt this) (iso (clock (host w) (clock_reads w)))),
     advance 1 0 0 w).
Proof.
  intros Hs. unfold TodoGroup.updateName.
  rewrite (bind_return _ _ _ _ _ (validateName_accepts World s w Hs)).
  reflexivity.
Qed.

Lemma updateName_refuses this newName w :
  refused MAX_GROUP_NAME_LENGTH newName ->
  exists message,
    TodoGroup.updateName this newName w
    = (Throw (TodoValidationError message), w).
Proof.
  intros H. destruct (validateName_refuses World newName w H) as [msg Hmsg].
  exists msg. unfold TodoGroup.updateName.
  now rewrite (bind_throw _ _ _ _ _ Hmsg).
Qed.

Lemma updateGroupName_run groupId s m w group :
  Array_find (group_is groupId) (TodoManager.groups m) = Some group ->
  accepted MAX_GROUP_NAME_LENGTH s ->
  exists w',
    TodoManager.updateGroupName groupId (JStr s) (m, w)
    = (unless_rejected w true "Failed to update group name",
       (with_groups
          (replace_first (group_is groupId)
             (TodoGroup.mk (TodoGroup.id group) (trim s)
                (TodoGroup.position group) (TodoGroup.createdAt group)
                (iso (clock (host w) (clock_reads w))))
             (TodoManager.groups m)) m, w')).
Proof.
  intros Hfind Hs. eexists.
  unfold TodoManager.updateGroupName, try_catch.
  rewrite bind_this_groups. fold (group_is groupId). rewrite Hfind.
  rewrite bind_host_call, (updateName_run group s w Hs).
  rewrite bind_set_groups.
  rewrite (ends_with_saveGroups true "Failed to update group name").
  unfold unless_rejected. cbn [advance host sets].
  destruct (set_fulfilled (host w) (sets w)); reflexivity.
Qed.

Lemma updateGroupName_refused groupId newName m w group :
  Array_find (group_is groupId) (TodoManager.groups m) = Some group ->
  refused MAX_GROUP_NAME_LENGTH newName ->
  exists message,
    TodoManager.updateGroupName groupId newName (m, w)
    = (Throw (TodoValidationError message), (m, w)).
Proof.
  intros Hfind Hr.
  destruct (updateName_refuses group newName w Hr) as [msg Hmsg].
  exists msg. unfold TodoManager.updateGroupName, try_catch.
  rewrite bind_this_groups. fold (group_is groupId). rewrite Hfind.
  rewrite bind_host_call, Hmsg. reflexivity.
Qed.

(** X5.  For the id of a group the manager holds, [updateGroupName] with an
    accepted name gives the first group with that id the trimmed name
    and the clock reading as [updatedAt], keeping its id, position and
    [createdAt], every other group, and the todos; with a refused name it
    ends in a [TodoValidationError] and nothing has changed. *)
Theorem updateGroupName_renames_or_refuses :
  forall groupId newName m w group,
    Array_find (group_is groupId) (TodoManager.groups m) = Some group ->
    (forall s,
        newName = JStr s -> accepted MAX_GROUP_NAME_LENGTH s ->
        exists m' w',
          TodoManager.updateGroupName groupId newName (m, w)
          = (unless_rejected w true "Failed to update group name", (m', w'))
          /\ TodoManager.groups m'
             = replace_first (group_is groupId)
                 (TodoGroup.mk (TodoGroup.id group) (trim s)
                    (TodoGroup.position group) (TodoGroup.createdAt group)
                    (iso (clock (host w) (clock_reads w))))
                 (TodoManager.groups m)
          /\ TodoManager.todos m' = TodoManager.todos m)
    /\ (refused MAX_GROUP_NAME_LENGTH newName ->
        exists message,
          TodoManager.updateGroupName groupId newName (m, w)
          = (Throw (TodoValidationError message), (m, w))).
Proof.
  intros groupId newName m w group Hfind. split.
  - intros s -> Hs.
    destruct (updateGroupName_run groupId s m w group Hfind Hs) as [w' Hrun].
    eexists. exists w'. split; [exact Hrun|]. split; reflexivity.
  - now apply updateGroupName_refused with group.
Qed.

Lemma updateGroupName_renames_or_refuses_witness :
  (accepted MAX_GROUP_NAME_LENGTH (lit "  Office ")
   /\ exists m' w',
        TodoManager.updateGroupName (JStr (lit "g1")) (JStr (lit "  Office "))
          (milk_manager, fresh_world ticking_host Absent Absent)
        = (Return true, (m', w'))
        /\ List.map TodoGroup.name (TodoManager.groups m') = [lit "Office"])
  /\ (refused MAX_GROUP_NAME_LENGTH (JStr (lit "   "))
      /\ exists message,
           TodoManager.updateGroupName (JStr (lit "g1")) (JStr (lit "   "))
             (milk_manager, fresh_world ticking_host Absent Absent)
           = (Throw (TodoValidationError message),
              (milk_manager, fresh_world ticking_host Absent Absent))).
Proof.
  assert (Hs : accepted MAX_GROUP_NAME_LENGTH (lit "  Office "))
    by (vm_compute; split; lia).
  assert (Hr : refused MAX_GROUP_NAME_LENGTH (JStr (lit "   ")))
    by (left; reflexivity).
  split; split; try assumption.
  - destruct (proj1 (updateGroupName_renames_or_refuses (JStr (lit "g1"))
                       (JStr (lit "  Office ")) milk_manager
                       (fresh_world ticking_host Absent Absent) work_group
                       eq_refl) (lit "  Office ") eq_refl Hs)
      as [m' [w' [Hrun [Hgroups _]]]].
    exists m', w'. split; [exact Hrun|]. rewrite Hgroups. reflexivity.
  - apply (proj2 (updateGroupName_renames_or_refuses (JStr (lit "g1"))
                    (JStr (lit "   ")) milk_manager
                    (fresh_world ticking_host Absent Absent) work_group
                    eq_refl) Hr).
Defined.

(** ** updateTodo *)

Lemma updateText_run this s w :
  accepted MAX_TODO_LENGTH s ->
  TodoItem.updateText this (JStr s) w
  = (Return
       (TodoItem.mk (TodoItem.id this) (trim s) (TodoItem.groupId this)
          (TodoItem.completed this) (TodoItem.description this)
          (TodoItem.createdAt this) (iso (clock (host w) (clock_reads w)))),
     advance 1 0 0 w).
Proof.
  intros Hs. unfold TodoItem.updateText.
  rewrite (bind_return _ _ _ _ _ (validateText_accepts World s w Hs)).
  reflexivity.
Qed.

Lemma updateText_refuses this newText w :
  refused MAX_TODO_LENGTH newText ->
  exists message,
    TodoItem.updateText this newText w
    = (Throw (TodoValidationError message), w).
Proof.
  intros H. destruct (validateText_refuses World newText w H) as [msg Hmsg].
  exists msg. unfold TodoItem.updateText.
  now rewrite (bind_throw _ _ _ _ _ Hmsg).
Qed.

Lemma updateTodo_run id s newDescription m w todo :
  Array_find (todo_is id) (TodoManager.todos m) = Some todo ->
  accepted MAX_TODO_LENGTH s ->
  exists w',
    TodoManager.updateTodo id (JStr s) newDescription (m, w)
    = (unless_rejected w true "Failed to update todo",
       (with_todos
          (replace_first (todo_is id)
             (TodoItem.mk (TodoItem.id todo) (trim s)
                (TodoItem.groupId todo) (TodoItem.completed todo)
                (js_or newDescription (JStr []))
                (TodoItem.createdAt todo)
                (iso (clock (host w) (1 + clock_reads w))))
             (TodoManager.todos m)) m, w')).
Proof.
  intros Hfind Hs. eexists.
  unfold TodoManager.updateTodo, try_catch.
  unfold method_substring0. rewrite bind_ret, bind_this_todos.
  fold (todo_is id). rewrite Hfind.
  rewrite bind_host_call, (updateText_run todo s w Hs).
  rewrite bind_host_call.
  unfold TodoItem.updateDescription at 1.
  rewrite (bind_return _ _ _ _ _ (now_iso_run (advance 1 0 0 w))).
  unfold ret at 1. rewrite bind_set_todos.
  rewrite (ends_with_saveTodos true "Failed to update todo").
  unfold unless_rejected. cbn [advance host sets].
  destruct (set_fulfilled (host w) (sets w)); reflexivity.
Qed.

Lemma updateTodo_refused id s newDescription m w todo :
  Array_find (todo_is id) (TodoManager.todos m) = Some todo ->
  refused MAX_TODO_LENGTH (JStr s) ->
  exists message,
    TodoManager.updateTodo id (JStr s) newDescription (m, w)
    = (Throw (TodoValidationError message), (m, w)).
Proof.
  intros Hfind Hr.
  destruct (updateText_refuses todo (JStr s) w Hr) as [msg Hmsg].
  exists msg. unfold TodoManager.updateTodo, try_catch.
  unfold method_substring0. rewrite bind_ret, bind_this_todos.
  fold (todo_is id). rewrite Hfind.
  rewrite bind_host_call, Hmsg. reflexivity.
Qed.

Lemma updateTodo_not_a_string id newText newDescription m w :
  typeof newText <> TypeString ->
  TodoManager.updateTodo id newText newDescription (m, w)
  = (Throw (StorageError "Failed to update todo"), (m, w)).
Proof.
  intros Hty. unfold TodoManager.updateTodo.
  rewrite (try_catch_throw _ _ _ TypeError (m, w)); [reflexivity|].
  apply bind_throw. destruct newText; try reflexivity. now elim Hty.
Qed.

(** X6.  For the id of a todo the manager holds, [updateTodo] with an
    accepted
    text gives the first todo with that id the trimmed text and
    [newDescription || ''] as description, and stamps [updatedAt] twice,
    so that it ends at the second clock reading; id, group, completion
    and [createdAt] stay, and so do the other todos and the groups.  A
    refused text that is a string ends in a [TodoValidationError] with
    nothing changed, the description included.  A text that is not a
    string ends in the [StorageError] "Failed to update todo" with
    nothing changed, whether or not the todo exists: the first log line
    calls [newText.substring]. *)
Theorem updateTodo_edits_or_refuses :
  forall id newText newDescription m w,
    (forall todo s,
        Array_find (todo_is id) (TodoManager.todos m) = Some todo ->
        newText = JStr s -> accepted MAX_TODO_LENGTH s ->
        exists m' w',
          TodoManager.updateTodo id newText newDescription (m, w)
          = (unless_rejected w true "Failed to update todo", (m', w'))
          /\ TodoManager.todos m'
             = replace_first (todo_is id)
                 (TodoItem.mk (TodoItem.id todo) (trim s)
                    (TodoItem.groupId todo) (TodoItem.completed todo)
                    (js_or newDescription (JStr []))
                    (TodoItem.createdAt todo)
                    (iso (clock (host w) (1 + clock_reads w))))
                 (TodoManager.todos m)
          /\ TodoManager.groups m' = TodoManager.groups m)
    /\ (forall todo s,
        Array_find (todo_is id) (TodoManager.todos m) = Some todo ->
        newText = JStr s -> refused MAX_TODO_LENGTH newText ->
        exists message,
          TodoManager.updateTodo id newText newDescription (m, w)
          = (Throw (TodoValidationError message), (m, w)))
    /\ (typeof newText <> TypeString ->
        TodoManager.updateTodo id newText newDescription (m, w)
        = (Throw (StorageError "Failed to update todo"), (m, w))).
Proof.
  intros id newText newDescription m w. split; [|split].
  - intros todo s Hfind -> Hs.
    destruct (updateTodo_run id s newDescription m w todo Hfind Hs)
      as [w' Hrun].
    eexists. exists w'. split; [exact Hrun|]. split; reflexivity.
  - intros todo s Hfind -> Hr. now apply updateTodo_refused with todo.
  - apply updateTodo_not_a_string.
Qed.

Lemma updateTodo_edits_or_refuses_witness :
  (accepted MAX_TODO_LENGTH (lit " Buy oat milk ")
   /\ exists m' w',
        TodoManager.updateTodo (JStr (lit "t1")) (JStr (lit " Buy oat milk "))
          JNull (milk_manager, fresh_world ticking_host Absent Absent)
        = (Return true, (m', w'))
        /\ List.map TodoItem.text (TodoManager.todos m')
           = [lit "Buy oat milk"]
        /\ List.map TodoItem.description (TodoManager.todos m') = [JStr []]
        /\ List.map TodoItem.updatedAt (TodoManager.todos m')
           = [lit "2024-05-01T09:00:00.001Z"])
  /\ (refused MAX_TODO_LENGTH (JStr [])
      /\ exists message,
           TodoManager.updateTodo (JStr (lit "t1")) (JStr []) JNull
             (milk_manager, fresh_world ticking_host Absent Absent)
           = (Throw (TodoValidationError message),
              (milk_manager, fresh_world ticking_host Absent Absent)))
  /\ (typeof JNull <> TypeString
      /\ TodoManager.updateTodo (JStr (lit "t1")) JNull JNull
           (milk_manager, fresh_world ticking_host Absent Absent)
         = (Throw (StorageError "Failed to update todo"),
            (milk_manager, fresh_world ticking_host Absent Absent))).
Proof.
  assert (Hs : accepted MAX_TODO_LENGTH (lit " Buy oat milk "))
    by (vm_compute; split; lia).
  assert (Hr : refused MAX_TODO_LENGTH (JStr [])) by (left; reflexivity).
  assert (Hn : typeof JNull <> TypeString) by discriminate.
  split; [split; [exact Hs|]|split; [split; [exact Hr|]|split; [exact Hn|]]].
  - destruct (proj1 (updateTodo_edits_or_refuses (JStr (lit "t1"))
                       (JStr (lit " Buy oat milk ")) JNull milk_manager
                       (fresh_world ticking_host Absent Absent))
                milk_todo (lit " Buy oat milk ") eq_refl eq_refl Hs)
      as [m' [w' [Hrun [Htodos _]]]].
    exists m', w'. split; [exact Hrun|]. rewrite Htodos.
    repeat split.
  - apply (proj1 (proj2 (updateTodo_edits_or_refuses (JStr (lit "t1"))
                           (JStr []) JNull milk_manager
                           (fresh_world ticking_host Absent Absent)))
             milk_todo [] eq_refl eq_refl Hr).
  - apply (proj2 (proj2 (updateTodo_edits_or_refuses (JStr (lit "t1"))
                           JNull JNull milk_manager
                           (fresh_world ticking_host Absent Absent))) Hn).
Defined.

(** ** Filters and counts *)

Lemma filter_filter_comm {A} (p q : A -> bool) xs :
  filter p (filter q xs) = filter q (filter p xs).
Proof.
  induction xs as [|x r IH]; simpl; [reflexivity|].
  destruct (p x) eqn:Ep, (q x) eqn:Eq; simpl; rewrite ?Ep, ?Eq, IH;
    reflexivity.
Qed.

(** X7.  [setFilter] takes one of 'all', 'active', 'completed' and ignores
    every other value; it never touches the collections.  Under 'active'
    [getFilteredTodos] returns exactly the todos that are not completed,
    under 'completed' exactly the completed ones, under 'all' all of
    them, each time in collection order; the active and the completed
    views together have as many todos as the collection.  A new
    manager is under 'active', and a manager still under the filter it
    was constructed with shows the todos that are not completed. *)
Theorem setFilter_selects_the_view :
  forall m name,
    TodoManager.todos (TodoManager.setFilter m name) = TodoManager.todos m
    /\ TodoManager.groups (TodoManager.setFilter m name)
       = TodoManager.groups m
    /\ (is_filter_name name = false -> TodoManager.setFilter m name = m)
    /\ TodoManager.getFilteredTodos
         (TodoManager.setFilter m (JStr (lit "active")))
       = filter is_active (TodoManager.todos m)
    /\ TodoManager.getFilteredTodos
         (TodoManager.setFilter m (JStr (lit "completed")))
       = filter TodoItem.completed (TodoManager.todos m)
    /\ TodoManager.getFilteredTodos
         (TodoManager.setFilter m (JStr (lit "all")))
       = TodoManager.todos m
    /\ List.length (TodoManager.getFilteredTodos
                      (TodoManager.setFilter m (JStr (lit "active"))))
       + List.length (TodoManager.getFilteredTodos
                        (TodoManager.setFilter m (JStr (lit "completed"))))
       = List.length (TodoManager.todos m)
    /\ TodoManager.currentFilter TodoManager.constructor
       = JStr (lit "active")
    /\ (TodoManager.currentFilter m
        = TodoManager.currentFilter TodoManager.constructor ->
        TodoManager.getFilteredTodos m
        = filter is_active (TodoManager.todos m)).
Proof.
  intros m f.
  assert (Hkeep : TodoManager.todos (TodoManager.setFilter m f)
                  = TodoManager.todos m
                  /\ TodoManager.groups (TodoManager.setFilter m f)
                     = TodoManager.groups m).
  { unfold TodoManager.setFilter. fold (is_filter_name f).
    destruct (is_filter_name f); split; reflexivity. }
  destruct Hkeep as [H1 H2].
  split; [exact H1|]. split; [exact H2|]. split.
  { intros H. unfold TodoManager.setFilter. fold (is_filter_name f).
    now rewrite H. }
  split; [reflexivity|]. split; [reflexivity|]. split; [reflexivity|].
  split.
  { change (List.length (filter is_active (TodoManager.todos m))
            + List.length (filter TodoItem.completed (TodoManager.todos m))
            = List.length (TodoManager.todos m)).
    symmetry. apply (filter_partition_length TodoItem.completed). }
  split; [reflexivity|].
  intros Hnew. unfold TodoManager.getFilteredTodos. rewrite Hnew.
  reflexivity.
Qed.

Lemma setFilter_selects_the_view_witness :
  is_filter_name (JStr (lit "done")) = false
  /\ TodoManager.setFilter milk_manager (JStr (lit "done")) = milk_manager
  /\ TodoManager.currentFilter (with_todos [milk_todo] TodoManager.constructor)
     = TodoManager.currentFilter TodoManager.constructor
  /\ TodoManager.getFilteredTodos
       (with_todos [milk_todo] TodoManager.constructor)
     = [milk_todo].
Proof.
  split; [reflexivity|]. split; [|split; [reflexivity|]].
  - apply (proj1 (proj2 (proj2 (setFilter_selects_the_view milk_manager
                                  (JStr (lit "done"))))) eq_refl).
  - apply (proj2 (proj2 (proj2 (proj2 (proj2 (proj2 (proj2 (proj2
             (setFilter_selects_the_view
                (with_todos [milk_todo] TodoManager.constructor)
                (JStr (lit "done")))))))))) eq_refl).
Defined.

(** X8.  [getStats] counts the whole collection, whatever the filter:
    [total] is the number of todos, [completed] the number of completed
    ones, [active] the number of the others (computed as a difference),
    so the two add up to the total and agree with the sizes of the
    'active' and 'completed' views. *)
Theorem getStats_counts_the_collection :
  forall m name,
    let stats := TodoManager.getStats m in
    TodoManager.total stats = List.length (TodoManager.todos m)
    /\ TodoManager.completed stats
       = List.length (filter TodoItem.completed (TodoManager.todos m))
    /\ TodoManager.active stats
       = List.length (filter is_active (TodoManager.todos m))
    /\ TodoManager.active stats + TodoManager.completed stats
       = TodoManager.total stats
    /\ TodoManager.active stats
       = List.length (TodoManager.getFilteredTodos
                        (TodoManager.setFilter m (JStr (lit "active"))))
    /\ TodoManager.getStats (TodoManager.setFilter m name) = stats.
Proof.
  intros m f stats.
  assert (Hsum := filter_partition_length TodoItem.completed
                    (TodoManager.todos m)).
  assert (Hactive : TodoManager.active stats
                    = List.length (filter is_active (TodoManager.todos m))).
  { unfold stats, TodoManager.getStats, is_active. simpl.
    change (fun todo => TodoItem.completed todo) with TodoItem.completed.
    lia. }
  split; [reflexivity|]. split; [reflexivity|]. split; [exact Hactive|].
  split.
  { rewrite Hactive. unfold stats, TodoManager.getStats, is_active. simpl.
    change (fun todo => TodoItem.completed todo) with TodoItem.completed.
    lia. }
  split; [exact Hactive|].
  unfold stats, TodoManager.getStats, TodoManager.setFilter.
  destruct (negb _); reflexivity.
Qed.

(** X9.  After [clearCompleted] the counts are: no completed todo, as many
    active ones as before, and a total equal to the former active
    count. *)
Theorem clearCompleted_then_getStats :
  forall m w,
  exists r m' w',
    TodoManager.clearCompleted (m, w) = (r, (m', w'))
    /\ TodoManager.completed (TodoManager.getStats m') = 0
    /\ TodoManager.active (TodoManager.getStats m')
       = TodoManager.active (TodoManager.getStats m)
    /\ TodoManager.total (TodoManager.getStats m')
       = TodoManager.active (TodoManager.getStats m).
Proof.
  intros m w.
  destruct (clearCompleted_run m w) as [w' [Hrun _]].
  eexists. eexists. exists w'. split; [exact Hrun|].
  assert (Hsum := filter_partition_length TodoItem.completed
                    (TodoManager.todos m)).
  unfold TodoManager.getStats. simpl.
  rewrite filter_completed_of_active. simpl.
  change (fun todo => TodoItem.completed todo) with TodoItem.completed.
  change (fun t => negb (TodoItem.completed t))
    with (fun x => negb (TodoItem.completed x)) in *.
  repeat split; lia.
Qed.

(** X10.  The todos a column shows, [getFilteredTodosForGroup] of
    [getTodosForGroup(group.id)], are the todos of the manager's filtered
    view that belong to the group: selecting by group and selecting by
    the filter commute. *)
Theorem column_shows_the_filtered_todos_of_the_group :
  forall m groupId,
    TodoUI.getFilteredTodosForGroup m (TodoManager.getTodosForGroup m groupId)
    = filter (in_group groupId) (TodoManager.getFilteredTodos m).
Proof.
  intros m groupId.
  unfold TodoUI.getFilteredTodosForGroup, TodoManager.getFilteredTodos,
    TodoManager.getTodosForGroup.
  fold (in_group groupId).
  destruct (strict_equals (TodoManager.currentFilter m) (JStr (lit "active")));
    [apply filter_filter_comm|].
  destruct (strict_equals (TodoManager.currentFilter m)
              (JStr (lit "completed")));
    [apply filter_filter_comm|reflexivity].
Qed.

(** ** The todos of a group *)

Lemma filter_false {A} (p q : A -> bool) xs :
  (forall x, p x = true -> q x = false) -> filter p (filter q xs) = [].
Proof.
  intros H. induction xs as [|x r IH]; simpl; [reflexivity|].
  destruct (q x) eqn:Eq; simpl; [|exact IH].
  destruct (p x) eqn:Ep; [|exact IH]. rewrite (H x Ep) in Eq. discriminate.
Qed.

Lemma filter_true {A} (p q : A -> bool) xs :
  (forall x, p x = true -> q x = true) ->
  filter p (filter q xs) = filter p xs.
Proof.
  intros H. induction xs as [|x r IH]; simpl; [reflexivity|].
  destruct (q x) eqn:Eq; simpl.
  - destruct (p x); now rewrite IH.
  - destruct (p x) eqn:Ep; [|exact IH]. rewrite (H x Ep) in Eq. discriminate.
Qed.

(** X11.  [removeGroup] cascades to the todos of that group and to no other:
    afterwards [getTodosForGroup] is empty for the removed id and, for
    every id that is not strictly equal to it, returns what it returned
    before. *)
Theorem removeGroup_deletes_only_the_todos_of_that_group :
  forall groupId m w,
    some_match (group_is groupId) (TodoManager.groups m) ->
    exists r m' w',
      TodoManager.removeGroup groupId (m, w) = (r, (m', w'))
      /\ TodoManager.getTodosForGroup m' groupId = []
      /\ (forall other,
             strict_equals other groupId = false ->
             TodoManager.getTodosForGroup m' other
             = TodoManager.getTodosForGroup m other).
Proof.
  intros groupId m w Hknown.
  destruct (first_match _ _ Hknown) as [before [g [after [Hgs [Hg Hb]]]]].
  destruct (removeGroup_run groupId m w before g after Hgs Hg Hb)
    as [w' Hrun].
  eexists. eexists. exists w'. split; [exact Hrun|].
  unfold TodoManager.getTodosForGroup. simpl. split.
  - apply filter_false. intros t Ht. now rewrite Ht.
  - intros other Hother. apply filter_true. intros t Ht.
    destruct (strict_equals (TodoItem.groupId t) groupId) eqn:E;
      [|reflexivity].
    rewrite (strict_equals_euclid _ _ _ Ht E) in Hother. discriminate.
Qed.

Lemma removeGroup_deletes_only_the_todos_of_that_group_witness :
  some_match (group_is (JStr (lit "g2")))
             (TodoManager.groups two_group_manager)
  /\ exists r m' w',
       TodoManager.removeGroup (JStr (lit "g2"))
         (two_group_manager, fresh_world ticking_host Absent Absent)
       = (r, (m', w'))
       /\ TodoManager.getTodosForGroup m' (JStr (lit "g2")) = []
       /\ TodoManager.getTodosForGroup m' (JStr (lit "g1")) = [milk_todo].
Proof.
  assert (H : some_match (group_is (JStr (lit "g2")))
                (TodoManager.groups two_group_manager)).
  { exists home_group. split; [right; now left|reflexivity]. }
  split; [exact H|].
  destruct (removeGroup_deletes_only_the_todos_of_that_group (JStr (lit "g2"))
              two_group_manager (fresh_world ticking_host Absent Absent) H)
    as [r [m' [w' [Hrun [Hgone Hkept]]]]].
  exists r, m', w'. split; [exact Hrun|]. split; [exact Hgone|].
  rewrite (Hkept (JStr (lit "g1")) eq_refl). reflexivity.
Defined.

(** X12.  After a successful [addTodo] the new todo is the last of its
    group's
    todos, and the todos of every other group are as before. *)
Theorem addTodo_extends_only_its_group :
  forall s g m w,
    accepted MAX_TODO_LENGTH s -> g <> [] ->
    some_match (group_is (JStr g)) (TodoManager.groups m) ->
    exists r todo m' w',
      TodoManager.addTodo (JStr s) (JStr g) (m, w) = (r, (m', w'))
      /\ TodoItem.text todo = trim s
      /\ TodoManager.getTodosForGroup m' (JStr g)
         = TodoManager.getTodosForGroup m (JStr g) ++ [todo]
      /\ (forall other,
             strict_equals (JStr g) other = false ->
             TodoManager.getTodosForGroup m' other
             = TodoManager.getTodosForGroup m other).
Proof.
  intros s g m w Hs Hg Hknown.
  destruct (addTodo_run s g m w Hs Hg Hknown) as [w' [Hrun _]].
  eexists. exists (new_todo w s g). eexists. exists w'.
  split; [exact Hrun|]. split; [reflexivity|].
  unfold TodoManager.getTodosForGroup.
  cbn [TodoManager.todos with_todos]. split.
  - rewrite filter_app. cbn [filter].
    change (TodoItem.groupId (new_todo w s g)) with (JStr g).
    cbn [strict_equals]. now rewrite string_eqb_refl.
  - intros other Hother. rewrite filter_app. cbn [filter].
    change (TodoItem.groupId (new_todo w s g)) with (JStr g).
    rewrite Hother. apply app_nil_r.
Qed.

Lemma addTodo_extends_only_its_group_witness :
  accepted MAX_TODO_LENGTH (lit "Call mum")
  /\ exists r todo m' w',
       TodoManager.addTodo (JStr (lit "Call mum")) (JStr (lit "g2"))
         (two_group_manager, fresh_world ticking_host Absent Absent)
       = (r, (m', w'))
       /\ TodoItem.text todo = lit "Call mum"
       /\ TodoManager.getTodosForGroup m' (JStr (lit "g2")) = [todo]
       /\ TodoManager.getTodosForGroup m' (JStr (lit "g1")) = [milk_todo].
Proof.
  assert (Hs : accepted MAX_TODO_LENGTH (lit "Call mum"))
    by (vm_compute; split; lia).
  split; [exact Hs|].
  assert (Hg : lit "g2" <> []) by discriminate.
  assert (Hk : some_match (group_is (JStr (lit "g2")))
                 (TodoManager.groups two_group_manager)).
  { exists home_group. split; [right; now left|reflexivity]. }
  destruct (addTodo_extends_only_its_group (lit "Call mum") (lit "g2")
              two_group_manager (fresh_world ticking_host Absent Absent)
              Hs Hg Hk)
    as [r [todo [m' [w' [Hrun [Htext [Hown Hothers]]]]]]].
  exists r, todo, m', w'. split; [exact Hrun|]. split; [exact Htext|].
  split; [exact Hown|].
  rewrite (Hothers (JStr (lit "g1")) eq_refl). reflexivity.
Defined.

(** ** getGroups *)

Lemma sort_insert_perm x xs :
  Permutation (sort_insert TodoManager.by_position x xs) (x :: xs).
Proof.
  induction xs as [|y r IH]; simpl; [apply Permutation_refl|].
  destruct (num_positive (TodoManager.by_position x y)).
  - eapply Permutation_trans; [apply perm_skip, IH|apply perm_swap].
  - apply Permutation_refl.
Qed.

Lemma Array_sort_perm gs :
  Permutation (Array_sort TodoManager.by_position gs) gs.
Proof.
  unfold Array_sort. induction gs as [|x r IH]; simpl; [constructor|].
  eapply Permutation_trans; [apply sort_insert_perm|now apply perm_skip].
Qed.

(** X13.  [getGroups] returns the groups of the manager, each one once, and
    leaves the array alone; as long as no position is NaN (none is,
    after [Number(position) || 0]) they come in ascending position
    order, and an array that already is in that order comes back as it
    is, groups with equal positions included. *)
Theorem getGroups_sorts_a_copy :
  forall m,
    Permutation (TodoManager.getGroups m) (TodoManager.groups m)
    /\ (Forall regular (TodoManager.groups m) ->
        ascending (TodoManager.getGroups m))
    /\ (ascending (TodoManager.groups m) ->
        TodoManager.getGroups m = TodoManager.groups m).
Proof.
  intros m. split; [apply Array_sort_perm|]. split.
  - intros H. now apply Array_sort_is_ascending.
  - apply Array_sort_ascending.
Qed.

Lemma getGroups_sorts_a_copy_witness :
  Forall regular (TodoManager.groups (fst loaded_shuffled))
  /\ ascending (TodoManager.getGroups (fst loaded_shuffled))
  /\ ascending (TodoManager.groups two_group_manager)
  /\ TodoManager.getGroups two_group_manager
     = TodoManager.groups two_group_manager.
Proof.
  assert (H1 : Forall regular (TodoManager.groups (fst loaded_shuffled))).
  { vm_compute. repeat constructor; discriminate. }
  assert (H2 : ascending (TodoManager.groups two_group_manager))
    by repeat constructor.
  split; [exact H1|]. split; [|split; [exact H2|]].
  - apply (proj1 (proj2 (getGroups_sorts_a_copy (fst loaded_shuffled))) H1).
  - apply (proj2 (proj2 (getGroups_sorts_a_copy two_group_manager)) H2).
Defined.

(** ** Loading *)

Lemma quiet_refl w : quiet w w.
Proof. exists 0, 0, 0. now rewrite advance_0. Qed.

Lemma quiet_trans w1 w2 w3 : quiet w1 w2 -> quiet w2 w3 -> quiet w1 w3.
Proof.
  intros [a [b [c ->]]] [a' [b' [c' ->]]].
  rewrite advance_advance. now do 3 eexists.
Qed.

Lemma quiet_advance a b c w : quiet w (advance a b c w).
Proof. now exists a, b, c. Qed.

Lemma quiet_frame w w' :
  quiet w w' ->
  host w' = host w /\ gets w' = gets w /\ sets w' = sets w
  /\ stored_groups w' = stored_groups w /\ stored_todos w' = stored_todos w.
Proof. intros [a [b [c ->]]]. repeat split. Qed.

Lemma acceptedb_spec cap s : acceptedb cap s = true <-> accepted cap s.
Proof.
  unfold acceptedb, accepted. rewrite andb_true_iff, negb_true_iff.
  rewrite Nat.eqb_neq, Nat.leb_le. lia.
Qed.

Lemma acceptedb_refused cap s : acceptedb cap s = false -> refused cap (JStr s).
Proof.
  intros H. simpl.
  destruct (Nat.eq_dec (List.length (trim s)) 0) as [E|E]; [now left|].
  destruct (Nat.lt_ge_cases cap (List.length (trim s))) as [L|L];
    [now right|].
  assert (Ha : acceptedb cap s = true) by (apply acceptedb_spec; split; lia).
  congruence.
Qed.

Lemma convertibleb_spec v : convertibleb v = true <-> convertible v.
Proof.
  destruct v as [| |b|n|s|k|r [n|] p]; simpl; split; intros H;
    try reflexivity; try exact I; try discriminate; try contradiction.
Qed.

Lemma convertibleb_default v :
  convertibleb (default_arg (JNum num_zero) v) = convertibleb v.
Proof. now destruct v. Qed.

Lemma TodoGroup_constructor_quiet name position id w r w' :
  TodoGroup.constructor name position id w = (r, w') -> quiet w w'.
Proof.
  intros H.
  destruct (refused_or_accepted MAX_GROUP_NAME_LENGTH name)
    as [Hr|[s [-> Hs]]].
  - destruct (TodoGroup_constructor_refuses name position id w Hr)
      as [msg Hmsg].
    rewrite Hmsg in H. injection H as _ <-. apply quiet_refl.
  - destruct (ToNumber (host w)
                (default_arg (JNum num_zero) position)) as [n|] eqn:Hn.
    + rewrite (TodoGroup_constructor_run s position id w n Hs Hn) in H.
      destruct (ToBoolean id); injection H as _ <-; apply quiet_advance.
    + unfold TodoGroup.constructor in H.
      rewrite (bind_return _ _ _ _ _ (validateName_accepts World s w Hs))
        in H.
      destruct (default_null_truthy id) as [Ht Hid]. rewrite Ht in H.
      destruct (ToBoolean id) eqn:E.
      * rewrite bind_ret in H. unfold bind at 1 in H.
        unfold method_trim at 1, ret at 1 in H.
        rewrite (bind_throw _ _ _ _ _ (Number_or_0_throws _ _ Hn)) in H.
        injection H as _ <-. apply quiet_refl.
      * unfold bind at 1 in H. unfold TodoGroup.generateId in H.
        unfold bind at 1 in H.
        unfold now_base36, bind at 1, read_clock at 1 in H.
        unfold ret at 1 in H. unfold bind at 1 in H.
        unfold random_suffix at 1 in H. unfold ret at 1 in H.
        unfold bind at 1 in H. unfold method_trim at 1, ret at 1 in H.
        unfold bind at 1 in H.
        match type of H with
        | context [Number_or_0 _ ?x] =>
            change x with (advance 1 1 0 w) in H
        end.
        rewrite (Number_or_0_throws _ (advance 1 1 0 w) Hn) in H.
        injection H as _ <-. apply quiet_advance.
Qed.

Lemma loadGroup_run v w :
  exists r w',
    TodoManager.loadGroup v w = (Return r, w')
    /\ quiet w w'
    /\ (if loads_as_group v
        then exists g, r = Some g /\ group_loaded_from (host w) v g
        else r = None).
Proof.
  unfold TodoManager.loadGroup, try_catch, TodoGroup.fromJSON.
  destruct v as [| |b|n|s|k|ref number props];
    try (exists None, w; split; [reflexivity|split; [apply quiet_refl|]];
         reflexivity);
    try (exists None, w; split;
         [simpl; try destruct b; try destruct (num_truthy n);
          try destruct s; reflexivity
         |split; [apply quiet_refl|reflexivity]]).
  set (data := JObject ref number props).
  change (ToBoolean data) with true. change (typeof data) with TypeObject.
  cbn [negb orb type_eqb].
  unfold loads_as_group. change (is_record data) with true.
  cbn [andb].
  destruct (TodoGroup.constructor (Get data "name") (Get data "position")
              (Get data "id") w) as [r w'] eqn:Hrun.
  pose proof (TodoGroup_constructor_quiet _ _ _ _ _ _ Hrun) as Hq.
  destruct (refused_or_accepted MAX_GROUP_NAME_LENGTH (Get data "name"))
    as [Hr|[s [Hname Hs]]].
  - destruct (TodoGroup_constructor_refuses _ (Get data "position")
                (Get data "id") w Hr) as [msg Hmsg].
    rewrite Hmsg in Hrun. injection Hrun as <- <-.
    exists None, w. unfold bind. rewrite Hmsg.
    split; [reflexivity|]. split; [apply quiet_refl|].
    destruct (Get data "name") as [| |b|n|s|k|r' n' p'] eqn:E;
      try reflexivity.
    destruct (acceptedb MAX_GROUP_NAME_LENGTH s) eqn:Ea; [|reflexivity].
    apply acceptedb_spec in Ea. destruct Ea as [E1 E2]. simpl in Hr. lia.
  - rewrite Hname in *. rewrite (proj2 (acceptedb_spec _ _) Hs).
    cbn [andb].
    destruct (ToNumber (host w)
                (default_arg (JNum num_zero) (Get data "position")))
      as [n|] eqn:Hn.
    + assert (Hc : convertibleb (Get data "position") = true).
      { rewrite <- convertibleb_default. apply convertibleb_spec.
        apply (convertible_ToNumber (host w)). now exists n. }
      rewrite Hc.
      rewrite (TodoGroup_constructor_run s _ (Get data "id") w n Hs Hn)
        in Hrun.
      destruct (ToBoolean (Get data "id")) eqn:Eid;
        injection Hrun as <- <-;
        (eexists; eexists; unfold bind;
         rewrite (TodoGroup_constructor_run s _ (Get data "id") w n Hs Hn),
           Eid;
         split; [reflexivity|]; split; [apply quiet_advance|];
         eexists; split; [reflexivity|]);
        (split; [exists s; split; [exact Hname|reflexivity]|]);
        (split; [exists n; split; [exact Hn|reflexivity]|]);
        (split; [intros Hid; first [reflexivity|congruence]|]);
        unfold group_ok; cbn [TodoGroup.id TodoGroup.name TodoGroup.position];
        (split; [try exact Eid; reflexivity|]);
        (split; [now apply accepted_trim|]);
        (split; [apply trim_idem|apply or_zero_idem]).
    + assert (Hc : convertibleb (Get data "position") = false).
      { rewrite <- convertibleb_default.
        destruct (convertibleb
                    (default_arg (JNum num_zero) (Get data "position")))
          eqn:E; [|reflexivity].
        apply convertibleb_spec in E.
        apply (convertible_ToNumber (host w)) in E. destruct E as [n E].
        congruence. }
      rewrite Hc.
      destruct (TodoGroup_constructor_position_throws s
                  (Get data "position") (Get data "id") w Hs Hn)
        as [w'' Hthrow].
      rewrite Hthrow in Hrun. injection Hrun as <- <-.
      exists None, w''. unfold bind. rewrite Hthrow.
      split; [reflexivity|]. split; [exact Hq|reflexivity].
Qed.

Lemma loadTodo_run v w :
  exists r w',
    TodoManager.loadTodo v w = (Return r, w')
    /\ quiet w w'
    /\ (if loads_as_todo v
        then exists t, r = Some t /\ todo_loaded_from v t
        else r = None).
Proof.
  unfold TodoManager.loadTodo, try_catch, TodoItem.fromJSON.
  destruct v as [| |b|n|s|k|ref number props];
    try (exists None, w; split; [reflexivity|split; [apply quiet_refl|]];
         reflexivity);
    try (exists None, w; split;
         [simpl; try destruct b; try destruct (num_truthy n);
          try destruct s; reflexivity
         |split; [apply quiet_refl|reflexivity]]).
  set (data := JObject ref number props).
  change (ToBoolean data) with true. change (typeof data) with TypeObject.
  cbn [negb orb type_eqb].
  unfold loads_as_todo. change (is_record data) with true.
  cbn [andb].
  destruct (refused_or_accepted MAX_TODO_LENGTH (Get data "text"))
    as [Hr|[s [Htext Hs]]].
  - destruct (TodoItem_constructor_refuses _ (Get data "groupId")
                (Get data "completed")
                (js_or (Get data "description") (JStr []))
                (Get data "id") w Hr) as [msg Hmsg].
    exists None, w. unfold bind. rewrite Hmsg.
    split; [reflexivity|]. split; [apply quiet_refl|].
    destruct (Get data "text") as [| |b|n|s|k|r' n' p'] eqn:E;
      try reflexivity.
    destruct (acceptedb MAX_TODO_LENGTH s) eqn:Ea; [|reflexivity].
    apply acceptedb_spec in Ea. destruct Ea as [E1 E2]. simpl in Hr. lia.
  - rewrite Htext. rewrite (proj2 (acceptedb_spec _ _) Hs). cbn [andb].
    destruct (validateGroupId_cases World (Get data "groupId") w)
      as [[msg Hmsg]|[g [Hgroup Hg]]].
    + exists None, w. unfold bind at 1. unfold TodoItem.constructor.
      rewrite (bind_return _ _ _ _ _ (validateText_accepts World s w Hs)).
      rewrite (bind_throw _ _ _ _ _ Hmsg).
      split; [reflexivity|]. split; [apply quiet_refl|].
      destruct (Get data "groupId") as [| |b|n|g|k|r' n' p'] eqn:E;
        try reflexivity.
      destruct g; [reflexivity|].
      unfold TodoItem.validateGroupId in Hmsg. simpl in Hmsg.
      discriminate Hmsg.
    + rewrite Hgroup.
      assert (Hne : negb (Nat.eqb (List.length g) 0) = true)
        by (destruct g; [congruence|reflexivity]).
      rewrite Hne.
      assert (Hc : forall x, ToBoolean (default_arg (JBool false) x)
                             = ToBoolean x) by (intros []; reflexivity).
      assert (Hd : forall x,
                 js_or (default_arg (JStr []) (js_or x (JStr []))) (JStr [])
                 = js_or x (JStr [])).
      { intros x. unfold js_or. destruct (ToBoolean x) eqn:E.
        - destruct x; try discriminate; simpl in *; now rewrite ?E.
        - reflexivity. }
      unfold bind.
      rewrite (TodoItem_constructor_run s g _ _ _ w Hs Hg).
      destruct (ToBoolean (Get data "id")) eqn:Eid;
        eexists; eexists;
        (split; [reflexivity|]); (split; [apply quiet_advance|]);
        (eexists; split; [reflexivity|]);
        unfold todo_loaded_from;
        cbn [TodoItem.id TodoItem.text TodoItem.groupId TodoItem.completed
             TodoItem.description];
        rewrite Hc, Hd;
        (split; [exists s; split; [exact Htext|reflexivity]|]);
        (split; [now rewrite Hgroup|]);
        (split; [reflexivity|]); (split; [reflexivity|]);
        intros Hid; first [reflexivity|congruence].
Qed.

(** What [records.map(load).filter(x => x !== null)] keeps of the
    records: those that pass [keeps], in their order, each loaded as
    [loaded_from] says. *)
Lemma load_all {A} (load : JsValue -> M World (option A))
      (keeps : JsValue -> bool) (loaded_from : Host -> JsValue -> A -> Prop) :
  (forall v w,
      exists r w',
        load v w = (Return r, w') /\ quiet w w'
        /\ (if keeps v then exists a, r = Some a /\ loaded_from (host w) v a
            else r = None)) ->
  forall items w,
  exists rs w',
    mapM load items w = (Return rs, w') /\ quiet w w'
    /\ Forall2 (loaded_from (host w)) (filter keeps items)
               (TodoManager.filter_not_null rs).
Proof.
  intros Hload. induction items as [|v r IH]; intros w; simpl.
  - exists [], w. split; [reflexivity|]. split; [apply quiet_refl|constructor].
  - destruct (Hload v w) as [x [w1 [Hrun [Hq1 Hx]]]].
    destruct (IH w1) as [rs [w2 [Hrest [Hq2 Hall]]]].
    destruct (quiet_frame _ _ Hq1) as [Hhost _]. rewrite Hhost in Hall.
    exists (x :: rs), w2. split.
    + rewrite (bind_return _ _ _ _ _ Hrun).
      rewrite (bind_return _ _ _ _ _ Hrest). reflexivity.
    + split; [eapply quiet_trans; eauto|].
      destruct (keeps v).
      * destruct Hx as [a [-> Ha]]. simpl. now constructor.
      * subst x. simpl. exact Hall.
Qed.

Lemma storage_get_run key w :
  storage_get key w
  = (if get_fulfilled (host w) (gets w)
     then Return (match key with
                  | GROUPS_STORAGE_KEY => stored_groups w
                  | STORAGE_KEY => stored_todos w
                  end)
     else Throw HostError,
     {| host := host w; clock_reads := clock_reads w;
        random_draws := random_draws w; gets := S (gets w);
        sets := sets w; next_ref := next_ref w;
        stored_groups := stored_groups w;
        stored_todos := stored_todos w |}).
Proof.
  unfold storage_get. destruct (get_fulfilled (host w) (gets w)); reflexivity.
Qed.

Lemma loadGroups_fulfilled m w items :
  get_fulfilled (host w) (gets w) = true ->
  stored_groups w = StoredArray items ->
  exists gs w',
    TodoManager.loadGroups (m, w) = (Return tt, (with_groups gs m, w'))
    /\ Forall2 (group_loaded_from (host w))
               (filter loads_as_group items) gs
    /\ sets w' = sets w
    /\ stored_groups w' = stored_groups w
    /\ stored_todos w' = stored_todos w.
Proof.
  intros Hget Hstored.
  set (w0 := {| host := host w; clock_reads := clock_reads w;
                random_draws := random_draws w; gets := S (gets w);
                sets := sets w; next_ref := next_ref w;
                stored_groups := stored_groups w;
                stored_todos := stored_todos w |}).
  destruct (load_all TodoManager.loadGroup loads_as_group group_loaded_from
              loadGroup_run items w0) as [rs [w' [Hrun [Hq Hall]]]].
  destruct (quiet_frame _ _ Hq) as [_ [_ [Hsets [Hsg Hst]]]].
  exists (TodoManager.filter_not_null rs), w'.
  split; [|repeat split; assumption].
  unfold TodoManager.loadGroups. apply try_catch_return.
  rewrite bind_host_call, storage_get_run, Hget.
  cbv beta iota. fold w0. rewrite Hstored.
  unfold array_or_empty. rewrite bind_ret.
  rewrite bind_host_call, Hrun. reflexivity.
Qed.

Lemma loadTodos_fulfilled m w items :
  get_fulfilled (host w) (gets w) = true ->
  stored_todos w = StoredArray items ->
  exists ts w',
    TodoManager.loadTodos (m, w) = (Return tt, (with_todos ts m, w'))
    /\ Forall2 todo_loaded_from (filter loads_as_todo items) ts
    /\ sets w' = sets w
    /\ stored_groups w' = stored_groups w
    /\ stored_todos w' = stored_todos w.
Proof.
  intros Hget Hstored.
  set (w0 := {| host := host w; clock_reads := clock_reads w;
                random_draws := random_draws w; gets := S (gets w);
                sets := sets w; next_ref := next_ref w;
                stored_groups := stored_groups w;
                stored_todos := stored_todos w |}).
  destruct (load_all TodoManager.loadTodo loads_as_todo
              (fun _ => todo_loaded_from) loadTodo_run items w0)
    as [rs [w' [Hrun [Hq Hall]]]].
  destruct (quiet_frame _ _ Hq) as [_ [_ [Hsets [Hsg Hst]]]].
  exists (TodoManager.filter_not_null rs), w'.
  split; [|repeat split; assumption].
  unfold TodoManager.loadTodos. apply try_catch_return.
  rewrite bind_host_call, storage_get_run, Hget.
  cbv beta iota. fold w0. rewrite Hstored.
  unfold array_or_empty. rewrite bind_ret.
  rewrite bind_host_call, Hrun. reflexivity.
Qed.

(** X14.  [loadGroups] is best effort.  When the read is fulfilled and the
    key
    holds an array, it keeps exactly the records that are objects with an
    accepted name and a position [Number] converts, in their stored
    order, each as a group that satisfies the constructor's guarantees
    and has the record's id if that is truthy; every other record is
    dropped and the load still completes.  It only reads: nothing is
    written and the todos are not touched.  When the read is rejected,
    or the key holds a truthy value that is not an array, it ends in its
    [StorageError] and the manager is as it was. *)
Theorem loadGroups_keeps_the_valid_records :
  forall m w,
    (forall items,
        get_fulfilled (host w) (gets w) = true ->
        stored_groups w = StoredArray items ->
        exists m' w',
          TodoManager.loadGroups (m, w) = (Return tt, (m', w'))
          /\ Forall2 (group_loaded_from (host w))
                     (filter loads_as_group items) (TodoManager.groups m')
          /\ TodoManager.todos m' = TodoManager.todos m
          /\ sets w' = sets w
          /\ stored_groups w' = stored_groups w
          /\ stored_todos w' = stored_todos w)
    /\ (get_fulfilled (host w) (gets w) = false ->
        exists w',
          TodoManager.loadGroups (m, w)
          = (Throw (StorageError "Failed to load groups from storage"),
             (m, w')))
    /\ (forall v,
        stored_groups w = StoredOther v -> ToBoolean v = true ->
        exists w',
          TodoManager.loadGroups (m, w)
          = (Throw (StorageError "Failed to load groups from storage"),
             (m, w'))).
Proof.
  intros m w. split; [|split].
  - intros items Hget Hstored.
    destruct (loadGroups_fulfilled m w items Hget Hstored)
      as [xs [w' [Hrun [Hall [H1 [H2 H3]]]]]].
    eexists. exists w'. split; [exact Hrun|]. repeat split; assumption.
  - intros Hget. eexists. unfold TodoManager.loadGroups, try_catch.
    rewrite bind_host_call, storage_get_run, Hget. reflexivity.
  - intros v Hstored Hv.
    destruct (get_fulfilled (host w) (gets w)) eqn:Hget; eexists;
      unfold TodoManager.loadGroups, try_catch;
      rewrite bind_host_call, storage_get_run, Hget; [|reflexivity].
    rewrite Hstored. cbv beta iota. unfold array_or_empty. rewrite Hv.
    reflexivity.
Qed.

Lemma loadGroups_keeps_the_valid_records_witness :
  exists m' w',
    TodoManager.loadGroups
      (TodoManager.constructor,
       fresh_world ticking_host
         (StoredArray [ group_record 10 "a" "Home" 1; JNull;
                        group_record 11 "b" "   " 0 ]) Absent)
    = (Return tt, (m', w'))
    /\ List.map TodoGroup.name (TodoManager.groups m') = [lit "Home"]
    /\ (exists w'',
           TodoManager.loadGroups
             (milk_manager, fresh_world offline_host shuffled_store Absent)
           = (Throw (StorageError "Failed to load groups from storage"),
              (milk_manager, w'')))
    /\ (exists w'',
           TodoManager.loadGroups
             (milk_manager,
              fresh_world ticking_host (StoredOther (JStr (lit "oops")))
                Absent)
           = (Throw (StorageError "Failed to load groups from storage"),
              (milk_manager, w''))).
Proof.
  destruct (proj1 (loadGroups_keeps_the_valid_records TodoManager.constructor
                     (fresh_world ticking_host
                        (StoredArray [ group_record 10 "a" "Home" 1; JNull;
                                       group_record 11 "b" "   " 0 ]) Absent))
              _ eq_refl eq_refl)
    as [m' [w' [Hrun [Hall _]]]].
  exists m', w'. split; [exact Hrun|]. split; [|split].
  - remember (TodoManager.groups m') as gs eqn:Egs. clear Egs.
    change (filter loads_as_group _)
      with [group_record 10 "a" "Home" 1] in Hall.
    inversion Hall as [|v g vs gs' Hg Hrest]; subst.
    inversion Hrest; subst.
    destruct Hg as [[s [Hs Hname]] _]. simpl. rewrite Hname.
    vm_compute in Hs. injection Hs as <-. reflexivity.
  - apply (proj1 (proj2 (loadGroups_keeps_the_valid_records milk_manager
                           (fresh_world offline_host shuffled_store Absent)))
             eq_refl).
  - apply (proj2 (proj2 (loadGroups_keeps_the_valid_records milk_manager
                           (fresh_world ticking_host
                              (StoredOther (JStr (lit "oops"))) Absent)))
             (JStr (lit "oops")) eq_refl eq_refl).
Defined.

(** X15.  [loadTodos] is best effort in the same way: it keeps exactly the
    records that are objects with an accepted text and a non-empty
    string as [groupId], in their stored order, with [completed] and
    [description] coerced, and drops the others.  It does not look at
    the groups: a kept todo's [groupId] need not be the id of any
    group. *)
Theorem loadTodos_keeps_the_valid_records :
  forall m w,
    (forall items,
        get_fulfilled (host w) (gets w) = true ->
        stored_todos w = StoredArray items ->
        exists m' w',
          TodoManager.loadTodos (m, w) = (Return tt, (m', w'))
          /\ Forall2 todo_loaded_from
                     (filter loads_as_todo items) (TodoManager.todos m')
          /\ TodoManager.groups m' = TodoManager.groups m
          /\ sets w' = sets w
          /\ stored_groups w' = stored_groups w
          /\ stored_todos w' = stored_todos w)
    /\ (get_fulfilled (host w) (gets w) = false ->
        exists w',
          TodoManager.loadTodos (m, w)
          = (Throw (StorageError "Failed to load todos from storage"),
             (m, w')))
    /\ (forall v,
        stored_todos w = StoredOther v -> ToBoolean v = true ->
        exists w',
          TodoManager.loadTodos (m, w)
          = (Throw (StorageError "Failed to load todos from storage"),
             (m, w'))).
Proof.
  intros m w. split; [|split].
  - intros items Hget Hstored.
    destruct (loadTodos_fulfilled m w items Hget Hstored)
      as [xs [w' [Hrun [Hall [H1 [H2 H3]]]]]].
    eexists. exists w'. split; [exact Hrun|]. repeat split; assumption.
  - intros Hget. eexists. unfold TodoManager.loadTodos, try_catch.
    rewrite bind_host_call, storage_get_run, Hget. reflexivity.
  - intros v Hstored Hv.
    destruct (get_fulfilled (host w) (gets w)) eqn:Hget; eexists;
      unfold TodoManager.loadTodos, try_catch;
      rewrite bind_host_call, storage_get_run, Hget; [|reflexivity].
    rewrite Hstored. cbv beta iota. unfold array_or_empty. rewrite Hv.
    reflexivity.
Qed.

Lemma loadTodos_keeps_the_valid_records_witness :
  exists m' w',
    TodoManager.loadTodos
      (TodoManager.constructor,
       fresh_world ticking_host Absent
         (StoredArray [ JStr (lit "junk"); loose_todo_record ]))
    = (Return tt, (m', w'))
    /\ List.map TodoItem.groupId (TodoManager.todos m') = [JStr (lit "g1")]
    /\ TodoManager.groups m' = []
    /\ (exists w'',
           TodoManager.loadTodos
             (milk_manager, fresh_world offline_host Absent Absent)
           = (Throw (StorageError "Failed to load todos from storage"),
              (milk_manager, w'')))
    /\ (exists w'',
           TodoManager.loadTodos
             (milk_manager,
              fresh_world ticking_host Absent
                (StoredOther (JNum (num_of_nat 1))))
           = (Throw (StorageError "Failed to load todos from storage"),
              (milk_manager, w''))).
Proof.
  destruct (proj1 (loadTodos_keeps_the_valid_records TodoManager.constructor
                     (fresh_world ticking_host Absent
                        (StoredArray [ JStr (lit "junk"); loose_todo_record ])))
              _ eq_refl eq_refl)
    as [m' [w' [Hrun [Hall [Hgroups _]]]]].
  exists m', w'. split; [exact Hrun|].
  split; [|split; [exact Hgroups|split]].
  - remember (TodoManager.todos m') as ts eqn:Ets. clear Ets.
    change (filter loads_as_todo _) with [loose_todo_record] in Hall.
    inversion Hall as [|v t vs ts' Ht Hrest]; subst.
    inversion Hrest; subst.
    destruct Ht as [_ [Hgroup _]]. simpl. now rewrite Hgroup.
  - apply (proj1 (proj2 (loadTodos_keeps_the_valid_records milk_manager
                           (fresh_world offline_host Absent Absent)))
             eq_refl).
  - apply (proj2 (proj2 (loadTodos_keeps_the_valid_records milk_manager
                           (fresh_world ticking_host Absent
                              (StoredOther (JNum (num_of_nat 1))))))
             (JNum (num_of_nat 1)) eq_refl eq_refl).
Defined.

(** ** Saving, then loading *)

Lemma group_records_load ref gs : forall h gs',
  Forall group_ok gs ->
  filter loads_as_group (group_records ref gs) = group_records ref gs
  /\ (Forall2 (group_loaded_from h) (group_records ref gs) gs' ->
      List.map TodoGroup.id gs' = List.map TodoGroup.id gs
      /\ List.map TodoGroup.name gs' = List.map TodoGroup.name gs
      /\ List.map TodoGroup.position gs' = List.map TodoGroup.position gs).
Proof.
  revert ref. induction gs as [|g r IH]; intros ref h gs' Hok; simpl.
  - split; [reflexivity|]. intros H. inversion H. repeat split.
  - inversion Hok as [|? ? [Hid [Hname [Htrim Hpos]]] Hrest]; subst.
    set (record := JObject ref (Some NaN) _).
    assert (Hkeep : loads_as_group record = true).
    { unfold loads_as_group.
      change (Get record "name") with (JStr (TodoGroup.name g)).
      change (Get record "position") with (JNum (TodoGroup.position g)).
      cbn [is_record convertibleb andb].
      now rewrite (proj2 (acceptedb_spec _ _) Hname). }
    rewrite Hkeep.
    destruct (IH (S ref) h (tl gs') Hrest) as [Hfilter _].
    split; [now rewrite Hfilter|].
    intros H. inversion H as [|? g' ? r' Hg Hall]; subst.
    destruct (IH (S ref) h r' Hrest) as [_ Hmaps].
    destruct (Hmaps Hall) as [H1 [H2 H3]].
    destruct Hg as [[s [Hs Hn]] [[n [Hnum Hp]] [Hi _]]].
    change (Get record "name") with (JStr (TodoGroup.name g)) in Hs.
    change (Get record "position") with (JNum (TodoGroup.position g)) in Hnum.
    change (Get record "id") with (TodoGroup.id g) in Hi.
    injection Hs as <-. simpl in Hnum. injection Hnum as <-.
    simpl. rewrite H1, H2, H3, Hn, Hp, Htrim, Hpos, (Hi Hid). repeat split.
Qed.

(** X16.  Groups survive a save and a load in every field but the
    timestamps: if each group has what the constructor guarantees, then
    after a fulfilled [saveGroups] a [loadGroups] (by any manager, say
    the one of the next page load) whose read is fulfilled yields as
    many groups, in the same order, with the same ids, names and
    positions. *)
Theorem groups_survive_save_and_load :
  forall m w otherManager,
    Forall group_ok (TodoManager.groups m) ->
    set_fulfilled (host w) (sets w) = true ->
    get_fulfilled (host w) (gets w) = true ->
    exists w1 m2 w2,
      TodoManager.saveGroups (m, w) = (Return tt, (m, w1))
      /\ TodoManager.loadGroups (otherManager, w1) = (Return tt, (m2, w2))
      /\ List.map TodoGroup.id (TodoManager.groups m2)
         = List.map TodoGroup.id (TodoManager.groups m)
      /\ List.map TodoGroup.name (TodoManager.groups m2)
         = List.map TodoGroup.name (TodoManager.groups m)
      /\ List.map TodoGroup.position (TodoManager.groups m2)
         = List.map TodoGroup.position (TodoManager.groups m).
Proof.
  intros m w other Hok Hset Hget.
  set (records := group_records (next_ref w) (TodoManager.groups m)).
  set (w1 := saved GROUPS_STORAGE_KEY records w).
  destruct (saved_frame GROUPS_STORAGE_KEY records w) as [Hh [_ [Hg _]]].
  destruct (proj1 (saved_store GROUPS_STORAGE_KEY records w) Hset)
    as [Hstored _].
  fold w1 in Hh, Hg, Hstored.
  assert (Hget1 : get_fulfilled (host w1) (gets w1) = true)
    by now rewrite Hh, Hg.
  destruct (loadGroups_fulfilled other w1 records Hget1 Hstored)
    as [gs2 [w2 [Hload [Hall _]]]].
  exists w1, (with_groups gs2 other), w2. split.
  - rewrite saveGroups_exact. unfold unless_rejected. now rewrite Hset.
  - split; [exact Hload|].
    destruct (group_records_load (next_ref w) (TodoManager.groups m)
                (host w1) gs2 Hok) as [Hfilter Hmaps].
    unfold records in Hall. rewrite Hfilter in Hall. now apply Hmaps.
Qed.

Lemma groups_survive_save_and_load_witness :
  Forall group_ok (TodoManager.groups two_group_manager)
  /\ exists w1 m2 w2,
       TodoManager.saveGroups
         (two_group_manager, fresh_world ticking_host Absent Absent)
       = (Return tt, (two_group_manager, w1))
       /\ TodoManager.loadGroups (TodoManager.constructor, w1)
          = (Return tt, (m2, w2))
       /\ List.map TodoGroup.name (TodoManager.groups m2)
          = [lit "Work"; lit "Home"]
       /\ List.map TodoGroup.position (TodoManager.groups m2)
          = [num_of_nat 3; num_of_nat 5].
Proof.
  assert (Hok : Forall group_ok (TodoManager.groups two_group_manager)).
  { repeat constructor; vm_compute; try reflexivity; try lia. }
  split; [exact Hok|].
  destruct (groups_survive_save_and_load two_group_manager
              (fresh_world ticking_host Absent Absent) TodoManager.constructor
              Hok eq_refl eq_refl)
    as [w1 [m2 [w2 [Hsave [Hload [_ [Hnames Hpos]]]]]]].
  exists w1, m2, w2. split; [exact Hsave|]. split; [exact Hload|].
  split; [exact Hnames|exact Hpos].
Defined.

Lemma todo_records_load ref ts : forall ts',
  Forall todo_ok ts ->
  filter loads_as_todo (todo_records ref ts) = todo_records ref ts
  /\ (Forall2 todo_loaded_from (todo_records ref ts) ts' ->
      List.map TodoItem.id ts' = List.map TodoItem.id ts
      /\ List.map TodoItem.text ts' = List.map TodoItem.text ts
      /\ List.map TodoItem.groupId ts' = List.map TodoItem.groupId ts
      /\ List.map TodoItem.completed ts' = List.map TodoItem.completed ts
      /\ List.map TodoItem.description ts'
         = List.map TodoItem.description ts).
Proof.
  revert ref. induction ts as [|t r IH]; intros ref ts' Hok; simpl.
  - split; [reflexivity|]. intros H. inversion H. repeat split.
  - inversion Hok
      as [|? ? [Hid [Htext [Htrim [[g [Hgroup Hg]] Hdesc]]]] Hrest]; subst.
    set (record := JObject ref (Some NaN) _).
    assert (Hkeep : loads_as_todo record = true).
    { unfold loads_as_todo.
      change (Get record "text") with (JStr (TodoItem.text t)).
      change (Get record "groupId") with (TodoItem.groupId t).
      rewrite Hgroup. cbn [is_record andb].
      rewrite (proj2 (acceptedb_spec _ _) Htext).
      destruct g; [congruence|reflexivity]. }
    rewrite Hkeep.
    destruct (IH (S ref) (tl ts') Hrest) as [Hfilter _].
    split; [now rewrite Hfilter|].
    intros H. inversion H as [|? t' ? r' Ht Hall]; subst.
    destruct (IH (S ref) r' Hrest) as [_ Hmaps].
    destruct (Hmaps Hall) as [H1 [H2 [H3 [H4 H5]]]].
    destruct Ht as [[s [Hs Hn]] [Hgr [Hc [Hd Hi]]]].
    change (Get record "text") with (JStr (TodoItem.text t)) in Hs.
    change (Get record "groupId") with (TodoItem.groupId t) in Hgr.
    change (Get record "completed") with (JBool (TodoItem.completed t)) in Hc.
    change (Get record "description") with (TodoItem.description t) in Hd.
    change (Get record "id") with (TodoItem.id t) in Hi.
    injection Hs as <-. simpl in Hc.
    simpl. rewrite H1, H2, H3, H4, H5, Hn, Hgr, Hc, Hd, Htrim, Hdesc, (Hi Hid).
    repeat split.
Qed.

(** X17.  Todos survive a save and a load in every field but the
    timestamps: if each todo has a truthy id and what the constructor guarantees,
    then after a fulfilled [saveTodos] a [loadTodos] whose read is
    fulfilled yields as many todos, in the same order, with the same
    ids, texts, group ids, completion flags and descriptions. *)
Theorem todos_survive_save_and_load :
  forall m w otherManager,
    Forall todo_ok (TodoManager.todos m) ->
    set_fulfilled (host w) (sets w) = true ->
    get_fulfilled (host w) (gets w) = true ->
    exists w1 m2 w2,
      TodoManager.saveTodos (m, w) = (Return tt, (m, w1))
      /\ TodoManager.loadTodos (otherManager, w1) = (Return tt, (m2, w2))
      /\ List.map TodoItem.id (TodoManager.todos m2)
         = List.map TodoItem.id (TodoManager.todos m)
      /\ List.map TodoItem.text (TodoManager.todos m2)
         = List.map TodoItem.text (TodoManager.todos m)
      /\ List.map TodoItem.groupId (TodoManager.todos m2)
         = List.map TodoItem.groupId (TodoManager.todos m)
      /\ List.map TodoItem.completed (TodoManager.todos m2)
         = List.map TodoItem.completed (TodoManager.todos m)
      /\ List.map TodoItem.description (TodoManager.todos m2)
         = List.map TodoItem.description (TodoManager.todos m).
Proof.
  intros m w other Hok Hset Hget.
  set (records := todo_records (next_ref w) (TodoManager.todos m)).
  set (w1 := saved STORAGE_KEY records w).
  destruct (saved_frame STORAGE_KEY records w) as [Hh [_ [Hg _]]].
  destruct (proj1 (saved_store STORAGE_KEY records w) Hset) as [Hstored _].
  fold w1 in Hh, Hg, Hstored.
  assert (Hget1 : get_fulfilled (host w1) (gets w1) = true)
    by now rewrite Hh, Hg.
  destruct (loadTodos_fulfilled other w1 records Hget1 Hstored)
    as [ts2 [w2 [Hload [Hall _]]]].
  exists w1, (with_todos ts2 other), w2. split.
  - rewrite saveTodos_exact. unfold unless_rejected. now rewrite Hset.
  - split; [exact Hload|].
    destruct (todo_records_load (next_ref w) (TodoManager.todos m) ts2 Hok)
      as [Hfilter Hmaps].
    unfold records in Hall. rewrite Hfilter in Hall. now apply Hmaps.
Qed.

Lemma todos_survive_save_and_load_witness :
  Forall todo_ok (TodoManager.todos milk_manager)
  /\ exists w1 m2 w2,
       TodoManager.saveTodos
         (milk_manager, fresh_world ticking_host Absent Absent)
       = (Return tt, (milk_manager, w1))
       /\ TodoManager.loadTodos (TodoManager.constructor, w1)
          = (Return tt, (m2, w2))
       /\ List.map TodoItem.text (TodoManager.todos m2) = [lit "Buy milk"]
       /\ List.map TodoItem.groupId (TodoManager.todos m2)
          = [JStr (lit "g1")].
Proof.
  assert (Hok : Forall todo_ok (TodoManager.todos milk_manager)).
  { repeat constructor; try (vm_compute; reflexivity); try (vm_compute; lia).
    exists (lit "g1"). split; [reflexivity|discriminate]. }
  split; [exact Hok|].
  destruct (todos_survive_save_and_load milk_manager
              (fresh_world ticking_host Absent Absent) TodoManager.constructor
              Hok eq_refl eq_refl)
    as [w1 [m2 [w2 [Hsave [Hload [_ [Htext [Hgroup _]]]]]]]].
  exists w1, m2, w2. split; [exact Hsave|]. split; [exact Hload|].
  split; [exact Htext|exact Hgroup].
Defined.

(** ** What a call can do to the manager *)

Lemma toggleTodo_unknown id m w :
  no_match (todo_is id) (TodoManager.todos m) ->
  TodoManager.toggleTodo id (m, w) = (Return false, (m, w)).
Proof.
  intros H. unfold TodoManager.toggleTodo, try_catch.
  rewrite bind_this_todos. fold (todo_is id).
  now rewrite (Array_find_none _ _ H).
Qed.

Lemma updateTodo_unknown id s newDescription m w :
  no_match (todo_is id) (TodoManager.todos m) ->
  TodoManager.updateTodo id (JStr s) newDescription (m, w)
  = (Return false, (m, w)).
Proof.
  intros H. unfold TodoManager.updateTodo, try_catch.
  unfold method_substring0. rewrite bind_ret, bind_this_todos.
  fold (todo_is id). now rewrite (Array_find_none _ _ H).
Qed.

Lemma updateGroupName_unknown id newName m w :
  no_match (group_is id) (TodoManager.groups m) ->
  TodoManager.updateGroupName id newName (m, w) = (Return false, (m, w)).
Proof.
  intros H. unfold TodoManager.updateGroupName, try_catch.
  rewrite bind_this_groups. fold (group_is id).
  now rewrite (Array_find_none _ _ H).
Qed.

Lemma moveTodo_unknown_group todoId newGroupId m w :
  no_match (group_is newGroupId) (TodoManager.groups m) ->
  TodoManager.moveTodo todoId newGroupId (m, w) = (Return false, (m, w)).
Proof.
  intros H. unfold TodoManager.moveTodo, try_catch.
  rewrite bind_this_groups. fold (group_is newGroupId).
  now rewrite (Array_find_none _ _ H).
Qed.

Lemma moveTodo_unknown_todo todoId newGroupId m w :
  no_match (todo_is todoId) (TodoManager.todos m) ->
  TodoManager.moveTodo todoId newGroupId (m, w) = (Return false, (m, w)).
Proof.
  intros H. unfold TodoManager.moveTodo, try_catch.
  rewrite bind_this_groups.
  destruct (Array_find _ (TodoManager.groups m)); [|reflexivity].
  rewrite bind_this_todos. fold (todo_is todoId).
  now rewrite (Array_find_none _ _ H).
Qed.

Lemma moveTodo_same_group todoId newGroupId m w todo :
  some_match (group_is newGroupId) (TodoManager.groups m) ->
  Array_find (todo_is todoId) (TodoManager.todos m) = Some todo ->
  in_group newGroupId todo = true ->
  TodoManager.moveTodo todoId newGroupId (m, w) = (Return true, (m, w)).
Proof.
  intros Hgroup Hfind Hsame.
  destruct (Array_find_some _ _ Hgroup) as [g Hg].
  unfold TodoManager.moveTodo, try_catch.
  rewrite bind_this_groups. fold (group_is newGroupId). rewrite Hg.
  rewrite bind_this_todos. fold (todo_is todoId). rewrite Hfind.
  fold (in_group newGroupId todo). now rewrite Hsame.
Qed.

Lemma Array_find_In {A} (p : A -> bool) xs x :
  Array_find p xs = Some x -> In x xs /\ p x = true.
Proof. apply find_some. Qed.

Lemma addGroup_position_throws s position m w :
  accepted MAX_GROUP_NAME_LENGTH s ->
  ToNumber (host w) (default_arg (JNum num_zero) (newPosition_of position m))
  = None ->
  exists w',
    TodoManager.addGroup (JStr s) position (m, w)
    = (Throw (StorageError "Failed to add group"), (m, w')).
Proof.
  intros Hs Hn.
  destruct (TodoGroup_constructor_position_throws s
              (newPosition_of position m) JUndefined w Hs Hn) as [w' Hrun].
  exists w'. unfold TodoManager.addGroup, try_catch.
  rewrite bind_this_groups. fold (newPosition_of position m).
  rewrite bind_host_call, Hrun. reflexivity.
Qed.

Lemma addTodo_bad_groupId s groupId m w :
  accepted MAX_TODO_LENGTH s ->
  (forall g, groupId = JStr g -> g = []) ->
  exists message,
    TodoManager.addTodo (JStr s) groupId (m, w)
    = (Throw (TodoValidationError message), (m, w)).
Proof.
  intros Hs Hbad.
  assert (Hv : TodoItem.validateGroupId groupId w
               = (Throw (TodoValidationError
                           "Group ID must be a non-empty string"), w)).
  { destruct groupId as [| |b|n|g|k|r n p];
      try rewrite (Hbad g eq_refl); try reflexivity;
      unfold TodoItem.validateGroupId;
      match goal with |- context [ToBoolean ?v] => destruct (ToBoolean v) end;
      reflexivity. }
  unfold TodoManager.addTodo, try_catch.
  unfold method_substring0. rewrite bind_ret, bind_this_groups.
  destruct (Array_find _ (TodoManager.groups m)).
  - rewrite bind_host_call. unfold TodoItem.constructor.
    rewrite (bind_return _ _ _ _ _ (validateText_accepts World s w Hs)).
    rewrite (bind_throw _ _ _ _ _ Hv). eexists. reflexivity.
  - eexists. reflexivity.
Qed.

Lemma group_ok_new_group w s n :
  accepted MAX_GROUP_NAME_LENGTH s -> group_ok (new_group w s n).
Proof.
  intros Hs. split; [reflexivity|].
  split; [now apply accepted_trim|].
  split; [apply trim_idem|apply or_zero_idem].
Qed.

Lemma state_after_effect c m w :
  effect m (fst (state_after c (m, w))).
Proof.
  destruct c as [name position|groupId|groupId newName|text groupId|id
                |todoId newGroupId|id newText newDescription|id| |name];
    cbn [state_after].
  - (* addGroup *)
    destruct (refused_or_accepted MAX_GROUP_NAME_LENGTH name)
      as [Hr|[s [-> Hs]]].
    + destruct (addGroup_refuses name position m w Hr) as [msg H].
      ran H. constructor.
    + destruct (ToNumber (host w)
                  (default_arg (JNum num_zero) (newPosition_of position m)))
        as [n|] eqn:Hn.
      * destruct (addGroup_run s position m w n Hs Hn) as [w' [H _]].
        ran H. apply group_added. now apply group_ok_new_group.
      * destruct (addGroup_position_throws s position m w Hs Hn) as [w' H].
        ran H. constructor.
  - (* removeGroup *)
    destruct (some_or_no_match (group_is groupId) (TodoManager.groups m))
      as [Hsome|Hnone].
    + destruct (first_match _ _ Hsome) as [before [g [after [Hgs [Hg Hb]]]]].
      destruct (removeGroup_run groupId m w before g after Hgs Hg Hb)
        as [w' H].
      ran H. now apply group_removed with g.
    + rewrite (removeGroup_unknown groupId m w Hnone). constructor.
  - (* updateGroupName *)
    destruct (Array_find (group_is groupId) (TodoManager.groups m))
      as [g|] eqn:Hfind.
    + destruct (refused_or_accepted MAX_GROUP_NAME_LENGTH newName)
        as [Hr|[s [-> Hs]]].
      * destruct (updateGroupName_refused groupId newName m w g Hfind Hr)
          as [msg H].
        ran H. constructor.
      * destruct (updateGroupName_run groupId s m w g Hfind Hs) as [w' H].
        ran H. now apply group_renamed.
    + rewrite (updateGroupName_unknown groupId newName m w);
        [constructor|].
      intros x Hx. destruct (group_is groupId x) eqn:E; [|reflexivity].
      destruct (Array_find_some (group_is groupId) (TodoManager.groups m))
        as [y Hy]; [now exists x|congruence].
  - (* addTodo *)
    destruct (refused_or_accepted MAX_TODO_LENGTH text) as [Hr|[s [-> Hs]]].
    + destruct text as [| |b|n|s|k|r n p];
        try (unfold TodoManager.addTodo, try_catch; cbn; constructor).
      destruct (addTodo_refuses_string s groupId m w Hr) as [msg H].
      ran H. constructor.
    + destruct (some_or_no_match (group_is groupId) (TodoManager.groups m))
        as [Hsome|Hnone].
      * destruct (validateGroupId_cases World groupId w)
          as [[msg Hv]|[g [-> Hg]]].
        -- destruct (addTodo_bad_groupId s groupId m w Hs) as [msg' H].
           { intros g ->. destruct g; [reflexivity|discriminate]. }
           ran H. constructor.
        -- destruct (addTodo_run s g m w Hs Hg Hsome) as [w' [H _]].
           ran H. now apply todo_added.
      * rewrite (addTodo_unknown_group s groupId m w Hnone). constructor.
  - (* removeTodo *)
    destruct (some_or_no_match (todo_is id) (TodoManager.todos m))
      as [Hsome|Hnone].
    + destruct (first_match _ _ Hsome) as [before [t [after [Hts [Ht Hb]]]]].
      rewrite (removeTodo_run id m w before t after Hts Ht Hb).
      now apply todo_removed with t.
    + rewrite (removeTodo_unknown id m w Hnone). constructor.
  - (* moveTodo *)
    destruct (some_or_no_match (group_is newGroupId) (TodoManager.groups m))
      as [Hgroup|Hnone];
      [|rewrite (moveTodo_unknown_group todoId newGroupId m w Hnone);
        constructor].
    destruct (Array_find (todo_is todoId) (TodoManager.todos m))
      as [t|] eqn:Hfind.
    + destruct (in_group newGroupId t) eqn:Hin.
      * rewrite (moveTodo_same_group todoId newGroupId m w t Hgroup Hfind Hin).
        constructor.
      * destruct (moveTodo_run todoId newGroupId m w t Hgroup Hfind Hin)
          as [w' H].
        ran H. now apply todo_moved.
    + rewrite (moveTodo_unknown_todo todoId newGroupId m w); [constructor|].
      intros x Hx. destruct (todo_is todoId x) eqn:E; [|reflexivity].
      destruct (Array_find_some (todo_is todoId) (TodoManager.todos m))
        as [y Hy]; [now exists x|congruence].
  - (* updateTodo *)
    destruct newText as [| |b|n|s|k|r n p];
      try (rewrite updateTodo_not_a_string by discriminate; constructor).
    destruct (Array_find (todo_is id) (TodoManager.todos m)) as [t|] eqn:Hfind.
    + destruct (refused_or_accepted MAX_TODO_LENGTH (JStr s))
        as [Hr|[s' [Es Hs]]].
      * destruct (updateTodo_refused id s newDescription m w t Hfind Hr)
          as [msg H].
        ran H. constructor.
      * injection Es as <-.
        destruct (updateTodo_run id s newDescription m w t Hfind Hs)
          as [w' H].
        ran H. now apply todo_edited.
    + rewrite (updateTodo_unknown id s newDescription m w); [constructor|].
      intros x Hx. destruct (todo_is id x) eqn:E; [|reflexivity].
      destruct (Array_find_some (todo_is id) (TodoManager.todos m))
        as [y Hy]; [now exists x|congruence].
  - (* toggleTodo *)
    destruct (Array_find (todo_is id) (TodoManager.todos m)) as [t|] eqn:Hfind.
    + destruct (toggleTodo_run id m w t Hfind) as [w' [H _]].
      ran H. unfold toggled. now apply todo_edited.
    + rewrite (toggleTodo_unknown id m w); [constructor|].
      intros x Hx. destruct (todo_is id x) eqn:E; [|reflexivity].
      destruct (Array_find_some (todo_is id) (TodoManager.todos m))
        as [y Hy]; [now exists x|congruence].
  - (* clearCompleted *)
    destruct (clearCompleted_run m w) as [w' [H _]].
    ran H. apply completed_cleared.
  - (* setFilter *)
    cbn [fst snd]. unfold TodoManager.setFilter. fold (is_filter_name name).
    destruct (is_filter_name name) eqn:E; [now apply filter_set|constructor].
Qed.

(** ** What every sequence of calls preserves *)

Lemma state_after_all_invariant (P : TodoManager.t -> Prop) :
  (forall m m', effect m m' -> P m -> P m') ->
  forall cs m w, P m -> P (fst (state_after_all cs (m, w))).
Proof.
  intros Hstep. unfold state_after_all.
  induction cs as [|c r IH]; intros m w Hm; [exact Hm|].
  cbn [fold_left].
  pose proof (state_after_effect c m w) as He.
  destruct (state_after c (m, w)) as [m1 w1].
  apply IH. now apply (Hstep m).
Qed.

Lemma replace_first_map {A B} (f : A -> B) (p : A -> bool) y xs x :
  find p xs = Some x -> f y = f x ->
  List.map f (replace_first p y xs) = List.map f xs.
Proof.
  induction xs as [|z r IH]; simpl; [discriminate|].
  destruct (p z) eqn:E.
  - intros [= ->] Hf. simpl. now rewrite Hf.
  - intros Hfind Hf. simpl. now rewrite IH.
Qed.

Lemma Forall_replace_first {A} (P : A -> Prop) (p : A -> bool) y xs :
  Forall P xs -> P y -> Forall P (replace_first p y xs).
Proof.
  intros Hxs Hy. induction Hxs as [|z r Hz Hr IH]; simpl; [constructor|].
  destruct (p z); constructor; assumption.
Qed.

Lemma same_ids_referential ts gs gs' cf cf' ini ini' :
  List.map TodoGroup.id gs' = List.map TodoGroup.id gs ->
  referential (TodoManager.mk ts gs cf ini) ->
  referential (TodoManager.mk ts gs' cf' ini').
Proof.
  intros Hids Href t Ht. destruct (Href t Ht) as [g [Hg Heq]].
  cbn [TodoManager.groups] in *.
  assert (Hin : In (TodoGroup.id g) (List.map TodoGroup.id gs'))
    by (rewrite Hids; now apply in_map).
  apply in_map_iff in Hin. destruct Hin as [g' [Hid Hg']].
  exists g'. split; [exact Hg'|]. now rewrite Hid.
Qed.

Lemma fewer_todos_referential ts ts' gs cf cf' ini ini' :
  (forall t, In t ts' ->
             exists t0, In t0 ts /\ TodoItem.groupId t = TodoItem.groupId t0) ->
  referential (TodoManager.mk ts gs cf ini) ->
  referential (TodoManager.mk ts' gs cf' ini').
Proof.
  intros Hsub Href t Ht. destruct (Hsub t Ht) as [t0 [Ht0 Heq]].
  rewrite Heq. now apply Href.
Qed.

Lemma effect_referential m m' : effect m m' -> referential m -> referential m'.
Proof.
  destruct m as [ts gs cf ini].
  intros He Href.
  destruct He as
    [ |g0 Hg0|groupId h reads before g0 after Hgs Hg0
     |groupId g0 s stamp Hfind Hs|t Hsome|before t after Hts
     |todoId newGroupId t stamp Hgroup Hfind
     |id t text completed description stamp Hfind| |name Hname];
    cbn [TodoManager.todos TodoManager.groups with_todos with_groups
         TodoManager.currentFilter TodoManager.isInitialized] in *.
  - exact Href.
  - (* a group added *)
    intros t Ht. destruct (Href t Ht) as [x [Hx Heq]].
    exists x. split; [|exact Heq].
    cbn [TodoManager.groups] in *.
    apply (Permutation_in x (Permutation_sym (Array_sort_perm _))).
    apply in_or_app. now left.
  - (* a group removed *)
    intros t Ht. cbn [TodoManager.todos TodoManager.groups] in *.
    apply filter_In in Ht. destruct Ht as [Ht Hother].
    apply negb_true_iff in Hother.
    destruct (Href t Ht) as [x [Hx Heq]]. cbn [TodoManager.groups] in Hx.
    assert (Hkept : In x (before ++ after)).
    { rewrite Hgs in Hx. apply in_app_or in Hx. apply in_or_app.
      destruct Hx as [Hx|[<-|Hx]]; [now left| |now right].
      exfalso. unfold in_group in Hother. unfold group_is in Hg0.
      rewrite (strict_equals_euclid _ _ _ Heq Hg0) in Hother. discriminate. }
    assert (Hin : In (TodoGroup.id x)
                     (List.map TodoGroup.id
                        (renumbered h reads 0 (before ++ after))))
      by (rewrite map_id_renumbered; now apply in_map).
    apply in_map_iff in Hin. destruct Hin as [x' [Hid Hx']].
    exists x'. split; [exact Hx'|]. now rewrite Hid.
  - (* a group renamed *)
    eapply same_ids_referential; [|exact Href].
    now apply replace_first_map with g0.
  - (* a todo added *)
    intros x Hx. cbn [TodoManager.todos TodoManager.groups] in *.
    apply in_app_or in Hx. destruct Hx as [Hx|[<-|[]]]; [now apply Href|].
    exact Hsome.
  - (* a todo removed *)
    eapply fewer_todos_referential; [|exact Href].
    intros x Hx. exists x. split; [|reflexivity].
    rewrite Hts. apply in_app_or in Hx. apply in_or_app.
    destruct Hx; [now left|right; now right].
  - (* a todo moved *)
    intros x Hx. cbn [TodoManager.todos TodoManager.groups] in *.
    apply replace_first_In in Hx. destruct Hx as [->|Hx]; [|now apply Href].
    exact Hgroup.
  - (* a todo edited *)
    eapply fewer_todos_referential; [|exact Href].
    intros x Hx. apply replace_first_In in Hx. destruct Hx as [->|Hx].
    + exists t. split; [|reflexivity]. now apply (Array_find_In _ _ _ Hfind).
    + exists x. now split.
  - (* completed todos cleared *)
    eapply fewer_todos_referential; [|exact Href].
    intros x Hx. apply filter_In in Hx. exists x. now split.
  - exact Href.
Qed.

Lemma group_ok_regular g : group_ok g -> regular g.
Proof.
  intros [_ [_ [_ H]]]. unfold regular. rewrite <- H. apply or_zero_regular.
Qed.

Lemma or_zero_num_of_nat n : or_zero (num_of_nat n) = num_of_nat n.
Proof. destruct n; reflexivity. Qed.

Lemma renumbered_group_ok h gs : forall reads index,
  Forall group_ok gs -> Forall group_ok (renumbered h reads index gs).
Proof.
  induction gs as [|g r IH]; intros reads index H; simpl; [constructor|].
  inversion H as [|? ? [Hid [Hname [Htrim _]]] Hr]; subst.
  constructor; [|now apply IH].
  split; [exact Hid|]. split; [exact Hname|]. split; [exact Htrim|].
  apply or_zero_num_of_nat.
Qed.

Lemma same_positions_Forall a b gs : forall gs',
  TodoGroup.position a = TodoGroup.position b ->
  List.map TodoGroup.position gs' = List.map TodoGroup.position gs ->
  Forall (not_after a) gs -> Forall (not_after b) gs'.
Proof.
  induction gs as [|x r IH]; intros [|x' r'] Hab Hmap H;
    try discriminate; [constructor|].
  simpl in Hmap. injection Hmap as Hx Hr.
  inversion H as [|? ? Hax Har]; subst. constructor; [|now apply IH].
  unfold not_after, TodoManager.by_position in *. now rewrite <- Hab, Hx.
Qed.

Lemma same_positions_ascending gs : forall gs',
  List.map TodoGroup.position gs' = List.map TodoGroup.position gs ->
  ascending gs -> ascending gs'.
Proof.
  unfold ascending.
  induction gs as [|x r IH]; intros [|x' r'] Hmap H;
    try discriminate; [constructor|].
  simpl in Hmap. injection Hmap as Hx Hr.
  inversion H as [|? ? Hs Hall]; subst. constructor; [now apply IH|].
  now apply same_positions_Forall with x r.
Qed.

Lemma effect_groups_in_order m m' :
  effect m m' -> groups_in_order m -> groups_in_order m'.
Proof.
  destruct m as [ts gs cf ini]. unfold groups_in_order.
  intros He [Hok Hasc].
  destruct He as
    [ |g0 Hg0|groupId h reads before g0 after Hgs Hg0
     |groupId g0 s stamp Hfind Hs|t Hsome|before t after Hts
     |todoId newGroupId t stamp Hgroup Hfind
     |id t text completed description stamp Hfind| |name Hname];
    cbn [TodoManager.todos TodoManager.groups with_todos with_groups
         TodoManager.currentFilter TodoManager.isInitialized] in *;
    try (split; assumption).
  - (* a group added *)
    assert (Hall : Forall group_ok (gs ++ [g0])).
    { apply Forall_app. split; [exact Hok|now constructor]. }
    split.
    + apply Forall_forall. intros x Hx.
      apply (proj1 (Forall_forall _ _) Hall).
      now apply (Permutation_in x (Array_sort_perm _)).
    + apply Array_sort_is_ascending.
      apply Forall_impl with (P := group_ok); [apply group_ok_regular|].
      exact Hall.
  - (* a group removed *)
    split; [|apply renumbered_ascending].
    apply renumbered_group_ok. rewrite Hgs in Hok.
    apply Forall_app in Hok. destruct Hok as [Hb Ha].
    inversion Ha; subst. apply Forall_app. now split.
  - (* a group renamed *)
    destruct (Array_find_In _ _ _ Hfind) as [Hin _].
    destruct (proj1 (Forall_forall _ _) Hok g0 Hin) as [Hid [_ [_ Hpos]]].
    split.
    + apply Forall_replace_first; [exact Hok|].
      split; [exact Hid|]. split; [now apply accepted_trim|].
      split; [apply trim_idem|exact Hpos].
    + apply same_positions_ascending with gs; [|exact Hasc].
      now apply replace_first_map with g0.
Qed.

Lemma effect_frame m m' :
  effect m m' ->
  TodoManager.isInitialized m' = TodoManager.isInitialized m
  /\ (is_filter_name (TodoManager.currentFilter m) = true ->
      is_filter_name (TodoManager.currentFilter m') = true).
Proof.
  intros He. destruct He; split; try reflexivity; try (intros H'; exact H').
  intros _. assumption.
Qed.

(** X18.  Whatever calls a client makes, in whatever order and whether
    they return or throw, a manager in which every todo's [groupId] is
    the id of a group it holds stays so: [removeGroup] takes the todos of
    the group along, [addTodo] and [moveTodo] accept only a known group,
    and no other call changes an id or a [groupId]. *)
Theorem calls_keep_every_todo_in_a_group :
  forall cs m w,
    referential m -> referential (fst (state_after_all cs (m, w))).
Proof.
  apply (state_after_all_invariant referential). apply effect_referential.
Qed.

Lemma calls_keep_every_todo_in_a_group_witness :
  referential two_group_manager
  /\ referential
       (fst (state_after_all
               [ AddTodo (JStr (lit "Call Ann")) (JStr (lit "g2"));
                 MoveTodo (JStr (lit "t1")) (JStr (lit "g2"));
                 RemoveGroup (JStr (lit "g2"));
                 AddTodo (JStr (lit "Pay rent")) (JStr (lit "g2")) ]
               (two_group_manager, fresh_world ticking_host Absent Absent))).
Proof.
  assert (H : referential two_group_manager).
  { intros t [<-|[]]. exists work_group. split; [now left|reflexivity]. }
  split; [exact H|].
  apply (calls_keep_every_todo_in_a_group _ two_group_manager _ H).
Defined.

(** X19.  Whatever calls a client makes, groups that are as the
    constructor leaves them (truthy id, trimmed name of 1 to 50 code
    units, position fixed by [|| 0]) and in ascending order of position
    stay so; [getGroups] then returns them in the order of the array. *)
Theorem calls_keep_the_groups_in_order :
  forall cs m w,
    groups_in_order m ->
    groups_in_order (fst (state_after_all cs (m, w)))
    /\ TodoManager.getGroups (fst (state_after_all cs (m, w)))
       = TodoManager.groups (fst (state_after_all cs (m, w))).
Proof.
  intros cs m w H.
  assert (H' : groups_in_order (fst (state_after_all cs (m, w)))).
  { revert cs m w H.
    apply (state_after_all_invariant groups_in_order).
    apply effect_groups_in_order. }
  split; [exact H'|]. apply Array_sort_ascending. exact (proj2 H').
Qed.

Lemma calls_keep_the_groups_in_order_witness :
  groups_in_order two_group_manager
  /\ groups_in_order
       (fst (state_after_all
               [ AddGroup (JStr (lit " Errands ")) (JNum (num_of_nat 4));
                 UpdateGroupName (JStr (lit "g1")) (JStr (lit "Office"));
                 RemoveGroup (JStr (lit "g2")) ]
               (two_group_manager, fresh_world ticking_host Absent Absent))).
Proof.
  assert (H : groups_in_order two_group_manager).
  { split.
    - repeat constructor; vm_compute; lia.
    - repeat constructor. }
  split; [exact H|].
  apply (proj1 (calls_keep_the_groups_in_order _ two_group_manager _ H)).
Defined.

(** X20.  No call of a mutating method changes [isInitialized], and the
    filter stays one of "all", "active" and "completed" once it is:
    only [setFilter] changes it, and only to one of these. *)
Theorem calls_keep_the_filter_valid :
  forall cs m w,
    TodoManager.isInitialized (fst (state_after_all cs (m, w)))
    = TodoManager.isInitialized m
    /\ (is_filter_name (TodoManager.currentFilter m) = true ->
        is_filter_name
          (TodoManager.currentFilter (fst (state_after_all cs (m, w))))
        = true).
Proof.
  intros cs m w.
  apply (state_after_all_invariant
           (fun m' =>
              TodoManager.isInitialized m' = TodoManager.isInitialized m
              /\ (is_filter_name (TodoManager.currentFilter m) = true ->
                  is_filter_name (TodoManager.currentFilter m') = true))).
  - intros m1 m2 He [Hi Hf]. destruct (effect_frame _ _ He) as [Hi' Hf'].
    split; [now rewrite Hi'|]. intros H. apply Hf', Hf, H.
  - split; [reflexivity|intros H; exact H].
Qed.

Lemma calls_keep_the_filter_valid_witness :
  is_filter_name (TodoManager.currentFilter milk_manager) = true
  /\ is_filter_name
       (TodoManager.currentFilter
          (fst (state_after_all
                  [ SetFilter (JStr (lit "done"));
                    SetFilter (JStr (lit "completed"));
                    ToggleTodo (JStr (lit "t1")) ]
                  (milk_manager, fresh_world ticking_host Absent Absent))))
     = true.
Proof.
  split; [reflexivity|].
  apply (proj2 (calls_keep_the_filter_valid _ milk_manager _) eq_refl).
Defined.

(** ** initialize, when the storage holds groups and when it cannot be read *)

Lemma array_or_empty_mappable S stored (st : S) :
  mappable stored -> array_or_empty stored st = (Return (records_in stored), st).
Proof.
  destruct stored as [|items|v]; simpl; intros H; try reflexivity.
  now rewrite H.
Qed.

Lemma array_or_empty_throws S stored (st : S) :
  ~ mappable stored -> array_or_empty stored st = (Throw TypeError, st).
Proof.
  destruct stored as [|items|v]; simpl; intros H; try now elim H.
  destruct (ToBoolean v); [reflexivity|now elim H].
Qed.

Lemma loadGroups_mappable m w :
  get_fulfilled (host w) (gets w) = true ->
  mappable (stored_groups w) ->
  exists gs w',
    TodoManager.loadGroups (m, w) = (Return tt, (with_groups gs m, w'))
    /\ Forall2 (group_loaded_from (host w))
               (filter loads_as_group (records_in (stored_groups w))) gs
    /\ host w' = host w /\ gets w' = S (gets w) /\ sets w' = sets w
    /\ stored_groups w' = stored_groups w
    /\ stored_todos w' = stored_todos w.
Proof.
  intros Hget Hmap.
  set (w0 := {| host := host w; clock_reads := clock_reads w;
                random_draws := random_draws w; gets := S (gets w);
                sets := sets w; next_ref := next_ref w;
                stored_groups := stored_groups w;
                stored_todos := stored_todos w |}).
  destruct (load_all TodoManager.loadGroup loads_as_group group_loaded_from
              loadGroup_run (records_in (stored_groups w)) w0)
    as [rs [w' [Hrun [Hq Hall]]]].
  destruct (quiet_frame _ _ Hq) as [Hh [Hg [Hsets [Hsg Hst]]]].
  exists (TodoManager.filter_not_null rs), w'.
  split; [|repeat split; assumption].
  unfold TodoManager.loadGroups. apply try_catch_return.
  rewrite bind_host_call, storage_get_run, Hget.
  cbv beta iota. fold w0.
  rewrite (bind_return _ _ _ _ _ (array_or_empty_mappable _ _ _ Hmap)).
  rewrite bind_host_call, Hrun. reflexivity.
Qed.

Lemma loadTodos_mappable m w :
  get_fulfilled (host w) (gets w) = true ->
  mappable (stored_todos w) ->
  exists ts w',
    TodoManager.loadTodos (m, w) = (Return tt, (with_todos ts m, w'))
    /\ Forall2 todo_loaded_from
               (filter loads_as_todo (records_in (stored_todos w))) ts
    /\ host w' = host w /\ gets w' = S (gets w) /\ sets w' = sets w
    /\ stored_groups w' = stored_groups w
    /\ stored_todos w' = stored_todos w.
Proof.
  intros Hget Hmap.
  set (w0 := {| host := host w; clock_reads := clock_reads w;
                random_draws := random_draws w; gets := S (gets w);
                sets := sets w; next_ref := next_ref w;
                stored_groups := stored_groups w;
                stored_todos := stored_todos w |}).
  destruct (load_all TodoManager.loadTodo loads_as_todo
              (fun _ => todo_loaded_from) loadTodo_run
              (records_in (stored_todos w)) w0)
    as [rs [w' [Hrun [Hq Hall]]]].
  destruct (quiet_frame _ _ Hq) as [Hh [Hg [Hsets [Hsg Hst]]]].
  exists (TodoManager.filter_not_null rs), w'.
  split; [|repeat split; assumption].
  unfold TodoManager.loadTodos. apply try_catch_return.
  rewrite bind_host_call, storage_get_run, Hget.
  cbv beta iota. fold w0.
  rewrite (bind_return _ _ _ _ _ (array_or_empty_mappable _ _ _ Hmap)).
  rewrite bind_host_call, Hrun. reflexivity.
Qed.

Lemma loadGroups_fails m w :
  get_fulfilled (host w) (gets w) = false \/ ~ mappable (stored_groups w) ->
  exists w',
    TodoManager.loadGroups (m, w)
    = (Throw (StorageError "Failed to load groups from storage"), (m, w'))
    /\ sets w' = sets w
    /\ stored_groups w' = stored_groups w
    /\ stored_todos w' = stored_todos w.
Proof.
  intros H.
  exists {| host := host w; clock_reads := clock_reads w;
            random_draws := random_draws w; gets := S (gets w);
            sets := sets w; next_ref := next_ref w;
            stored_groups := stored_groups w;
            stored_todos := stored_todos w |}.
  split; [|repeat split].
  unfold TodoManager.loadGroups, try_catch.
  rewrite bind_host_call, storage_get_run.
  destruct (get_fulfilled (host w) (gets w)) eqn:Hget; [|reflexivity].
  destruct H as [H|H]; [discriminate|].
  rewrite (bind_throw _ _ _ _ _ (array_or_empty_throws _ _ _ H)).
  reflexivity.
Qed.

Lemma loadTodos_fails m w :
  get_fulfilled (host w) (gets w) = false \/ ~ mappable (stored_todos w) ->
  exists w',
    TodoManager.loadTodos (m, w)
    = (Throw (StorageError "Failed to load todos from storage"), (m, w'))
    /\ sets w' = sets w
    /\ stored_groups w' = stored_groups w
    /\ stored_todos w' = stored_todos w.
Proof.
  intros H.
  exists {| host := host w; clock_reads := clock_reads w;
            random_draws := random_draws w; gets := S (gets w);
            sets := sets w; next_ref := next_ref w;
            stored_groups := stored_groups w;
            stored_todos := stored_todos w |}.
  split; [|repeat split].
  unfold TodoManager.loadTodos, try_catch.
  rewrite bind_host_call, storage_get_run.
  destruct (get_fulfilled (host w) (gets w)) eqn:Hget; [|reflexivity].
  destruct H as [H|H]; [discriminate|].
  rewrite (bind_throw _ _ _ _ _ (array_or_empty_throws _ _ _ H)).
  reflexivity.
Qed.

Lemma some_match_filter {A} (p : A -> bool) xs :
  some_match p xs -> filter p xs <> [].
Proof.
  intros [x [Hx Hp]] E.
  assert (H : In x (filter p xs)) by (apply filter_In; now split).
  now rewrite E in H.
Qed.

(** X21.  When both keys can be read and the groups key holds at least
    one record that loads, [initialize] completes with the manager
    holding the groups and todos that load from the store, in their
    stored order, and [isInitialized] set.  It creates no default group
    and writes nothing; the filter is left alone. *)
Theorem initialize_loads_what_is_stored :
  forall m w,
    get_fulfilled (host w) (gets w) = true ->
    get_fulfilled (host w) (S (gets w)) = true ->
    some_match loads_as_group (records_in (stored_groups w)) ->
    mappable (stored_todos w) ->
    exists m' w',
      TodoManager.initialize (m, w) = (Return tt, (m', w'))
      /\ Forall2 (group_loaded_from (host w))
                 (filter loads_as_group (records_in (stored_groups w)))
                 (TodoManager.groups m')
      /\ Forall2 todo_loaded_from
                 (filter loads_as_todo (records_in (stored_todos w)))
                 (TodoManager.todos m')
      /\ TodoManager.isInitialized m' = true
      /\ TodoManager.currentFilter m' = TodoManager.currentFilter m
      /\ sets w' = sets w
      /\ stored_groups w' = stored_groups w
      /\ stored_todos w' = stored_todos w.
Proof.
  intros m w Hget1 Hget2 Hsome Hmap2.
  assert (Hmap1 : mappable (stored_groups w)).
  { destruct (stored_groups w); try exact I.
    destruct Hsome as [x [[] _]]. }
  destruct (loadGroups_mappable m w Hget1 Hmap1)
    as [gs [w1 [Hrun1 [Hall1 [Hh1 [Hg1 [Hs1 [Hsg1 Hst1]]]]]]]].
  assert (Hget2' : get_fulfilled (host w1) (gets w1) = true)
    by now rewrite Hh1, Hg1.
  assert (Hmap2' : mappable (stored_todos w1)) by now rewrite Hst1.
  destruct (loadTodos_mappable (with_groups gs m) w1 Hget2' Hmap2')
    as [ts [w2 [Hrun2 [Hall2 [Hh2 [Hg2 [Hs2 [Hsg2 Hst2]]]]]]]].
  assert (Hlen : Nat.eqb (List.length gs) 0 = false).
  { apply Nat.eqb_neq. intros E. apply (some_match_filter _ _ Hsome).
    apply length_zero_iff_nil. now rewrite (Forall2_length Hall1). }
  exists (TodoManager.mk ts gs (TodoManager.currentFilter m) true), w2.
  split.
  - unfold TodoManager.initialize. apply try_catch_return.
    rewrite (bind_return _ _ _ _ _ Hrun1).
    rewrite (bind_return _ _ _ _ _ Hrun2).
    rewrite bind_this_groups.
    cbn [TodoManager.groups with_todos with_groups]. rewrite Hlen.
    reflexivity.
  - cbn [TodoManager.groups TodoManager.todos TodoManager.isInitialized
         TodoManager.currentFilter].
    split; [exact Hall1|]. split; [now rewrite <- Hst1|].
    split; [reflexivity|]. split; [reflexivity|].
    split; [now rewrite Hs2|]. split; [now rewrite Hsg2|now rewrite Hst2].
Qed.

Lemma initialize_loads_what_is_stored_witness :
  some_match loads_as_group (records_in shuffled_store)
  /\ exists m' w',
       TodoManager.initialize
         (TodoManager.constructor,
          fresh_world ticking_host shuffled_store
            (StoredArray [ JStr (lit "junk"); loose_todo_record ]))
       = (Return tt, (m', w'))
       /\ List.length (TodoManager.groups m') = 3
       /\ List.length (TodoManager.todos m') = 1
       /\ TodoManager.isInitialized m' = true
       /\ sets w' = 0.
Proof.
  assert (H : some_match loads_as_group (records_in shuffled_store)).
  { exists (group_record 10 "a" "Home" 1). split; [now left|reflexivity]. }
  split; [exact H|].
  destruct (initialize_loads_what_is_stored TodoManager.constructor
              (fresh_world ticking_host shuffled_store
                 (StoredArray [ JStr (lit "junk"); loose_todo_record ]))
              eq_refl eq_refl H I)
    as [m' [w' [Hrun [Hgs [Hts [Hini [_ [Hsets _]]]]]]]].
  exists m', w'. split; [exact Hrun|].
  split; [now rewrite <- (Forall2_length Hgs)|].
  split; [now rewrite <- (Forall2_length Hts)|].
  split; [exact Hini|exact Hsets].
Defined.

Lemma initialize_unreadable_groups m w :
  get_fulfilled (host w) (gets w) = false \/ ~ mappable (stored_groups w) ->
  exists w',
    TodoManager.initialize (m, w)
    = (Throw (StorageError "Failed to initialize todo manager"), (m, w'))
    /\ sets w' = sets w
    /\ stored_groups w' = stored_groups w
    /\ stored_todos w' = stored_todos w.
Proof.
  intros H. destruct (loadGroups_fails m w H) as [w' [Hrun Hframe]].
  exists w'. split; [|exact Hframe]. unfold TodoManager.initialize.
  rewrite (try_catch_throw _ _ _
             (StorageError "Failed to load groups from storage") (m, w'));
    [reflexivity|].
  now apply bind_throw.
Qed.

Lemma initialize_unreadable_todos m w :
  get_fulfilled (host w) (gets w) = true ->
  mappable (stored_groups w) ->
  get_fulfilled (host w) (S (gets w)) = false
  \/ ~ mappable (stored_todos w) ->
  exists gs w',
    TodoManager.initialize (m, w)
    = (Throw (StorageError "Failed to initialize todo manager"),
       (with_groups gs m, w'))
    /\ Forall2 (group_loaded_from (host w))
               (filter loads_as_group (records_in (stored_groups w))) gs
    /\ sets w' = sets w
    /\ stored_groups w' = stored_groups w
    /\ stored_todos w' = stored_todos w.
Proof.
  intros Hget1 Hmap1 H.
  destruct (loadGroups_mappable m w Hget1 Hmap1)
    as [gs [w1 [Hrun1 [Hall1 [Hh1 [Hg1 [Hs1 [Hsg1 Hst1]]]]]]]].
  assert (H' : get_fulfilled (host w1) (gets w1) = false
               \/ ~ mappable (stored_todos w1))
    by now rewrite Hh1, Hg1, Hst1.
  destruct (loadTodos_fails (with_groups gs m) w1 H')
    as [w2 [Hrun2 [Hs2 [Hsg2 Hst2]]]].
  exists gs, w2. split.
  - unfold TodoManager.initialize.
    rewrite (try_catch_throw _ _ _
               (StorageError "Failed to load todos from storage")
               (with_groups gs m, w2)); [reflexivity|].
    rewrite (bind_return _ _ _ _ _ Hrun1). now apply bind_throw.
  - split; [exact Hall1|].
    split; [now rewrite Hs2|]. split; [now rewrite Hsg2|now rewrite Hst2].
Qed.

(** X22.  [initialize] ends in the [StorageError] "Failed to initialize
    todo manager" when a key cannot be read (the call is rejected, or
    the key holds a truthy value that is no array).  If that is the
    groups key the manager is as it was.  If it is the todos key, the
    groups have been loaded already and stay in the manager, while the
    todos and [isInitialized] are as before.  In either case no write
    is issued and both keys hold what they held. *)
Theorem initialize_fails_when_a_key_cannot_be_read :
  forall m w,
    (get_fulfilled (host w) (gets w) = false \/ ~ mappable (stored_groups w) ->
     exists w',
       TodoManager.initialize (m, w)
       = (Throw (StorageError "Failed to initialize todo manager"), (m, w'))
       /\ sets w' = sets w
       /\ stored_groups w' = stored_groups w
       /\ stored_todos w' = stored_todos w)
    /\ (get_fulfilled (host w) (gets w) = true ->
        mappable (stored_groups w) ->
        get_fulfilled (host w) (S (gets w)) = false
        \/ ~ mappable (stored_todos w) ->
        exists gs w',
          TodoManager.initialize (m, w)
          = (Throw (StorageError "Failed to initialize todo manager"),
             (with_groups gs m, w'))
          /\ Forall2 (group_loaded_from (host w))
                     (filter loads_as_group (records_in (stored_groups w)))
                     gs
          /\ sets w' = sets w
          /\ stored_groups w' = stored_groups w
          /\ stored_todos w' = stored_todos w).
Proof.
  intros m w. split.
  - apply initialize_unreadable_groups.
  - apply initialize_unreadable_todos.
Qed.

Lemma initialize_fails_when_a_key_cannot_be_read_witness :
  (exists w',
      TodoManager.initialize
        (milk_manager, fresh_world offline_host shuffled_store Absent)
      = (Throw (StorageError "Failed to initialize todo manager"),
         (milk_manager, w'))
      /\ sets w' = 0
      /\ stored_groups w' = shuffled_store
      /\ stored_todos w' = Absent)
  /\ (~ mappable (StoredOther (JStr (lit "oops")))
      /\ exists gs w',
           TodoManager.initialize
             (milk_manager,
              fresh_world ticking_host shuffled_store
                (StoredOther (JStr (lit "oops"))))
           = (Throw (StorageError "Failed to initialize todo manager"),
              (with_groups gs milk_manager, w'))
           /\ List.length gs = 3
           /\ sets w' = 0
           /\ stored_groups w' = shuffled_store
           /\ stored_todos w' = StoredOther (JStr (lit "oops"))).
Proof.
  split.
  - apply (proj1 (initialize_fails_when_a_key_cannot_be_read milk_manager
                    (fresh_world offline_host shuffled_store Absent))).
    now left.
  - assert (H : ~ mappable (StoredOther (JStr (lit "oops"))))
      by (intros H; discriminate H).
    split; [exact H|].
    destruct (proj2 (initialize_fails_when_a_key_cannot_be_read milk_manager
                       (fresh_world ticking_host shuffled_store
                          (StoredOther (JStr (lit "oops")))))
                eq_refl I (or_intror H))
      as [gs [w' [Hrun [Hall Hframe]]]].
    exists gs, w'. split; [exact Hrun|].
    split; [now rewrite <- (Forall2_length Hall)|exact Hframe].
Defined.

Lemma mappable_or_not stored : mappable stored \/ ~ mappable stored.
Proof.
  destruct stored as [|items|v]; simpl; try (left; exact I).
  destruct (ToBoolean v); [right; discriminate|left; reflexivity].
Qed.

Lemma Forall2_group_ok h vs gs :
  Forall2 (group_loaded_from h) vs gs -> Forall group_ok gs.
Proof.
  induction 1 as [|v g vs gs [_ [_ [_ Hok]]] _ IH]; constructor; assumption.
Qed.

(** X23.  Whenever [initialize] completes, the manager holds at least
    one group, every group is as the constructor guarantees (truthy id,
    trimmed name of 1 to 50 code units, position fixed by [|| 0]), and
    [isInitialized] is set: either some stored group loaded, or the
    default group was created and its write was fulfilled. *)
Theorem initialize_leaves_a_group :
  forall m w m' w',
    TodoManager.initialize (m, w) = (Return tt, (m', w')) ->
    TodoManager.groups m' <> []
    /\ Forall group_ok (TodoManager.groups m')
    /\ TodoManager.isInitialized m' = true.
Proof.
  intros m w m' w' Hrun.
  destruct (get_fulfilled (host w) (gets w)) eqn:Hget1;
    [|destruct (initialize_unreadable_groups m w (or_introl Hget1))
        as [x [Hx _]]; congruence].
  destruct (mappable_or_not (stored_groups w)) as [Hmap1|Hmap1];
    [|destruct (initialize_unreadable_groups m w (or_intror Hmap1))
        as [x [Hx _]]; congruence].
  destruct (get_fulfilled (host w) (S (gets w))) eqn:Hget2;
    [|destruct (initialize_unreadable_todos m w Hget1 Hmap1
                  (or_introl Hget2)) as [x [y [Hx _]]]; congruence].
  destruct (mappable_or_not (stored_todos w)) as [Hmap2|Hmap2];
    [|destruct (initialize_unreadable_todos m w Hget1 Hmap1
                  (or_intror Hmap2)) as [x [y [Hx _]]]; congruence].
  destruct (loadGroups_mappable m w Hget1 Hmap1)
    as [gs [w1 [Hrun1 [Hall1 [Hh1 [Hg1 [_ [_ Hst1]]]]]]]].
  assert (Hget2' : get_fulfilled (host w1) (gets w1) = true)
    by now rewrite Hh1, Hg1.
  assert (Hmap2' : mappable (stored_todos w1)) by now rewrite Hst1.
  destruct (loadTodos_mappable (with_groups gs m) w1 Hget2' Hmap2')
    as [ts [w2 [Hrun2 _]]].
  pose proof (Forall2_group_ok _ _ _ Hall1) as Hok.
  revert Hrun. unfold TodoManager.initialize, try_catch.
  rewrite (bind_return _ _ _ _ _ Hrun1).
  rewrite (bind_return _ _ _ _ _ Hrun2).
  rewrite bind_this_groups.
  cbn [TodoManager.groups with_todos with_groups].
  destruct gs as [|g r].
  - (* nothing loaded: the default group *)
    set (m2 := with_todos ts (with_groups [] m)).
    assert (Hname : accepted MAX_GROUP_NAME_LENGTH (lit "To Do"))
      by (vm_compute; split; lia).
    destruct (addGroup_run (lit "To Do") JUndefined m2 w2 (num_of_nat 0)
                Hname eq_refl) as [w3 [Hadd _]].
    cbn [List.length Nat.eqb].
    unfold bind at 1. unfold bind at 1.
    unfold TodoManager.createDefaultGroup, try_catch.
    unfold bind at 1. fold m2. rewrite Hadd.
    unfold unless_rejected.
    destruct (set_fulfilled (host w2) (sets w2)); [|discriminate].
    intros [= <- <-]. split; [discriminate|]. split; [|reflexivity].
    constructor; [|constructor]. now apply group_ok_new_group.
  - intros [= <- <-]. split; [discriminate|]. split; [exact Hok|reflexivity].
Qed.

Lemma initialize_leaves_a_group_witness :
  TodoManager.groups (fst loaded_shuffled) <> []
  /\ Forall group_ok (TodoManager.groups (fst loaded_shuffled))
  /\ TodoManager.isInitialized (fst loaded_shuffled) = true.
Proof.
  apply (initialize_leaves_a_group TodoManager.constructor
           (fresh_world ticking_host shuffled_store Absent)
           (fst loaded_shuffled) (snd loaded_shuffled)).
  vm_compute. reflexivity.
Defined.

(** ** addGroup *)

Lemma ascending_snoc gs g :
  ascending gs -> Forall (fun x => not_after x g) gs -> ascending (gs ++ [g]).
Proof.
  unfold ascending. induction 1 as [|x r Hr IH Hx]; intros Hall; simpl.
  - repeat constructor.
  - inversion Hall as [|? ? Hxg Hrg]; subst.
    constructor; [now apply IH|].
    apply Forall_app. split; [exact Hx|now constructor].
Qed.

(** X24.  [addGroup] with an accepted name and a position [Number]
    converts puts the new group among the groups, each of the others
    still there once, and leaves the todos alone; it returns the group
    when the write is fulfilled and ends in its [StorageError], the
    group added, when it is rejected.  With no NaN position the groups
    end up in ascending order of position; if they were in that order
    and none sorts behind the new group, the new group is the last one.
    Without a position (undefined or null) the new group's position is
    the number of groups there were, whatever their positions are. *)
Theorem addGroup_inserts_by_position :
  forall s position m w n,
    accepted MAX_GROUP_NAME_LENGTH s ->
    ToNumber (host w) (default_arg (JNum num_zero) (newPosition_of position m))
    = Some n ->
    exists m' w',
      TodoManager.addGroup (JStr s) position (m, w)
      = (unless_rejected w (new_group w s n) "Failed to add group", (m', w'))
      /\ Permutation (TodoManager.groups m')
                     (new_group w s n :: TodoManager.groups m)
      /\ TodoManager.todos m' = TodoManager.todos m
      /\ (Forall regular (TodoManager.groups m) ->
          ascending (TodoManager.groups m'))
      /\ (ascending (TodoManager.groups m) ->
          Forall (fun g => not_after g (new_group w s n))
                 (TodoManager.groups m) ->
          TodoManager.groups m' = TodoManager.groups m ++ [new_group w s n])
      /\ (position = JUndefined \/ position = JNull ->
          TodoGroup.position (new_group w s n)
          = num_of_nat (List.length (TodoManager.groups m))).
Proof.
  intros s position m w n Hs Hn.
  destruct (addGroup_run s position m w n Hs Hn) as [w' [Hrun _]].
  eexists. exists w'. split; [exact Hrun|].
  cbn [TodoManager.groups TodoManager.todos with_groups].
  split; [|split; [reflexivity|split; [|split]]].
  - eapply Permutation_trans; [apply Array_sort_perm|].
    apply Permutation_sym, Permutation_cons_append.
  - intros Hreg. apply Array_sort_is_ascending.
    apply Forall_app. split; [exact Hreg|].
    constructor; [apply or_zero_regular|constructor].
  - intros Hasc Hall. apply Array_sort_ascending.
    now apply ascending_snoc.
  - intros Hpos. cbn [new_group TodoGroup.position].
    assert (E : newPosition_of position m
                = JNum (num_of_nat (List.length (TodoManager.groups m))))
      by (destruct Hpos as [-> | ->]; reflexivity).
    rewrite E in Hn. cbn in Hn. injection Hn as <-.
    apply or_zero_num_of_nat.
Qed.

Lemma addGroup_inserts_by_position_witness :
  accepted MAX_GROUP_NAME_LENGTH (lit " Errands ")
  /\ (exists m' w',
         TodoManager.addGroup (JStr (lit " Errands ")) (JNum (num_of_nat 7))
           (two_group_manager, fresh_world ticking_host Absent Absent)
         = (Return
              (new_group (fresh_world ticking_host Absent Absent)
                 (lit " Errands ") (num_of_nat 7)),
            (m', w'))
         /\ List.map TodoGroup.name (TodoManager.groups m')
            = [lit "Work"; lit "Home"; lit "Errands"]
         /\ ascending (TodoManager.groups m'))
  /\ TodoGroup.position
       (new_group (fresh_world ticking_host Absent Absent) (lit " Errands ")
          (num_of_nat 2))
     = num_of_nat 2.
Proof.
  assert (Hs : accepted MAX_GROUP_NAME_LENGTH (lit " Errands "))
    by (vm_compute; split; lia).
  split; [exact Hs|]. split.
  - destruct (addGroup_inserts_by_position (lit " Errands ")
                (JNum (num_of_nat 7)) two_group_manager
                (fresh_world ticking_host Absent Absent) (num_of_nat 7)
                Hs eq_refl)
      as [m' [w' [Hrun [_ [_ [Hsorted [Hlast _]]]]]]].
    exists m', w'. split; [exact Hrun|]. split.
    + rewrite Hlast; [reflexivity|repeat constructor|].
      repeat constructor.
    + apply Hsorted. repeat constructor; discriminate.
  - destruct (addGroup_inserts_by_position (lit " Errands ") JUndefined
                two_group_manager (fresh_world ticking_host Absent Absent)
                (num_of_nat 2) Hs eq_refl)
      as [m' [w' [_ [_ [_ [_ [_ Hpos]]]]]]].
    apply Hpos. now left.
Defined.

(** ** The two writes of removeGroup *)

Lemma removeGroup_exact groupId m w before g after :
  TodoManager.groups m = before ++ g :: after ->
  group_is groupId g = true ->
  no_match (group_is groupId) before ->
  let m' := TodoManager.mk
              (filter (fun todo => negb (in_group groupId todo))
                      (TodoManager.todos m))
              (renumbered (host w) (clock_reads w) 0 (before ++ after))
              (TodoManager.currentFilter m) (TodoManager.isInitialized m) in
  let w0 := advance (List.length (before ++ after)) 0 0 w in
  let w1 := saved GROUPS_STORAGE_KEY
              (group_records (next_ref w0) (TodoManager.groups m')) w0 in
  TodoManager.removeGroup groupId (m, w)
  = ((if set_fulfilled (host w) (sets w)
         && set_fulfilled (host w) (S (sets w))
      then Return true
      else Throw (StorageError "Failed to remove group")),
     (m', saved STORAGE_KEY
            (todo_records (next_ref w1) (TodoManager.todos m')) w1)).
Proof.
  intros Hgs Hg Hbefore m' w0 w1.
  destruct (saved_frame GROUPS_STORAGE_KEY
              (group_records (next_ref w0) (TodoManager.groups m')) w0)
    as [Hh1 [Hs1 _]]. fold w1 in Hh1, Hs1.
  unfold TodoManager.removeGroup, try_catch.
  rewrite bind_this_groups. fold (group_is groupId).
  unfold Array_findIndex. rewrite Hgs.
  rewrite (findIndex_from_found (group_is groupId) before g after Hg Hbefore
             0%Z).
  replace (0 + Z.of_nat (List.length before) =? -1)%Z with false
    by (symmetry; apply Z.eqb_neq; lia).
  rewrite bind_this_todos, bind_set_todos, bind_this_groups, bind_set_groups.
  rewrite bind_this_groups.
  cbn [with_groups with_todos TodoManager.groups TodoManager.todos
       TodoManager.currentFilter TodoManager.isInitialized].
  rewrite Z.add_0_l. unfold Array_splice1.
  rewrite Hgs, Nat2Z.id, remove_at_middle.
  rewrite bind_host_call, forEach_updatePosition, bind_set_groups.
  change (with_groups
            (renumbered (host w) (clock_reads w) 0 (before ++ after))
            (with_groups (before ++ after)
               (with_todos
                  (filter
                     (fun todo =>
                        negb (strict_equals (TodoItem.groupId todo) groupId))
                     (TodoManager.todos m)) m)))
    with m'.
  fold w0.
  unfold bind at 1. unfold TodoManager.Promise_all2.
  rewrite saveGroups_exact. fold w1. rewrite saveTodos_exact.
  unfold unless_rejected. rewrite Hh1, Hs1.
  cbn [w0 advance host sets].
  destruct (set_fulfilled (host w) (sets w));
    destruct (set_fulfilled (host w) (S (sets w))); reflexivity.
Qed.

(** X25.  [removeGroup] issues its two writes independently of each
    other: the groups key holds the records of the remaining groups if
    the first write is fulfilled and what it held otherwise, and the
    todos key the records of the remaining todos if the second one is
    and what it held otherwise.  So a call that ends in its
    [StorageError] may have updated one key and not the other; it
    returns [true] exactly when both writes are fulfilled. *)
Theorem removeGroup_writes_the_two_keys_independently :
  forall groupId m w,
    some_match (group_is groupId) (TodoManager.groups m) ->
    exists r m' w' ref1 ref2,
      TodoManager.removeGroup groupId (m, w) = (r, (m', w'))
      /\ stored_groups w'
         = (if set_fulfilled (host w) (sets w)
            then StoredArray (group_records ref1 (TodoManager.groups m'))
            else stored_groups w)
      /\ stored_todos w'
         = (if set_fulfilled (host w) (S (sets w))
            then StoredArray (todo_records ref2 (TodoManager.todos m'))
            else stored_todos w)
      /\ (r = Return true <->
          set_fulfilled (host w) (sets w) = true
          /\ set_fulfilled (host w) (S (sets w)) = true).
Proof.
  intros groupId m w Hsome.
  destruct (first_match _ _ Hsome) as [before [g [after [Hgs [Hg Hb]]]]].
  pose proof (removeGroup_exact groupId m w before g after Hgs Hg Hb) as Hrun.
  cbv zeta in Hrun.
  set (m' := TodoManager.mk _ _ _ _) in Hrun.
  set (w0 := advance (List.length (before ++ after)) 0 0 w) in Hrun.
  set (gr := group_records (next_ref w0) (TodoManager.groups m')) in Hrun.
  set (w1 := saved GROUPS_STORAGE_KEY gr w0) in Hrun.
  set (tr := todo_records (next_ref w1) (TodoManager.todos m')) in Hrun.
  destruct (saved_frame GROUPS_STORAGE_KEY gr w0) as [Hh1 [Hs1 _]].
  destruct (saved_store GROUPS_STORAGE_KEY gr w0) as [Hgy Hgn].
  destruct (saved_store STORAGE_KEY tr w1) as [Hty Htn].
  fold w1 in Hh1, Hs1, Hgy, Hgn, Hty, Htn.
  rewrite Hh1, Hs1 in Hty, Htn.
  cbn [w0 advance host sets stored_groups stored_todos] in Hgy, Hgn, Hty, Htn.
  eexists. exists m'. eexists. exists (next_ref w0), (next_ref w1).
  split; [exact Hrun|].
  fold gr. fold tr.
  destruct (set_fulfilled (host w) (sets w)) eqn:E1;
    destruct (set_fulfilled (host w) (S (sets w))) eqn:E2;
    cbn [andb].
  - destruct (Hgy eq_refl) as [G1 G2]. destruct (Hty eq_refl) as [T1 T2].
    split; [now rewrite T2|]. split; [exact T1|]. now split.
  - destruct (Hgy eq_refl) as [G1 G2]. destruct (Htn eq_refl) as [T1 T2].
    split; [now rewrite T1|]. split; [now rewrite T2, G2|].
    split; [discriminate|intros [_ H]; discriminate].
  - destruct (Hgn eq_refl) as [G1 G2]. destruct (Hty eq_refl) as [T1 T2].
    split; [now rewrite T2, G1|]. split; [exact T1|].
    split; [discriminate|intros [H _]; discriminate].
  - destruct (Hgn eq_refl) as [G1 G2]. destruct (Htn eq_refl) as [T1 T2].
    split; [now rewrite T1, G1|]. split; [now rewrite T2, G2|].
    split; [discriminate|intros [H _]; discriminate].
Qed.

Lemma removeGroup_writes_the_two_keys_independently_witness :
  some_match (group_is (JStr (lit "g1")))
             (TodoManager.groups two_group_manager)
  /\ exists m' w' ref1,
       TodoManager.removeGroup (JStr (lit "g1"))
         (two_group_manager,
          fresh_world second_write_fails Absent
            (StoredArray [loose_todo_record]))
       = (Throw (StorageError "Failed to remove group"), (m', w'))
       /\ TodoManager.todos m' = []
       /\ stored_groups w'
          = StoredArray (group_records ref1 (TodoManager.groups m'))
       /\ stored_todos w' = StoredArray [loose_todo_record].
Proof.
  assert (H : some_match (group_is (JStr (lit "g1")))
                (TodoManager.groups two_group_manager)).
  { exists work_group. split; [now left|reflexivity]. }
  split; [exact H|].
  destruct (removeGroup_writes_the_two_keys_independently (JStr (lit "g1"))
              two_group_manager
              (fresh_world second_write_fails Absent
                 (StoredArray [loose_todo_record])) H)
    as [r [m' [w' [ref1 [ref2 [Hrun [Hg [Ht _]]]]]]]].
  exists m', w', ref1.
  assert (E : TodoManager.removeGroup (JStr (lit "g1"))
                (two_group_manager,
                 fresh_world second_write_fails Absent
                   (StoredArray [loose_todo_record]))
              = (Throw (StorageError "Failed to remove group"),
                 snd (TodoManager.removeGroup (JStr (lit "g1"))
                        (two_group_manager,
                         fresh_world second_write_fails Absent
                           (StoredArray [loose_todo_record])))))
    by (vm_compute; reflexivity).
  rewrite Hrun in E. injection E as ->.
  split; [exact Hrun|].
  split; [|split; [exact Hg|exact Ht]].
  pose proof (f_equal (fun x => TodoManager.todos (fst (snd x))) Hrun) as Hm.
  cbn [fst snd] in Hm. rewrite <- Hm. vm_compute. reflexivity.
Defined.
